(** * PacManRealFinal: a shallow embedding of the tile-based maze game

    The development follows [PacManRealFinal.py] top to bottom: the maze and
    its utilities, the level set-up, the mode sequence, the three entity
    classes ([TileMover], [Pacman], [Ghost]), the global game operations and
    one iteration of the main loop.  Properties of the code are stated and
    proved at the end of the file.

    Python integers are modelled by [Z].  Python floats (pixel positions,
    speeds, distances) are kept behind the interface [FloatOps], so that all
    general theorems hold for every implementation of the float operations;
    concrete runs use IEEE binary64 through Rocq's primitive floats. *)

From Stdlib Require Import ZArith QArith Bool List String Ascii Lia Sorted.
From Stdlib Require Import Floats Uint63.
From stdpp Require Import base decidable countable gmap.
Import ListNotations.

Local Open Scope string_scope.
Local Open Scope Z_scope.

(** ** Floats *)

(** The float operations the program uses.  [float_of_int] is [float(n)] and
    the implicit conversion of an int operand in mixed arithmetic;
    [float_lit] is a decimal literal such as [2.6]; [hypot] is [math.hypot]. *)
Class FloatOps (F : Type) := {
  float_of_int : Z -> F;
  float_lit : Q -> F;
  fadd : F -> F -> F;
  fsub : F -> F -> F;
  fmul : F -> F -> F;
  fdiv : F -> F -> F;
  fabs : F -> F;
  hypot : F -> F -> F;
  fltb : F -> F -> bool;
  fleb : F -> F -> bool
}.

(** The display the game runs on: [screen.get_size()]. *)
Class Screen := {
  SCREEN_W : Z;
  SCREEN_H : Z
}.

(** ** CONFIG *)

Definition MAZE : list string := [
"############################";
"#............##............#";
"#.####.#####.##.#####.####.#";
"#o####.#####.##.#####.####o#";
"#.####.#####.##.#####.####.#";
"#..........................#";
"#.####.##.########.##.####.#";
"#.####.##.########.##.####.#";
"#......##....##....##......#";
"######.#####.##.#####.######";
"     #.#####.##.#####.#     ";
"     #.##          ##.#     ";
"     #.## ###--### ##.#     ";
"######.## #      # ##.######";
"      .   # GG   #   .      ";
"######.## #      # ##.######";
"     #.## ######## ##.#     ";
"     #.##          ##.#     ";
"     #.## ######## ##.#     ";
"######.## ######## ##.######";
"#............##............#";
"#.####.#####.##.#####.####.#";
"#.####.#####.##.#####.####.#";
"#o..##................##..o#";
"###.##.##.########.##.##.###";
"###.##.##.########.##.##.###";
"#......##....##....##......#";
"#.##########.##.##########.#";
"#.##########.##.##########.#";
"#..........................#";
"############################"
].

Definition MAZE_W : Z := Z.of_nat (String.length (nth 0 MAZE "")).
Definition MAZE_H : Z := Z.of_nat (List.length MAZE).

Definition FPS : Z := 60.

Section Display.
Context `{Screen}.

(** [TILE] starts at 24 and is adapted when the maze does not fit. *)
Definition TILE : Z :=
  if (MAZE_W * 24 >? SCREEN_W) || (MAZE_H * 24 >? SCREEN_H)
  then Z.max 8 (Z.min (SCREEN_W / MAZE_W) (SCREEN_H / MAZE_H))
  else 24.
Definition MAZE_PIXEL_W : Z := MAZE_W * TILE.
Definition MAZE_PIXEL_H : Z := MAZE_H * TILE.
Definition OFFSET_X : Z := (SCREEN_W - MAZE_PIXEL_W) / 2.
Definition OFFSET_Y : Z := (SCREEN_H - MAZE_PIXEL_H) / 2.

Definition tile_center_pixel (tx ty : Z) : Z * Z :=
  (OFFSET_X + tx * TILE + TILE / 2, OFFSET_Y + ty * TILE + TILE / 2).
End Display.

(** ** UTILS *)

Definition in_bounds (x y : Z) : bool :=
  (0 <=? x) && (x <? MAZE_W) && (0 <=? y) && (y <? MAZE_H).

(** [MAZE[y][x]] for indices that are in bounds; [None] stands for Python's
    [IndexError] (the callers test [in_bounds] first). *)
Definition maze_at (x y : Z) : option ascii :=
  match nth_error MAZE (Z.to_nat y) with
  | Some row => String.get (Z.to_nat x) row
  | None => None
  end.

Definition is_hash (c : option ascii) : bool :=
  match c with
  | Some ch => Ascii.eqb ch "#"%char
  | None => false
  end.

Definition is_wall (x y : Z) : bool :=
  if negb (in_bounds x y) then true else is_hash (maze_at x y).

Definition is_open (x y : Z) : bool :=
  if negb (in_bounds x y) then false else negb (is_hash (maze_at x y)).

(** ** LEVEL SETUP *)

(** [enumerate(row)] from index [i]. *)
Fixpoint enumerate_row (i : Z) (row : string) : list (Z * ascii) :=
  match row with
  | EmptyString => []
  | String ch rest => (i, ch) :: enumerate_row (i + 1) rest
  end.

(** The nested loop [for y,row in enumerate(MAZE): for x,ch in enumerate(row)]
    as the list of its iterations [((x, y), ch)], in order. *)
Fixpoint enumerate_maze (y : Z) (rows : list string) : list ((Z * Z) * ascii) :=
  match rows with
  | [] => []
  | row :: rest =>
      List.map (fun p => ((fst p, y), snd p)) (enumerate_row 0 row)
      ++ enumerate_maze (y + 1) rest
  end.

Definition maze_cells : list ((Z * Z) * ascii) := enumerate_maze 0 MAZE.

Abbreviation tiles := (gset (Z * Z)).

Record Level := {
  lv_pellets : tiles;
  lv_power_pellets : tiles;
  lv_ghost_starts : list (Z * Z);
  lv_pac_start : option (Z * Z)
}.

(** One iteration of the first set-up loop (lines 108-113). *)
Definition load_cell (lv : Level) (c : (Z * Z) * ascii) : Level :=
  let '(xy, ch) := c in
  if Ascii.eqb ch "."%char then
    {| lv_pellets := {[xy]} ∪ lv_pellets lv;
       lv_power_pellets := lv_power_pellets lv;
       lv_ghost_starts := lv_ghost_starts lv;
       lv_pac_start := lv_pac_start lv |}
  else if Ascii.eqb ch "o"%char then
    {| lv_pellets := lv_pellets lv;
       lv_power_pellets := {[xy]} ∪ lv_power_pellets lv;
       lv_ghost_starts := lv_ghost_starts lv;
       lv_pac_start := lv_pac_start lv |}
  else if Ascii.eqb ch "G"%char then
    {| lv_pellets := lv_pellets lv;
       lv_power_pellets := lv_power_pellets lv;
       lv_ghost_starts := lv_ghost_starts lv ++ [xy];
       lv_pac_start := lv_pac_start lv |}
  else if Ascii.eqb ch "P"%char then
    {| lv_pellets := lv_pellets lv;
       lv_power_pellets := lv_power_pellets lv;
       lv_ghost_starts := lv_ghost_starts lv;
       lv_pac_start := Some xy |}
  else lv.

Definition empty_level : Level :=
  {| lv_pellets := ∅; lv_power_pellets := ∅;
     lv_ghost_starts := []; lv_pac_start := None |}.

Definition initial_load : Level := fold_left load_cell maze_cells empty_level.

Definition pac_start : Z * Z :=
  match lv_pac_start initial_load with
  | Some p => p
  | None => (14, 23)
  end.

Definition ghost_starts : list (Z * Z) :=
  if (Z.of_nat (List.length (lv_ghost_starts initial_load)) <? 4)
  then [(13, 14); (14, 14); (12, 14); (15, 14)]
  else lv_ghost_starts initial_load.

(** One iteration of the second set-up loop (lines 121-125): pellets on the
    blank tiles outside the ghost box. *)
Definition add_blank_pellet (ps : tiles) (c : (Z * Z) * ascii) : tiles :=
  let '((x, y), ch) := c in
  if Ascii.eqb ch " "%char then
    if negb ((10 <=? x) && (x <=? 17) && (11 <=? y) && (y <=? 16))
    then {[(x, y)]} ∪ ps
    else ps
  else ps.

(** The module-level [pellets] once the level set-up (lines 103-125) is done. *)
Definition setup_pellets : tiles :=
  fold_left add_blank_pellet maze_cells (lv_pellets initial_load).
Definition setup_power_pellets : tiles := lv_power_pellets initial_load.

(** ** GAME MODE *)

Inductive Mode := scatter | chase | frightened | eyes.

Definition Mode_eqb (a b : Mode) : bool :=
  match a, b with
  | scatter, scatter | chase, chase | frightened, frightened | eyes, eyes => true
  | _, _ => false
  end.

Definition MODE_SEQUENCE : list (Mode * Z) :=
  [(scatter, 7); (chase, 20); (scatter, 7); (chase, 20);
   (scatter, 5); (chase, 20); (scatter, 5); (chase, 9999)].

Definition FRIGHT_DURATION : Z := 8 * FPS.

(** ** ENTITIES (TILE-BASED Movement with warp support) *)

Module TileMover.
Section TileMover.
Context {F : Type} `{FloatOps F} `{Screen}.

(** The attributes [__init__] creates (lines 138-148). *)
Record t := {
  tx : Z; ty : Z;
  px : F; py : F;
  dx : Z; dy : Z;
  next_dx : Z; next_dy : Z;
  moving : bool;
  speed : F;
  warping : bool;
  warp_target : option (Z * Z)
}.

Definition set_tile (m : t) (x y : Z) : t :=
  {| tx := x; ty := y; px := px m; py := py m; dx := dx m; dy := dy m;
     next_dx := next_dx m; next_dy := next_dy m; moving := moving m;
     speed := speed m; warping := warping m; warp_target := warp_target m |}.
Definition set_pixel (m : t) (x y : F) : t :=
  {| tx := tx m; ty := ty m; px := x; py := y; dx := dx m; dy := dy m;
     next_dx := next_dx m; next_dy := next_dy m; moving := moving m;
     speed := speed m; warping := warping m; warp_target := warp_target m |}.
Definition set_dir (m : t) (x y : Z) : t :=
  {| tx := tx m; ty := ty m; px := px m; py := py m; dx := x; dy := y;
     next_dx := next_dx m; next_dy := next_dy m; moving := moving m;
     speed := speed m; warping := warping m; warp_target := warp_target m |}.
Definition set_next (m : t) (x y : Z) : t :=
  {| tx := tx m; ty := ty m; px := px m; py := py m; dx := dx m; dy := dy m;
     next_dx := x; next_dy := y; moving := moving m;
     speed := speed m; warping := warping m; warp_target := warp_target m |}.
Definition set_moving (m : t) (b : bool) : t :=
  {| tx := tx m; ty := ty m; px := px m; py := py m; dx := dx m; dy := dy m;
     next_dx := next_dx m; next_dy := next_dy m; moving := b;
     speed := speed m; warping := warping m; warp_target := warp_target m |}.
Definition set_speed (m : t) (s : F) : t :=
  {| tx := tx m; ty := ty m; px := px m; py := py m; dx := dx m; dy := dy m;
     next_dx := next_dx m; next_dy := next_dy m; moving := moving m;
     speed := s; warping := warping m; warp_target := warp_target m |}.
Definition set_warp (m : t) (b : bool) (w : option (Z * Z)) : t :=
  {| tx := tx m; ty := ty m; px := px m; py := py m; dx := dx m; dy := dy m;
     next_dx := next_dx m; next_dy := next_dy m; moving := moving m;
     speed := speed m; warping := b; warp_target := w |}.

(** [float(cx), float(cy)] for the centre of a tile. *)
Definition center_float (x y : Z) : F * F :=
  let '(cx, cy) := tile_center_pixel x y in (float_of_int cx, float_of_int cy).

Definition init (tile : Z * Z) : t :=
  let '(x, y) := tile in
  let '(cx, cy) := center_float x y in
  {| tx := x; ty := y; px := cx; py := cy; dx := 0; dy := 0;
     next_dx := 0; next_dy := 0; moving := false;
     speed := float_lit (22 # 10); warping := false; warp_target := None |}.

Definition at_center (m : t) : bool :=
  let '(cx, cy) := tile_center_pixel (tx m) (ty m) in
  fltb (fabs (fsub (px m) (float_of_int cx))) (float_lit 1)
  && fltb (fabs (fsub (py m) (float_of_int cy))) (float_lit 1).

(** [start_move]: the mover after the call, and the returned boolean. *)
Definition start_move (m : t) (dx_ dy_ : Z) : t * bool :=
  let nx := tx m + dx_ in
  let ny := ty m + dy_ in
  if is_open nx ny then
    (set_warp (set_moving (set_dir m dx_ dy_) true) false None, true)
  else if (dy_ =? 0) && ((nx <? 0) || (nx >=? MAZE_W) || negb (is_open nx ny)) then
    let wrapped_x := nx mod MAZE_W in
    if is_open wrapped_x ny then
      (set_warp (set_moving (set_dir m dx_ dy_) true) true (Some (wrapped_x, ny)), true)
    else (m, false)
  else (m, false).

Definition stop (m : t) : t :=
  let m := set_dir m 0 0 in
  let m := set_moving m false in
  let m := set_warp m false None in
  let '(cx, cy) := center_float (tx m) (ty m) in
  set_pixel m cx cy.

Definition update_position_pixels (m : t) : t :=
  if negb (moving m) then m else
  let target_tx := tx m + dx m in
  let target_ty := ty m + dy m in
  let '(target_cx, target_cy) := tile_center_pixel target_tx target_ty in
  let vx := fsub (float_of_int target_cx) (px m) in
  let vy := fsub (float_of_int target_cy) (py m) in
  let dist := hypot vx vy in
  if fleb dist (speed m) then
    match warping m, warp_target m with
    | true, Some (wx, wy) =>
        let m := set_tile m wx wy in
        let '(cx, cy) := center_float wx wy in
        let m := set_pixel m cx cy in
        let m := set_warp m false None in
        let m := set_moving m false in
        fst (start_move m (dx m) (dy m))
    | _, _ =>
        let m := set_tile m (tx m + dx m) (ty m + dy m) in
        let m := set_pixel m (float_of_int target_cx) (float_of_int target_cy) in
        set_moving m false
    end
  else
    set_pixel m (fadd (px m) (fmul (fdiv vx dist) (speed m)))
                (fadd (py m) (fmul (fdiv vy dist) (speed m))).
End TileMover.
Arguments t F : clear implicits.
End TileMover.

Module Pacman.
Section Pacman.
Context {F : Type} `{FloatOps F} `{Screen}.

(** A [Pacman] is a [TileMover] ([base]) with the attributes lines 232-237
    add. *)
Record t := {
  base : TileMover.t F;
  lives : Z;
  score : Z;
  alive : bool;
  respawn_timer : Z;
  radius : Z
}.

Definition set_base (p : t) (m : TileMover.t F) : t :=
  {| base := m; lives := lives p; score := score p; alive := alive p;
     respawn_timer := respawn_timer p; radius := radius p |}.
Definition set_score (p : t) (s : Z) : t :=
  {| base := base p; lives := lives p; score := s; alive := alive p;
     respawn_timer := respawn_timer p; radius := radius p |}.
Definition set_respawn_timer (p : t) (n : Z) : t :=
  {| base := base p; lives := lives p; score := score p; alive := alive p;
     respawn_timer := n; radius := radius p |}.

Definition init (tile : Z * Z) : t :=
  {| base := TileMover.set_speed (TileMover.init tile) (float_lit (26 # 10));
     lives := 3; score := 0; alive := true; respawn_timer := 0;
     radius := TILE / 2 - 2 |}.

Definition queue_dir (p : t) (dx_ dy_ : Z) : t :=
  set_base p (TileMover.set_next (base p) dx_ dy_).

Definition is_zero_dir (x y : Z) : bool := (x =? 0) && (y =? 0).

Definition update (p : t) : t :=
  let m := base p in
  let m :=
    if negb (TileMover.moving m) then
      if negb (is_zero_dir (TileMover.next_dx m) (TileMover.next_dy m)) then
        let '(m', ok) :=
          TileMover.start_move m (TileMover.next_dx m) (TileMover.next_dy m) in
        if ok then TileMover.set_next m' 0 0
        else if negb (is_zero_dir (TileMover.dx m') (TileMover.dy m'))
             then fst (TileMover.start_move m' (TileMover.dx m') (TileMover.dy m'))
             else m'
      else if negb (is_zero_dir (TileMover.dx m) (TileMover.dy m))
           then fst (TileMover.start_move m (TileMover.dx m) (TileMover.dy m))
           else m
    else m in
  set_base p (TileMover.update_position_pixels m).

Definition die (p : t) : t :=
  {| base := base p; lives := lives p - 1; score := score p; alive := false;
     respawn_timer := 2 * FPS; radius := radius p |}.

Definition respawn (p : t) : t :=
  let m := base p in
  let m := TileMover.set_tile m (fst pac_start) (snd pac_start) in
  let '(cx, cy) := TileMover.center_float (TileMover.tx m) (TileMover.ty m) in
  let m := TileMover.set_pixel m cx cy in
  let m := TileMover.set_dir m 0 0 in
  let m := TileMover.set_moving m false in
  let m := TileMover.set_warp m false None in
  {| base := m; lives := lives p; score := score p; alive := true;
     respawn_timer := respawn_timer p; radius := radius p |}.
End Pacman.
Arguments t F : clear implicits.
End Pacman.

Module Ghost.
Section Ghost.
Context {F : Type} `{FloatOps F} `{Screen}.

(** A [Ghost] is a [TileMover] ([base]) with the attributes lines 310-318
    add. *)
Record t := {
  base : TileMover.t F;
  idx : Z;
  mode : Mode;
  dead : bool;
  fright_timer : Z;
  speed_chase : F;
  speed_scatter : F;
  speed_fright : F;
  speed_eyes : F;
  start_tile : Z * Z
}.

Definition set_base (g : t) (m : TileMover.t F) : t :=
  {| base := m; idx := idx g; mode := mode g; dead := dead g;
     fright_timer := fright_timer g; speed_chase := speed_chase g;
     speed_scatter := speed_scatter g; speed_fright := speed_fright g;
     speed_eyes := speed_eyes g; start_tile := start_tile g |}.
Definition set_mode (g : t) (md : Mode) : t :=
  {| base := base g; idx := idx g; mode := md; dead := dead g;
     fright_timer := fright_timer g; speed_chase := speed_chase g;
     speed_scatter := speed_scatter g; speed_fright := speed_fright g;
     speed_eyes := speed_eyes g; start_tile := start_tile g |}.
Definition set_dead (g : t) (b : bool) : t :=
  {| base := base g; idx := idx g; mode := mode g; dead := b;
     fright_timer := fright_timer g; speed_chase := speed_chase g;
     speed_scatter := speed_scatter g; speed_fright := speed_fright g;
     speed_eyes := speed_eyes g; start_tile := start_tile g |}.
Definition set_fright_timer (g : t) (n : Z) : t :=
  {| base := base g; idx := idx g; mode := mode g; dead := dead g;
     fright_timer := n; speed_chase := speed_chase g;
     speed_scatter := speed_scatter g; speed_fright := speed_fright g;
     speed_eyes := speed_eyes g; start_tile := start_tile g |}.

Definition init (tile : Z * Z) (i : Z) : t :=
  {| base := TileMover.init tile; idx := i; mode := scatter; dead := false;
     fright_timer := 0;
     speed_chase := float_lit (16 # 10);
     speed_scatter := float_lit (14 # 10);
     speed_fright := float_lit 1;
     speed_eyes := float_lit (32 # 10);
     start_tile := tile |}.

Definition set_frightened (g : t) : t :=
  if negb (dead g)
  then set_fright_timer (set_mode g frightened) FRIGHT_DURATION
  else g.

Definition kill_and_become_eyes (g : t) : t :=
  let g := set_dead g true in
  let g := set_mode g eyes in
  let m := base g in
  let m := TileMover.set_dir m 0 0 in
  let m := TileMover.set_moving m false in
  let m := TileMover.set_warp m false None in
  set_base g m.

Definition target_tile (g : t) (pac : Pacman.t F) (blinky_tile : option (Z * Z))
  : Z * Z :=
  let p := Pacman.base pac in
  let px_ := TileMover.tx p in
  let py_ := TileMover.ty p in
  if idx g =? 0 then (px_, py_)
  else if idx g =? 1 then
    (px_ + 4 * TileMover.dx p, py_ + 4 * TileMover.dy p)
  else if idx g =? 2 then
    let '(bx, by_) := match blinky_tile with
                      | None => (px_, py_)
                      | Some b => b
                      end in
    let tx_ := px_ + 2 * TileMover.dx p in
    let ty_ := py_ + 2 * TileMover.dy p in
    (tx_ + (tx_ - bx), ty_ + (ty_ - by_))
  else
    let dist := hypot (float_of_int (px_ - TileMover.tx (base g)))
                      (float_of_int (py_ - TileMover.ty (base g))) in
    if fltb (float_of_int 8) dist then (px_, py_) else (0, MAZE_H - 1).

(** The directions both decision loops enumerate, in order:
    right, left, down, up. *)
Definition DIRS : list (Z * Z) := [(1, 0); (-1, 0); (0, 1); (0, -1)].

Definition dir_eqb (a b : Z * Z) : bool :=
  (fst a =? fst b) && (snd a =? snd b).

(** The loop of lines 358-363 (and again 397-402): a direction is appended
    when its tile is open, unless it is the reverse of the current one. *)
Definition candidates (m : TileMover.t F) : list (Z * Z) :=
  List.filter
    (fun d =>
       is_open (TileMover.tx m + fst d) (TileMover.ty m + snd d)
       && negb (dir_eqb (- fst d, - snd d) (TileMover.dx m, TileMover.dy m)))
    DIRS.

(** [if not choices: choices = [(-self.dx, -self.dy)]]. *)
Definition or_reverse (m : TileMover.t F) (l : list (Z * Z)) : list (Z * Z) :=
  match l with
  | [] => [(- TileMover.dx m, - TileMover.dy m)]
  | _ => l
  end.

(** One iteration of the loop of lines 367-372 on [(best, bestd)]. *)
Definition best_step (gx gy : Z) (target : Z * Z)
    (acc : option (Z * Z) * Z) (d : Z * Z) : option (Z * Z) * Z :=
  let nx := gx + fst d in
  let ny := gy + snd d in
  let dx_ := nx - fst target in
  let dy_ := ny - snd target in
  let dist := dx_ * dx_ + dy_ * dy_ in
  if dist <? snd acc then (Some d, dist) else acc.

(** [bestd] starts at the float [1e9]; Python compares an int with a float
    by value, so the integer [10^9] stands for it. *)
Definition choose_direction_toward (g : t) (target : Z * Z) : t :=
  let m := base g in
  let gx := TileMover.tx m in
  let gy := TileMover.ty m in
  let choices := or_reverse m (candidates m) in
  let '(best, _) :=
    fold_left (best_step gx gy target) choices (None, 10 ^ 9) in
  match best with
  | Some d => set_base g (TileMover.set_dir m (fst d) (snd d))
  | None => g
  end.

(** [corners[self.idx]] (line 409-410), with Python's negative indices;
    [(0, 0)] stands for an [IndexError], which no ghost of the game raises
    (their [idx] is 0..3). *)
Definition corners : list (Z * Z) :=
  [(MAZE_W - 1, 0); (0, 0); (MAZE_W - 1, MAZE_H - 1); (0, MAZE_H - 1)].
Definition corner (i : Z) : Z * Z :=
  nth (Z.to_nat (if i <? 0 then i + 4 else i)) corners (0, 0).

(** [random.choice(candid)] with [r] the index the generator draws. *)
Definition random_choice (r : nat) (l : list (Z * Z)) : Z * Z :=
  nth (r mod List.length l) l (0, 0).

(** The first block of [Ghost.update] (lines 377-380): the countdown of a
    frightened ghost. *)
Definition fright_countdown (g : t) : t :=
  if Mode_eqb (mode g) frightened && negb (dead g) then
    let g := set_fright_timer g (fright_timer g - 1) in
    if fright_timer g <=? 0 then set_mode g chase else g
  else g.

(** [Ghost.update]; [r] is the draw of [random.choice], used only by a
    frightened ghost at a decision point. *)
Definition update (g : t) (pac : Pacman.t F) (blinky_tile : option (Z * Z))
    (r : nat) : t :=
  let g := fright_countdown g in
  if Mode_eqb (mode g) eyes then
    let g :=
      if negb (TileMover.moving (base g)) then
        let g := choose_direction_toward g (14, 14) in
        set_base g (fst (TileMover.start_move (base g)
                           (TileMover.dx (base g)) (TileMover.dy (base g))))
      else g in
    let g := set_base g (TileMover.set_speed (base g) (speed_eyes g)) in
    let g := set_base g (TileMover.update_position_pixels (base g)) in
    if dir_eqb (TileMover.tx (base g), TileMover.ty (base g)) (14, 14)
       && negb (TileMover.moving (base g))
    then
      let g := set_dead g false in
      let g := set_mode g scatter in
      set_base g (TileMover.set_dir (base g) 0 0)
    else g
  else
    let g :=
      if negb (TileMover.moving (base g)) then
        let candid := or_reverse (base g) (candidates (base g)) in
        let g :=
          match mode g with
          | frightened =>
              let d := random_choice r candid in
              set_base g (TileMover.set_dir (base g) (fst d) (snd d))
          | scatter => choose_direction_toward g (corner (idx g))
          | _ => choose_direction_toward g (target_tile g pac blinky_tile)
          end in
        set_base g (fst (TileMover.start_move (base g)
                           (TileMover.dx (base g)) (TileMover.dy (base g))))
      else g in
    let g :=
      match mode g with
      | frightened => set_base g (TileMover.set_speed (base g) (speed_fright g))
      | chase => set_base g (TileMover.set_speed (base g) (speed_chase g))
      | _ => set_base g (TileMover.set_speed (base g) (speed_scatter g))
      end in
    set_base g (TileMover.update_position_pixels (base g)).
End Ghost.
Arguments t F : clear implicits.
End Ghost.

(** ** GAME OBJECTS *)

(** The keys and events the main loop reads. *)
Inductive Key :=
  K_ESCAPE | K_p | K_LEFT | K_a | K_RIGHT | K_d | K_UP | K_w | K_DOWN | K_s
| K_r | K_other.
Inductive Event := QUIT | KEYDOWN (k : Key) | OTHER_EVENT.

Section Game.
Context {F : Type} `{FloatOps F} `{Screen}.

(** The module-level variables the game mutates. *)
Record World := {
  pellets : tiles;
  power_pellets : tiles;
  player : Pacman.t F;
  ghosts : list (Ghost.t F);
  ghosts_eaten_in_power : Z;
  mode_index : Z;
  mode_timer : Z;
  running : bool;
  game_over : bool;
  win : bool;
  paused : bool
}.

Definition set_items (w : World) (ps pps : tiles) : World :=
  {| pellets := ps; power_pellets := pps; player := player w;
     ghosts := ghosts w; ghosts_eaten_in_power := ghosts_eaten_in_power w;
     mode_index := mode_index w; mode_timer := mode_timer w;
     running := running w; game_over := game_over w; win := win w;
     paused := paused w |}.
Definition set_player (w : World) (p : Pacman.t F) : World :=
  {| pellets := pellets w; power_pellets := power_pellets w; player := p;
     ghosts := ghosts w; ghosts_eaten_in_power := ghosts_eaten_in_power w;
     mode_index := mode_index w; mode_timer := mode_timer w;
     running := running w; game_over := game_over w; win := win w;
     paused := paused w |}.
Definition set_ghosts (w : World) (gs : list (Ghost.t F)) : World :=
  {| pellets := pellets w; power_pellets := power_pellets w; player := player w;
     ghosts := gs; ghosts_eaten_in_power := ghosts_eaten_in_power w;
     mode_index := mode_index w; mode_timer := mode_timer w;
     running := running w; game_over := game_over w; win := win w;
     paused := paused w |}.
Definition set_eaten (w : World) (n : Z) : World :=
  {| pellets := pellets w; power_pellets := power_pellets w; player := player w;
     ghosts := ghosts w; ghosts_eaten_in_power := n;
     mode_index := mode_index w; mode_timer := mode_timer w;
     running := running w; game_over := game_over w; win := win w;
     paused := paused w |}.
Definition set_schedule (w : World) (i t : Z) : World :=
  {| pellets := pellets w; power_pellets := power_pellets w; player := player w;
     ghosts := ghosts w; ghosts_eaten_in_power := ghosts_eaten_in_power w;
     mode_index := i; mode_timer := t;
     running := running w; game_over := game_over w; win := win w;
     paused := paused w |}.
Definition set_flags (w : World) (run over won pause : bool) : World :=
  {| pellets := pellets w; power_pellets := power_pellets w; player := player w;
     ghosts := ghosts w; ghosts_eaten_in_power := ghosts_eaten_in_power w;
     mode_index := mode_index w; mode_timer := mode_timer w;
     running := run; game_over := over; win := won; paused := pause |}.

(** [ghost_starts[i]]; the list has four entries and [i] is 0..3. *)
Definition ghost_start (i : nat) : Z * Z := nth i ghost_starts (0, 0).

(** [[Ghost(ghost_starts[i], i) for i in range(4)]]. *)
Definition new_ghosts : list (Ghost.t F) :=
  List.map (fun i => Ghost.init (ghost_start i) (Z.of_nat i)) (seq 0 4).

Definition trigger_fright (w : World) : World :=
  let w := set_eaten w 0 in
  set_ghosts w
    (List.map
       (fun g => if negb (Ghost.dead g)
                 then Ghost.set_fright_timer (Ghost.set_mode g frightened)
                        FRIGHT_DURATION
                 else g)
       (ghosts w)).

Definition set_global_mode (w : World) (md : Mode) : World :=
  set_ghosts w
    (List.map
       (fun g => match Ghost.mode g with
                 | frightened | eyes => g
                 | _ => Ghost.set_mode g md
                 end)
       (ghosts w)).

(** [Pacman.pick_up]: it acts on the global item sets and ghosts, so it is
    a function of the world. *)
Definition pick_up (w : World) : World :=
  let p := player w in
  if negb (TileMover.at_center (Pacman.base p)) then w else
  let here := (TileMover.tx (Pacman.base p), TileMover.ty (Pacman.base p)) in
  let w :=
    if bool_decide (here ∈ pellets w) then
      let w := set_items w (pellets w ∖ {[here]}) (power_pellets w) in
      set_player w (Pacman.set_score (player w) (Pacman.score (player w) + 10))
    else w in
  if bool_decide (here ∈ power_pellets w) then
    let w := set_items w (pellets w) (power_pellets w ∖ {[here]}) in
    let w := set_player w
               (Pacman.set_score (player w) (Pacman.score (player w) + 50)) in
    trigger_fright w
  else w.

(** [dist < TILE * 0.6] for the pixel distance of player and ghost. *)
Definition near (p : Pacman.t F) (g : Ghost.t F) : bool :=
  let dist :=
    hypot (fsub (TileMover.px (Pacman.base p)) (TileMover.px (Ghost.base g)))
          (fsub (TileMover.py (Pacman.base p)) (TileMover.py (Ghost.base g))) in
  fltb dist (fmul (float_of_int TILE) (float_lit (6 # 10))).

Definition score_table : list Z := [200; 400; 800; 1600].

(** The body of the loop of lines 482-493 for the ghost at index [i]. *)
Definition reset_ghost (i : nat) (gg : Ghost.t F) : Ghost.t F :=
  let '(sx, sy) := ghost_start i in
  let '(cx, cy) := TileMover.center_float sx sy in
  let m := Ghost.base gg in
  let m := TileMover.set_pixel m cx cy in
  let m := TileMover.set_tile m sx sy in
  let m := TileMover.set_dir m 0 0 in
  let m := TileMover.set_moving m false in
  let m := TileMover.set_warp m false None in
  let gg := Ghost.set_base gg m in
  let gg := Ghost.set_mode gg scatter in
  let gg := Ghost.set_dead gg false in
  Ghost.set_fright_timer gg 0.

(** The eat branch (lines 475-479) for the ghost [g] at index [i].  The
    counter is never negative, so [score_table[min(n, 3)]] is read at a
    natural index. *)
Definition eat_ghost (w : World) (i : nat) (g : Ghost.t F) : World :=
  let pts := nth (Z.to_nat (Z.min (ghosts_eaten_in_power w) 3)) score_table 0 in
  let w := set_player w
             (Pacman.set_score (player w) (Pacman.score (player w) + pts)) in
  let w := set_eaten w (ghosts_eaten_in_power w + 1) in
  set_ghosts w (<[i := Ghost.kill_and_become_eyes g]> (ghosts w)).

(** The death branch (lines 481-493), before its [break]. *)
Definition player_death (w : World) : World :=
  let w := set_player w (Pacman.die (player w)) in
  set_ghosts w (imap reset_ghost (ghosts w)).

(** The loop [for g in ghosts] of [check_collisions] from index [i] on, with
    [n] ghosts still to visit; the death branch leaves the loop. *)
Fixpoint collide_from (n i : nat) (w : World) : World :=
  match n with
  | O => w
  | S n' =>
      match ghosts w !! i with
      | None => w
      | Some g =>
          if near (player w) g then
            if Mode_eqb (Ghost.mode g) frightened && negb (Ghost.dead g) then
              collide_from n' (S i) (eat_ghost w i g)
            else if negb (Mode_eqb (Ghost.mode g) eyes) && negb (Ghost.dead g) then
              player_death w
            else collide_from n' (S i) w
          else collide_from n' (S i) w
      end
  end.

Definition check_collisions (w : World) : World :=
  if negb (Pacman.alive (player w)) then w
  else collide_from (List.length (ghosts w)) 0 w.

(** One iteration of the loop of [reset_level]. *)
Definition reset_cell (acc : tiles * tiles) (c : (Z * Z) * ascii) : tiles * tiles :=
  let '(xy, ch) := c in
  if Ascii.eqb ch "."%char then ({[xy]} ∪ fst acc, snd acc)
  else if Ascii.eqb ch "o"%char then (fst acc, {[xy]} ∪ snd acc)
  else acc.

Definition reset_level (w : World) : World :=
  let sets := fold_left reset_cell maze_cells (∅, ∅) in
  set_items w (fst sets) (snd sets).

(** [MODE_SEQUENCE[i]]; the cursor stays within 0..7. *)
Definition mode_entry (i : Z) : Mode * Z :=
  nth (Z.to_nat i) MODE_SEQUENCE (scatter, 0).

(** The module-level state once line 439 has run: the items are those of
    the level set-up. *)
Definition startup_world : World :=
  {| pellets := setup_pellets; power_pellets := setup_power_pellets;
     player := Pacman.init pac_start; ghosts := new_ghosts;
     ghosts_eaten_in_power := 0;
     mode_index := 0; mode_timer := snd (mode_entry 0) * FPS;
     running := true; game_over := false; win := false; paused := false |}.

(** Lines 505-513: the state the main loop starts from. *)
Definition initial_world : World :=
  let w := reset_level startup_world in
  let w := set_eaten w 0 in
  set_global_mode w (fst (mode_entry (mode_index w))).

(** ** MAIN LOOP *)

Definition restart (w : World) : World :=
  let w := reset_level w in
  let w := set_player w (Pacman.init pac_start) in
  let w := set_ghosts w new_ghosts in
  let w := set_flags w (running w) false false (paused w) in
  let w := set_schedule w 0 (snd (mode_entry 0) * FPS) in
  set_global_mode w (fst (mode_entry (mode_index w))).

(** One event of [pygame.event.get()] (lines 518-539). *)
Definition handle_event (w : World) (ev : Event) : World :=
  match ev with
  | QUIT => set_flags w false (game_over w) (win w) (paused w)
  | KEYDOWN K_ESCAPE => set_flags w false (game_over w) (win w) (paused w)
  | KEYDOWN K_p => set_flags w (running w) (game_over w) (win w) (negb (paused w))
  | KEYDOWN K_LEFT | KEYDOWN K_a =>
      set_player w (Pacman.queue_dir (player w) (-1) 0)
  | KEYDOWN K_RIGHT | KEYDOWN K_d =>
      set_player w (Pacman.queue_dir (player w) 1 0)
  | KEYDOWN K_UP | KEYDOWN K_w =>
      set_player w (Pacman.queue_dir (player w) 0 (-1))
  | KEYDOWN K_DOWN | KEYDOWN K_s =>
      set_player w (Pacman.queue_dir (player w) 0 1)
  | KEYDOWN K_r => if game_over w || win w then restart w else w
  | _ => w
  end.

(** The mode timer (lines 551-556). *)
Definition mode_tick (w : World) : World :=
  let w := set_schedule w (mode_index w) (mode_timer w - 1) in
  if mode_timer w <=? 0 then
    let i := (mode_index w + 1) mod Z.of_nat (List.length MODE_SEQUENCE) in
    let '(mode_name, sec) := mode_entry i in
    let w := set_schedule w i (sec * FPS) in
    set_global_mode w mode_name
  else w.

(** The player update (lines 559-568). *)
Definition player_tick (w : World) : World :=
  if negb (Pacman.alive (player w)) then
    let p := player w in
    let w := set_player w
               (Pacman.set_respawn_timer p (Pacman.respawn_timer p - 1)) in
    if Pacman.respawn_timer (player w) <=? 0 then
      if Pacman.lives (player w) >? 0
      then set_player w (Pacman.respawn (player w))
      else set_flags w (running w) true (win w) (paused w)
    else w
  else
    let w := set_player w (Pacman.update (player w)) in
    pick_up w.

(** The ghosts update (lines 571-573); [rs] lists the draws of
    [random.choice] for the ghosts, by index. *)
Definition ghosts_tick (w : World) (rs : list nat) : World :=
  let blinky_tile :=
    match ghosts w with
    | g0 :: _ => Some (TileMover.tx (Ghost.base g0), TileMover.ty (Ghost.base g0))
    | [] => None
    end in
  set_ghosts w
    (imap (fun i g => Ghost.update g (player w) blinky_tile (nth i rs O))
          (ghosts w)).

Definition win_check (w : World) : World :=
  if bool_decide (pellets w = ∅) && bool_decide (power_pellets w = ∅)
  then set_flags w (running w) (game_over w) true (paused w)
  else w.

(** The simulation block of one frame (lines 549-578). *)
Definition simulate (w : World) (rs : list nat) : World :=
  if negb (game_over w) && negb (win w) then
    win_check (check_collisions (ghosts_tick (player_tick (mode_tick w)) rs))
  else w.

(** One iteration of the [while running] loop, drawing left out: the
    events of the frame, then the simulation unless the game is paused. *)
Definition frame (w : World) (evs : list Event) (rs : list nat) : World :=
  let w := fold_left handle_event evs w in
  if paused w then w else simulate w rs.
End Game.
Arguments World F : clear implicits.

(** ** A concrete machine: IEEE binary64 on a 1920x1080 display *)

Module Binary64.
(** [float(n)], exact for [|n| < 2^53]. *)
Definition of_Z (n : Z) : float :=
  if n <? 0 then PrimFloat.opp (PrimFloat.of_uint63 (Uint63.of_Z (- n)))
  else PrimFloat.of_uint63 (Uint63.of_Z n).

(** A decimal literal [p/q] with small [p] and [q]: one correctly rounded
    division yields the double nearest to it. *)
Definition of_Q (q : Q) : float :=
  PrimFloat.div (of_Z (Qnum q)) (of_Z (Zpos (Qden q))).

(** [math.hypot] as the rounded [sqrt (x*x + y*y)].  The two agree whenever
    one argument is zero, which is the case for a move and for a contact
    along a corridor; elsewhere they are within a rounding of each other, and
    the runs of this file read such a value through comparisons only. *)
Definition hypot64 (x y : float) : float :=
  PrimFloat.sqrt (PrimFloat.add (PrimFloat.mul x x) (PrimFloat.mul y y)).

#[export] Instance ops : FloatOps float := {|
  float_of_int := of_Z;
  float_lit := of_Q;
  fadd := PrimFloat.add;
  fsub := PrimFloat.sub;
  fmul := PrimFloat.mul;
  fdiv := PrimFloat.div;
  fabs := PrimFloat.abs;
  hypot := hypot64;
  fltb := PrimFloat.ltb;
  fleb := PrimFloat.leb
|}.

#[export] Instance full_hd : Screen := {| SCREEN_W := 1920; SCREEN_H := 1080 |}.
End Binary64.

(** ** Concrete worlds *)

(** The scenarios the concrete runs at the end of the file start from, on
    the machine [Binary64]: IEEE doubles, a 1920x1080 display (so [TILE = 24]
    and tile (x, y) is centred at pixel (636 + 24 x, 180 + 24 y)). *)
Module Scenario.
Import Binary64.

(** [n] frames of the main loop without input events; [rs] are the draws of
    [random.choice], by ghost. *)
Definition frames (n : nat) (rs : list nat) (w : World float) : World float :=
  Nat.iter n (fun w => frame w [] rs) w.

(** The state of a frame when [check_collisions] is called. *)
Definition before_check (w : World float) (rs : list nat) : World float :=
  ghosts_tick (player_tick (mode_tick w)) rs.

(** Ghost [g] standing at the centre of [tile]. *)
Definition relocate (g : Ghost.t float) (tile : Z * Z) : Ghost.t float :=
  Ghost.set_base g (TileMover.init tile).

(** The ghost at index [i] of a world. *)
Definition ghost_at (w : World float) (i : nat) : Ghost.t float :=
  nth i (ghosts w) (Ghost.init (0, 0) 0).

(** Head-on in the corridor of row 5: the player at tile (5, 5) with
    direction right queued, ghost 0 frightened at tile (6, 5); with draw 1
    ghost 0 picks left, the second of its candidates. *)
Definition head_on : World float :=
  let w := set_player initial_world (Pacman.queue_dir (Pacman.init (5, 5)) 1 0) in
  set_ghosts w
    (List.map (fun g => if Ghost.idx g =? 0
                        then Ghost.set_frightened (relocate g (6, 5))
                        else g)
              (ghosts w)).

Definition head_on_contact : World float :=
  before_check (frames 2 [1%nat] head_on) [1%nat].

(** The same with ghost 1, in scatter mode, on tile (6, 5) as well. *)
Definition two_ghosts : World float :=
  let w := set_player initial_world (Pacman.queue_dir (Pacman.init (5, 5)) 1 0) in
  set_ghosts w
    (List.map (fun g => if Ghost.idx g =? 0
                        then Ghost.set_frightened (relocate g (6, 5))
                        else if Ghost.idx g =? 1 then relocate g (6, 5)
                        else g)
              (ghosts w)).

Definition two_ghosts_contact : World float :=
  before_check (frames 2 [1%nat] two_ghosts) [1%nat].

(** The player at tile (2, 23) heading left for the power pellet of tile
    (1, 23), while the scheduler is in its first chase phase with 100 ticks
    to go. *)
Definition power_run : World float :=
  set_schedule
    (set_player initial_world (Pacman.queue_dir (Pacman.init (2, 23)) (-1) 0))
    1 100.

(** A mover that left tile (27, 14) to the right nine frames ago at the
    player's speed. *)
Definition in_tunnel : TileMover.t float :=
  Pacman.base (Nat.iter 9 Pacman.update (Pacman.queue_dir (Pacman.init (27, 14)) 1 0)).

(** The last tick of the last phase of the mode sequence. *)
Definition last_tick : World float := set_schedule initial_world 7 1.

(** The frightened ghost behind a deadly one in the list: the player at
    tile (5, 5) with direction right queued, ghost 1 in scatter mode and
    ghost 2 frightened, both on tile (6, 5); with draw 1 ghost 2 picks left,
    as ghost 1 does on its way to its corner (0, 0). *)
Definition fright_behind : World float :=
  let w := set_player initial_world (Pacman.queue_dir (Pacman.init (5, 5)) 1 0) in
  set_ghosts w
    (List.map (fun g => if Ghost.idx g =? 1 then relocate g (6, 5)
                        else if Ghost.idx g =? 2
                             then Ghost.set_frightened (relocate g (6, 5))
                        else g)
              (ghosts w)).

Definition fright_behind_contact : World float :=
  before_check (frames 2 [0%nat; 0%nat; 1%nat] fright_behind) [0%nat; 0%nat; 1%nat].
End Scenario.

(** * Properties *)

Local Close Scope string_scope.

(** ** The grid *)

Lemma MAZE_W_eq : MAZE_W = 28.
Proof. reflexivity. Qed.

Lemma MAZE_H_eq : MAZE_H = 31.
Proof. reflexivity. Qed.

(** A tile is not open exactly when it is off-grid or a wall. *)
Lemma is_open_false_iff (x y : Z) :
  is_open x y = false <-> in_bounds x y = false \/ is_wall x y = true.
Proof.
  unfold is_open, is_wall.
  destruct (in_bounds x y); simpl.
  - destruct (is_hash (maze_at x y)); simpl; intuition congruence.
  - intuition.
Qed.

Lemma is_open_in_bounds (x y : Z) : is_open x y = true -> in_bounds x y = true.
Proof. unfold is_open. destruct (in_bounds x y); simpl; congruence. Qed.

Lemma in_bounds_range (x y : Z) :
  in_bounds x y = true <-> (0 <= x < 28 /\ 0 <= y < 31).
Proof.
  unfold in_bounds. rewrite MAZE_W_eq, MAZE_H_eq.
  rewrite !andb_true_iff, !Z.leb_le, !Z.ltb_lt. lia.
Qed.

(** ** The motion engine *)

Section MotionProperties.
Context {F : Type}.

(** The mover [start_move] commits to: direction [(dx_, dy_)], in transit,
    wrap state [(w, target)], everything else as in [m]. *)
Definition committed (m : TileMover.t F) (dx_ dy_ : Z) (w : bool)
    (target : option (Z * Z)) : TileMover.t F :=
  {| TileMover.tx := TileMover.tx m; TileMover.ty := TileMover.ty m;
     TileMover.px := TileMover.px m; TileMover.py := TileMover.py m;
     TileMover.dx := dx_; TileMover.dy := dy_;
     TileMover.next_dx := TileMover.next_dx m;
     TileMover.next_dy := TileMover.next_dy m;
     TileMover.moving := true; TileMover.speed := TileMover.speed m;
     TileMover.warping := w; TileMover.warp_target := target |}.

Lemma start_move_open (m : TileMover.t F) (dx_ dy_ : Z) :
  is_open (TileMover.tx m + dx_) (TileMover.ty m + dy_) = true ->
  TileMover.start_move m dx_ dy_ = (committed m dx_ dy_ false None, true).
Proof. intros Ho. unfold TileMover.start_move. rewrite Ho. reflexivity. Qed.

Lemma start_move_wrap (m : TileMover.t F) (dx_ : Z) :
  is_open (TileMover.tx m + dx_) (TileMover.ty m + 0) = false ->
  is_open ((TileMover.tx m + dx_) mod MAZE_W) (TileMover.ty m + 0) = true ->
  TileMover.start_move m dx_ 0 =
    (committed m dx_ 0 true
       (Some ((TileMover.tx m + dx_) mod MAZE_W, TileMover.ty m + 0)), true).
Proof.
  intros Hc Hw. unfold TileMover.start_move. rewrite Hc, Hw. simpl.
  rewrite orb_true_r. reflexivity.
Qed.

Lemma start_move_blocked (m : TileMover.t F) (dx_ dy_ : Z) :
  is_open (TileMover.tx m + dx_) (TileMover.ty m + dy_) = false ->
  dy_ <> 0 \/
  is_open ((TileMover.tx m + dx_) mod MAZE_W) (TileMover.ty m + dy_) = false ->
  TileMover.start_move m dx_ dy_ = (m, false).
Proof.
  intros Hc Hb. unfold TileMover.start_move. rewrite Hc.
  destruct (Z.eqb_spec dy_ 0) as [-> | Hne]; simpl.
  - destruct Hb as [Hb | Hb]; [congruence |].
    rewrite Hb, orb_true_r. reflexivity.
  - reflexivity.
Qed.

(** A call of [start_move] with the mover's own direction keeps it. *)
Lemma start_move_same_dir (m : TileMover.t F) :
  let m' := fst (TileMover.start_move m (TileMover.dx m) (TileMover.dy m)) in
  TileMover.dx m' = TileMover.dx m /\ TileMover.dy m' = TileMover.dy m.
Proof.
  unfold TileMover.start_move.
  repeat match goal with |- context [if ?b then _ else _] => destruct b end;
    simpl; auto.
Qed.

(** C7: [start_move] commits and succeeds on an open destination; on a
    destination that is off-grid or a wall it commits with the wrapped
    tile as wrap target when the move is horizontal and that tile is open;
    otherwise it fails and returns the mover as it was; a vertical move
    never sets a wrap. *)
Theorem start_move_contract (m : TileMover.t F) (dx_ dy_ : Z) :
  let nx := TileMover.tx m + dx_ in
  let ny := TileMover.ty m + dy_ in
  let r := TileMover.start_move m dx_ dy_ in
  (is_open nx ny = true -> r = (committed m dx_ dy_ false None, true))
  /\ (in_bounds nx ny = false \/ is_wall nx ny = true ->
      dy_ = 0 ->
      is_open (nx mod MAZE_W) ny = true ->
      r = (committed m dx_ dy_ true (Some (nx mod MAZE_W, ny)), true))
  /\ (is_open nx ny = false ->
      dy_ <> 0 \/ is_open (nx mod MAZE_W) ny = false ->
      r = (m, false))
  /\ (dy_ <> 0 ->
      TileMover.warping (fst r) = TileMover.warping m
        /\ TileMover.warp_target (fst r) = TileMover.warp_target m
        /\ snd r = false
      \/ TileMover.warping (fst r) = false
        /\ TileMover.warp_target (fst r) = None
        /\ snd r = true).
Proof.
  intros nx ny r. subst nx ny r. repeat split.
  - apply start_move_open.
  - intros Hc -> Hw. apply is_open_false_iff in Hc.
    now apply start_move_wrap.
  - apply start_move_blocked.
  - intros Hne.
    destruct (is_open (TileMover.tx m + dx_) (TileMover.ty m + dy_)) eqn:Ho.
    + right. rewrite start_move_open by assumption. auto.
    + left. rewrite start_move_blocked by auto. auto.
Qed.
(** A wall inside the grid is its own wrapped tile, so the wrap branch
    succeeds for a destination off the grid only. *)
Lemma start_move_wrap_off_grid (m : TileMover.t F) (dx_ dy_ : Z) :
  TileMover.warping (fst (TileMover.start_move m dx_ dy_)) = true ->
  TileMover.warping m = false ->
  in_bounds (TileMover.tx m + dx_) (TileMover.ty m + dy_) = false.
Proof.
  unfold TileMover.start_move. intros Hw Hm.
  destruct (is_open (TileMover.tx m + dx_) (TileMover.ty m + dy_)) eqn:Ho;
    [simpl in Hw; discriminate |].
  destruct (in_bounds (TileMover.tx m + dx_) (TileMover.ty m + dy_)) eqn:Hb;
    [| reflexivity].
  apply in_bounds_range in Hb. rewrite MAZE_W_eq in Hw.
  rewrite Z.mod_small, Ho in Hw by lia.
  destruct (_ && _); simpl in Hw; congruence.
Qed.
End MotionProperties.

(** ** The direction choice of the ghosts *)

Section BestOfList.
Variable f : Z * Z -> Z.

Definition best_of (acc : option (Z * Z) * Z) (d : Z * Z) : option (Z * Z) * Z :=
  if f d <? snd acc then (Some d, f d) else acc.

(** The selection loop keeps the first element of least value, provided
    one is below the initial bound. *)
Lemma fold_best_of (l : list (Z * Z)) :
  forall acc : option (Z * Z) * Z,
    let r := fold_left best_of l acc in
    (forall c, In c l -> snd r <= f c)
    /\ (r = acc /\ (forall c, In c l -> snd acc <= f c)
        \/ snd r < snd acc
           /\ exists l1 d l2,
               l = (l1 ++ d :: l2)%list /\ fst r = Some d /\ snd r = f d
               /\ forall c, In c l1 -> f d < f c).
Proof.
  induction l as [| a l IH]; intros acc; simpl.
  - split; [intros c [] | left; split; [reflexivity | intros c []]].
  - specialize (IH (best_of acc a)). simpl in IH.
    destruct IH as [Hall Hcase].
    set (r := fold_left best_of l (best_of acc a)) in *.
    destruct (Z.ltb_spec (f a) (snd acc)) as [Hlt | Hge].
    + assert (Hba : best_of acc a = (Some a, f a)).
      { unfold best_of. destruct (Z.ltb_spec (f a) (snd acc)); [reflexivity | lia]. }
      rewrite Hba in Hcase. simpl in Hcase.
      assert (Hra : snd r <= f a).
      { destruct Hcase as [[Hr _] | [Hr _]]; [rewrite Hr; simpl |]; lia. }
      split.
      * intros c [<- | Hin]; [exact Hra | now apply Hall].
      * right. split; [lia |].
        destruct Hcase as [[Hr _] | [Hr (l1 & d & l2 & -> & Hb & Hd & Hl1)]].
        -- exists [], a, l. rewrite Hr. simpl. repeat split; auto. intros c [].
        -- exists (a :: l1), d, l2. repeat split; auto.
           intros c [<- | Hin]; [lia | now apply Hl1].
    + assert (Hba : best_of acc a = acc).
      { unfold best_of. destruct (Z.ltb_spec (f a) (snd acc)); [lia | reflexivity]. }
      rewrite Hba in Hcase.
      split.
      * intros c [<- | Hin]; [| now apply Hall].
        destruct Hcase as [[Hr _] | [Hr _]]; [rewrite Hr |]; lia.
      * destruct Hcase as [[Hr Hl] | [Hr (l1 & d & l2 & -> & Hb & Hd & Hl1)]].
        -- left. split; [exact Hr |].
           intros c [<- | Hin]; [lia | now apply Hl].
        -- right. split; [lia |].
           exists (a :: l1), d, l2. repeat split; auto.
           intros c [<- | Hin]; [lia | now apply Hl1].
Qed.
End BestOfList.

Section GhostChoice.
Context {F : Type} `{FloatOps F} `{Screen}.

Definition ghost_tile (g : Ghost.t F) : Z * Z :=
  (TileMover.tx (Ghost.base g), TileMover.ty (Ghost.base g)).
Definition ghost_dir (g : Ghost.t F) : Z * Z :=
  (TileMover.dx (Ghost.base g), TileMover.dy (Ghost.base g)).
Definition pac_tile (p : Pacman.t F) : Z * Z :=
  (TileMover.tx (Pacman.base p), TileMover.ty (Pacman.base p)).
Definition pac_dir (p : Pacman.t F) : Z * Z :=
  (TileMover.dx (Pacman.base p), TileMover.dy (Pacman.base p)).

(** *** The choice as the specification words it *)

(** The destination tile of direction [d] from the ghost's tile. *)
Definition dest (g : Ghost.t F) (d : Z * Z) : Z * Z :=
  (fst (ghost_tile g) + fst d, snd (ghost_tile g) + snd d).

Definition reverse_dir (g : Ghost.t F) : Z * Z :=
  (- fst (ghost_dir g), - snd (ghost_dir g)).

Definition sqdist (a b : Z * Z) : Z :=
  (fst a - fst b) * (fst a - fst b) + (snd a - snd b) * (snd a - snd b).


(** A candidate: an axis direction that is not the reverse of the current
    direction and whose destination tile is open. *)
Definition legal (g : Ghost.t F) (d : Z * Z) : Prop :=
  In d [(1, 0); (-1, 0); (0, 1); (0, -1)]
  /\ d <> reverse_dir g
  /\ is_open (fst (dest g d)) (snd (dest g d)) = true.



(** *** The code against it *)

Lemma dir_eqb_eq (a b : Z * Z) : Ghost.dir_eqb a b = true <-> a = b.
Proof.
  destruct a as [a1 a2], b as [b1 b2]. unfold Ghost.dir_eqb. simpl.
  rewrite andb_true_iff, !Z.eqb_eq. split; [intros [-> ->] | intros [= -> ->]]; auto.
Qed.

Lemma candidates_legal (g : Ghost.t F) (d : Z * Z) :
  In d (Ghost.candidates (Ghost.base g)) <-> legal g d.
Proof.
  unfold Ghost.candidates, legal, reverse_dir, dest, ghost_tile, ghost_dir.
  rewrite filter_In, andb_true_iff, negb_true_iff. simpl fst. simpl snd.
  unfold Ghost.DIRS.
  assert (Hrev : Ghost.dir_eqb (- fst d, - snd d)
                   (TileMover.dx (Ghost.base g), TileMover.dy (Ghost.base g)) = false
                 <-> d <> (- TileMover.dx (Ghost.base g), - TileMover.dy (Ghost.base g))).
  { rewrite <- not_true_iff_false, dir_eqb_eq. destruct d as [d1 d2]. simpl.
    split; intros Hn Heq; apply Hn; injection Heq as H1 H2; f_equal; lia. }
  rewrite Hrev. tauto.
Qed.




(** [choose_direction_toward] changes nothing but the direction. *)
Lemma choose_direction_toward_frame (g : Ghost.t F) (target : Z * Z) :
  let g' := Ghost.choose_direction_toward g target in
  ghost_tile g' = ghost_tile g
  /\ Ghost.mode g' = Ghost.mode g
  /\ TileMover.moving (Ghost.base g') = TileMover.moving (Ghost.base g)
  /\ Ghost.speed_eyes g' = Ghost.speed_eyes g.
Proof.
  unfold Ghost.choose_direction_toward.
  destruct (fold_left _ _ _) as [[d |] bd]; simpl; auto.
Qed.

End GhostChoice.

Section GhostUpdate.
Context {F : Type} `{FloatOps F} `{Screen}.

(** [update_position_pixels] never changes the direction. *)
Lemma update_position_pixels_dir (m : TileMover.t F) :
  let m' := TileMover.update_position_pixels m in
  TileMover.dx m' = TileMover.dx m /\ TileMover.dy m' = TileMover.dy m.
Proof.
  unfold TileMover.update_position_pixels.
  destruct (TileMover.moving m); [| simpl; auto].
  cbv zeta. change (negb true) with false. cbv iota.
  destruct (tile_center_pixel (TileMover.tx m + TileMover.dx m)
              (TileMover.ty m + TileMover.dy m)) as [cx cy].
  match goal with
  | |- context [fleb ?a ?b] => destruct (fleb a b)
  end; [| simpl; auto].
  destruct (TileMover.warping m), (TileMover.warp_target m) as [[wx wy] |];
    try (simpl; auto; fail).
  destruct (TileMover.center_float wx wy) as [fx fy].
  match goal with
  | |- context [TileMover.start_move ?a _ _] =>
      pose proof (start_move_same_dir a) as Hs
  end.
  simpl in Hs. simpl. exact Hs.
Qed.

(** What [Ghost.update] does with a ghost [g1] that has just chosen its
    direction outside eyes mode (lines 416-422). *)
Definition after_decision (g1 : Ghost.t F) : Ghost.t F :=
  let g := Ghost.set_base g1
             (fst (TileMover.start_move (Ghost.base g1)
                     (TileMover.dx (Ghost.base g1)) (TileMover.dy (Ghost.base g1)))) in
  let g :=
    match Ghost.mode g with
    | frightened => Ghost.set_base g (TileMover.set_speed (Ghost.base g) (Ghost.speed_fright g))
    | chase => Ghost.set_base g (TileMover.set_speed (Ghost.base g) (Ghost.speed_chase g))
    | _ => Ghost.set_base g (TileMover.set_speed (Ghost.base g) (Ghost.speed_scatter g))
    end in
  Ghost.set_base g (TileMover.update_position_pixels (Ghost.base g)).





Lemma after_decision_dir (g1 : Ghost.t F) :
  ghost_dir (after_decision g1) = ghost_dir g1.
Proof.
  unfold after_decision, ghost_dir. cbv zeta.
  pose proof (start_move_same_dir (Ghost.base g1)) as [Hx Hy]. cbv zeta in Hx, Hy.
  destruct (Ghost.mode _); simpl;
    match goal with
    | |- context [TileMover.update_position_pixels ?a] =>
        pose proof (update_position_pixels_dir a) as [Ux Uy]
    end; cbv zeta in Ux, Uy; simpl in Ux, Uy; rewrite Ux, Uy, Hx, Hy; reflexivity.
Qed.





End GhostUpdate.

(** ** Collision and scoring *)

Section Collisions.
Context {F : Type} `{FloatOps F} `{Screen}.

(** The two tests of the collision loop, on the ghost it visits. *)
Definition eatable (g : Ghost.t F) : bool :=
  Mode_eqb (Ghost.mode g) frightened && negb (Ghost.dead g).
Definition deadly (g : Ghost.t F) : bool :=
  negb (eatable g) && negb (Mode_eqb (Ghost.mode g) eyes) && negb (Ghost.dead g).

Lemma deadly_iff (g : Ghost.t F) :
  deadly g = true
  <-> Ghost.mode g <> frightened /\ Ghost.mode g <> eyes /\ Ghost.dead g = false.
Proof.
  unfold deadly, eatable.
  destruct (Ghost.mode g), (Ghost.dead g); simpl; intuition congruence.
Qed.

Lemma eatable_iff (g : Ghost.t F) :
  eatable g = true <-> Ghost.mode g = frightened /\ Ghost.dead g = false.
Proof.
  unfold eatable.
  destruct (Ghost.mode g), (Ghost.dead g); simpl; intuition congruence.
Qed.

(** One iteration of the loop, by the case the visited ghost is in. *)
Lemma collide_from_step (n i : nat) (w : World F) (g : Ghost.t F) :
  ghosts w !! i = Some g ->
  collide_from (S n) i w =
    if near (player w) g then
      if eatable g then collide_from n (S i) (eat_ghost w i g)
      else if deadly g then player_death w
      else collide_from n (S i) w
    else collide_from n (S i) w.
Proof.
  intros Hg. simpl. rewrite Hg. unfold deadly.
  destruct (near (player w) g); [| reflexivity].
  destruct (eatable g) eqn:He; unfold eatable in He; rewrite He; reflexivity.
Qed.

(** Eating a ghost leaves the player's mover, the length of the ghost list
    and every other ghost as they were. *)
Lemma eat_ghost_frame (w : World F) (i : nat) (g : Ghost.t F) :
  Pacman.base (player (eat_ghost w i g)) = Pacman.base (player w)
  /\ Pacman.lives (player (eat_ghost w i g)) = Pacman.lives (player w)
  /\ Pacman.alive (player (eat_ghost w i g)) = Pacman.alive (player w)
  /\ length (ghosts (eat_ghost w i g)) = length (ghosts w)
  /\ forall j, j <> i -> ghosts (eat_ghost w i g) !! j = ghosts w !! j.
Proof.
  unfold eat_ghost. simpl. split; [| split; [| split; [| split]]]; try reflexivity.
  - apply length_insert.
  - intros j Hj. apply list_lookup_insert_ne. congruence.
Qed.

Lemma near_base (p p' : Pacman.t F) (g : Ghost.t F) :
  Pacman.base p = Pacman.base p' -> near p g = near p' g.
Proof. intros Hb. unfold near. rewrite Hb. reflexivity. Qed.

(** What the death branch leaves of a ghost at index [k]. *)
Definition is_reset (k : nat) (g : Ghost.t F) : Prop :=
  ghost_tile g = ghost_start k
  /\ (TileMover.px (Ghost.base g), TileMover.py (Ghost.base g))
     = TileMover.center_float (fst (ghost_start k)) (snd (ghost_start k))
  /\ ghost_dir g = (0, 0)
  /\ TileMover.moving (Ghost.base g) = false
  /\ TileMover.warping (Ghost.base g) = false
  /\ TileMover.warp_target (Ghost.base g) = None
  /\ Ghost.mode g = scatter
  /\ Ghost.dead g = false
  /\ Ghost.fright_timer g = 0.

Lemma reset_ghost_is_reset (k : nat) (g : Ghost.t F) : is_reset k (reset_ghost k g).
Proof.
  unfold is_reset, reset_ghost, ghost_tile, ghost_dir.
  destruct (ghost_start k) as [sx sy]. simpl fst. simpl snd.
  destruct (TileMover.center_float sx sy) as [cx cy]. simpl. repeat split.
Qed.

Lemma player_death_effect (w : World F) :
  Pacman.lives (player (player_death w)) = Pacman.lives (player w) - 1
  /\ Pacman.alive (player (player_death w)) = false
  /\ Pacman.score (player (player_death w)) = Pacman.score (player w)
  /\ length (ghosts (player_death w)) = length (ghosts w)
  /\ forall k gk, ghosts (player_death w) !! k = Some gk -> is_reset k gk.
Proof.
  unfold player_death. simpl. split; [| split; [| split; [| split]]]; try reflexivity.
  - apply length_imap.
  - intros k gk Hk. rewrite list_lookup_imap in Hk.
    apply fmap_Some in Hk as (g0 & _ & ->). apply reset_ghost_is_reset.
Qed.

(** A deadly ghost within reach among those still to visit: the loop ends
    in the death branch, whatever it eats on the way. *)
Lemma collide_from_death (n : nat) :
  forall (i : nat) (w : World F) (j : nat) (g : Ghost.t F),
    (i <= j < i + n)%nat ->
    ghosts w !! j = Some g -> near (player w) g = true -> deadly g = true ->
    exists w1,
      collide_from n i w = player_death w1
      /\ Pacman.lives (player w1) = Pacman.lives (player w)
      /\ length (ghosts w1) = length (ghosts w).
Proof.
  induction n as [| n IH]; intros i w j g Hj Hg Hnear Hd; [lia |].
  assert (Hi : is_Some (ghosts w !! i)).
  { apply lookup_lt_is_Some. apply lookup_lt_Some in Hg. lia. }
  destruct Hi as [gi Hgi]. rewrite (collide_from_step _ _ _ _ Hgi).
  assert (Hji : j = i -> gi = g) by (intros ->; congruence).
  destruct (near (player w) gi) eqn:Hni.
  - destruct (eatable gi) eqn:Hei.
    + assert (Hne : j <> i).
      { intros Heq. rewrite (Hji Heq) in Hei. unfold deadly in Hd.
        rewrite Hei in Hd. discriminate. }
      destruct (eat_ghost_frame w i gi) as (Hb & Hl & _ & Hlen & Hoth).
      destruct (IH (S i) (eat_ghost w i gi) j g) as (w1 & E & L1 & L2); try lia.
      * rewrite Hoth by exact Hne. exact Hg.
      * rewrite (near_base _ (player w)) by exact Hb. exact Hnear.
      * exact Hd.
      * exists w1. rewrite E, L1, L2, Hl, Hlen. auto.
    + destruct (deadly gi) eqn:Hdi.
      * exists w. auto.
      * assert (Hne : j <> i) by (intros Heq; rewrite (Hji Heq) in Hdi; congruence).
        apply (IH (S i) w j g); auto. lia.
  - assert (Hne : j <> i) by (intros Heq; rewrite (Hji Heq) in Hni; congruence).
    apply (IH (S i) w j g); auto. lia.
Qed.

(** C3: when the collision check meets a ghost within reach that is neither
    frightened nor eyes (nor captured), the player loses exactly one life
    and every ghost of the list, whatever its state was, is reset: tile and
    pixel position at its start tile, no direction, not in transit, no wrap,
    mode scatter, not captured, frightened timer 0. *)
Theorem death_resets_all_ghosts (w : World F) (j : nat) (g : Ghost.t F) :
  Pacman.alive (player w) = true ->
  ghosts w !! j = Some g ->
  near (player w) g = true ->
  Ghost.mode g <> frightened -> Ghost.mode g <> eyes -> Ghost.dead g = false ->
  Pacman.lives (player (check_collisions w)) = Pacman.lives (player w) - 1
  /\ length (ghosts (check_collisions w)) = length (ghosts w)
  /\ forall k gk, ghosts (check_collisions w) !! k = Some gk -> is_reset k gk.
Proof.
  intros Halive Hg Hnear Hm1 Hm2 Hdead.
  unfold check_collisions. rewrite Halive. simpl.
  destruct (collide_from_death (length (ghosts w)) 0 w j g) as (w1 & E & L1 & L2);
    auto.
  - apply lookup_lt_Some in Hg. lia.
  - apply deadly_iff. auto.
  - rewrite E. destruct (player_death_effect w1) as (Hl & _ & _ & Hlen & Hall).
    rewrite Hl, Hlen, L1, L2. auto.
Qed.
(** *** Eating *)

(** [table[min(N, 3)]] with [table = [200, 400, 800, 1600]]. *)
Definition eat_points (N : Z) : Z :=
  nth (Z.to_nat (Z.min N 3)) [200; 400; 800; 1600] 0.

Lemma eat_points_values :
  eat_points 0 = 200 /\ eat_points 1 = 400 /\ eat_points 2 = 800
  /\ forall N, 3 <= N -> eat_points N = 1600.
Proof.
  repeat split. intros N HN. unfold eat_points.
  rewrite Z.min_r by lia. reflexivity.
Qed.

Lemma eat_ghost_effect (w : World F) (i : nat) (g : Ghost.t F) :
  ghosts w !! i = Some g ->
  Pacman.score (player (eat_ghost w i g))
    = Pacman.score (player w) + eat_points (ghosts_eaten_in_power w)
  /\ ghosts_eaten_in_power (eat_ghost w i g) = ghosts_eaten_in_power w + 1
  /\ ghosts (eat_ghost w i g) !! i = Some (Ghost.kill_and_become_eyes g)
  /\ Ghost.mode (Ghost.kill_and_become_eyes g) = eyes
  /\ Ghost.dead (Ghost.kill_and_become_eyes g) = true.
Proof.
  intros Hg. unfold eat_ghost. simpl.
  split; [| split; [| split; [| split]]]; try reflexivity.
  apply list_lookup_insert_eq. apply lookup_lt_Some in Hg. exact Hg.
Qed.

(** Ghosts out of reach are passed over. *)
Lemma collide_from_skip (i : nat) :
  forall (n k : nat) (w : World F),
    (forall j gj, (k <= j < k + i)%nat -> ghosts w !! j = Some gj ->
                  near (player w) gj = false) ->
    (k + i <= length (ghosts w))%nat ->
    collide_from (i + n) k w = collide_from n (k + i) w.
Proof.
  induction i as [| i IH]; intros n k w Hfar Hlen.
  - rewrite Nat.add_0_r. reflexivity.
  - assert (Hk : is_Some (ghosts w !! k)) by (apply lookup_lt_is_Some; lia).
    destruct Hk as [gk Hgk].
    change (S i + n)%nat with (S (i + n)).
    rewrite (collide_from_step _ _ _ _ Hgk).
    rewrite (Hfar k gk) by (auto; lia).
    rewrite IH; [f_equal; lia | | lia].
    intros j gj Hj. apply Hfar. lia.
Qed.

Lemma collide_from_none (n : nat) :
  forall (k : nat) (w : World F),
    (forall j gj, (k <= j)%nat -> ghosts w !! j = Some gj ->
                  near (player w) gj = false) ->
    collide_from n k w = w.
Proof.
  induction n as [| n IH]; intros k w Hfar; [reflexivity |].
  destruct (ghosts w !! k) as [gk |] eqn:Hgk.
  - rewrite (collide_from_step _ _ _ _ Hgk), (Hfar k gk) by auto.
    apply IH. intros j gj Hj. apply Hfar. lia.
  - simpl. rewrite Hgk. reflexivity.
Qed.

(** The ghosts the loop passes without a death: none of them is deadly and
    within reach. *)
Definition no_death_in (w : World F) (k i : nat) : Prop :=
  forall j gj, (k <= j < k + i)%nat -> ghosts w !! j = Some gj ->
               near (player w) gj = true -> deadly gj = false.

Lemma no_death_in_eat (w : World F) (k i : nat) (gk : Ghost.t F) :
  no_death_in w k (S i) -> no_death_in (eat_ghost w k gk) (S k) i.
Proof.
  intros Hsafe j gj Hj Hgj Hnj.
  destruct (eat_ghost_frame w k gk) as (Hb & _ & _ & _ & Hoth).
  rewrite Hoth in Hgj by lia.
  rewrite (near_base _ (player w)) in Hnj by exact Hb.
  apply (Hsafe j gj); auto. lia.
Qed.

Lemma no_death_in_tail (w : World F) (k i : nat) :
  no_death_in w k (S i) -> no_death_in w (S k) i.
Proof. intros Hsafe j gj Hj. apply Hsafe. lia. Qed.

(** Without a death the loop leaves the player's mover and the ghosts it
    has not visited as they were. *)
Lemma collide_from_no_death (i : nat) :
  forall (k : nat) (w : World F),
    no_death_in w k i ->
    Pacman.base (player (collide_from i k w)) = Pacman.base (player w)
    /\ length (ghosts (collide_from i k w)) = length (ghosts w)
    /\ forall j, (k + i <= j)%nat ->
                 ghosts (collide_from i k w) !! j = ghosts w !! j.
Proof.
  induction i as [| i IH]; intros k w Hsafe; [simpl; auto |].
  destruct (ghosts w !! k) as [gk |] eqn:Hgk;
    [| simpl; rewrite Hgk; auto].
  rewrite (collide_from_step _ _ _ _ Hgk).
  destruct (near (player w) gk) eqn:Hnk.
  - destruct (eatable gk) eqn:Hek.
    + destruct (eat_ghost_frame w k gk) as (Hb & _ & _ & Hlen & Hoth).
      destruct (IH (S k) (eat_ghost w k gk)) as (B & L & O);
        [now apply no_death_in_eat |].
      rewrite B, L, Hb, Hlen. split; [reflexivity |]. split; [reflexivity |].
      intros j Hj. rewrite O by lia. apply Hoth. lia.
    + rewrite (Hsafe k gk) by (auto; lia).
      destruct (IH (S k) w) as (B & L & O); [now apply no_death_in_tail |].
      split; [exact B |]. split; [exact L |]. intros j Hj. apply O. lia.
  - destruct (IH (S k) w) as (B & L & O); [now apply no_death_in_tail |].
    split; [exact B |]. split; [exact L |]. intros j Hj. apply O. lia.
Qed.

(** Without a death the loop over [i + n] ghosts is the loop over the first
    [i], then the loop over the other [n]. *)
Lemma collide_from_split (i : nat) :
  forall (n k : nat) (w : World F),
    no_death_in w k i -> (k + i <= length (ghosts w))%nat ->
    collide_from (i + n) k w = collide_from n (k + i) (collide_from i k w).
Proof.
  induction i as [| i IH]; intros n k w Hsafe Hlen.
  - simpl. rewrite Nat.add_0_r. reflexivity.
  - assert (Hk : is_Some (ghosts w !! k)) by (apply lookup_lt_is_Some; lia).
    destruct Hk as [gk Hgk].
    change (S i + n)%nat with (S (i + n)).
    rewrite !(collide_from_step _ _ _ _ Hgk).
    replace (k + S i)%nat with (S k + i)%nat by lia.
    destruct (near (player w) gk) eqn:Hnk.
    + destruct (eatable gk) eqn:Hek.
      * destruct (eat_ghost_frame w k gk) as (_ & _ & _ & Hl & _).
        apply IH; [now apply no_death_in_eat | lia].
      * rewrite (Hsafe k gk) by (auto; lia).
        apply IH; [now apply no_death_in_tail | lia].
    + apply IH; [now apply no_death_in_tail | lia].
Qed.

(** A run of eats, as a frightened window produces them. *)
Definition eat_all (w : World F) (l : list (nat * Ghost.t F)) : World F :=
  fold_left (fun w ig => eat_ghost w (fst ig) (snd ig)) l w.

(** The points of [k] eats counted from [c]. *)
Fixpoint points_from (c : Z) (k : nat) : Z :=
  match k with
  | O => 0
  | S k' => eat_points c + points_from (c + 1) k'
  end.

Lemma eat_all_effect (l : list (nat * Ghost.t F)) :
  forall w : World F,
    ghosts_eaten_in_power (eat_all w l)
      = ghosts_eaten_in_power w + Z.of_nat (length l)
    /\ Pacman.score (player (eat_all w l))
      = Pacman.score (player w) + points_from (ghosts_eaten_in_power w) (length l).
Proof.
  induction l as [| [i g] l IH]; intros w.
  - simpl. split; lia.
  - unfold eat_all in *. cbn [fold_left length points_from fst snd].
    destruct (IH (eat_ghost w i g)) as [Hc Hs]. rewrite Hc, Hs.
    assert (A : ghosts_eaten_in_power (eat_ghost w i g)
                = ghosts_eaten_in_power w + 1) by reflexivity.
    assert (B : Pacman.score (player (eat_ghost w i g))
                = Pacman.score (player w) + eat_points (ghosts_eaten_in_power w))
      by reflexivity.
    rewrite A, B. split; lia.
Qed.

(** C2: a power item resets the eaten counter to 0; when the loop of the
    collision check visits a ghost within reach that is frightened and not
    captured, the score grows by [table[min(N, 3)]] for the current counter
    [N], the counter grows by one, the ghost turns to eyes and the loop goes
    on; the loop visits such a ghost unless a death was resolved on a ghost
    earlier in the list in the same call, which ends the check; if it is the
    only ghost within reach the eat is all the check does; so the eats that
    follow a power item score 200, 400, 800, 1600, 1600, ... *)
Theorem eat_scores_by_counter (w : World F) (i : nat) (g : Ghost.t F) :
  ghosts w !! i = Some g ->
  near (player w) g = true ->
  Ghost.mode g = frightened -> Ghost.dead g = false ->
  0 <= ghosts_eaten_in_power w ->
  (forall w0 : World F, ghosts_eaten_in_power (trigger_fright w0) = 0)
  /\ (forall w0 : World F,
        TileMover.at_center (Pacman.base (player w0)) = true ->
        pac_tile (player w0) ∈ power_pellets w0 ->
        ghosts_eaten_in_power (pick_up w0) = 0)
  /\ (forall n, collide_from (S n) i w = collide_from n (S i) (eat_ghost w i g))
  /\ Pacman.score (player (eat_ghost w i g))
       = Pacman.score (player w) + eat_points (ghosts_eaten_in_power w)
  /\ ghosts_eaten_in_power (eat_ghost w i g) = ghosts_eaten_in_power w + 1
  /\ ghosts (eat_ghost w i g) !! i = Some (Ghost.kill_and_become_eyes g)
  /\ Ghost.mode (Ghost.kill_and_become_eyes g) = eyes
  /\ Ghost.dead (Ghost.kill_and_become_eyes g) = true
  /\ (Pacman.alive (player w) = true ->
      (forall j gj, j <> i -> ghosts w !! j = Some gj -> near (player w) gj = false) ->
      check_collisions w = eat_ghost w i g)
  /\ (Pacman.alive (player w) = true -> no_death_in w 0 i ->
      check_collisions w
      = collide_from (length (ghosts w) - S i) (S i)
          (eat_ghost (collide_from i 0 w) i g))
  /\ (forall (w0 : World F) (l : list (nat * Ghost.t F)),
        Pacman.score (player (eat_all (trigger_fright w0) l))
        = Pacman.score (player w0) + points_from 0 (length l)).
Proof.
  intros Hg Hnear Hmode Hdead HN.
  assert (Heat : eatable g = true) by (apply eatable_iff; auto).
  destruct (eat_ghost_effect w i g Hg) as (E1 & E2 & E3 & E4 & E5).
  split; [| split; [| split; [| split; [| split; [| split; [| split; [| split;
    [| split; [| split]]]]]]]]]; auto.
  - intros w0 Hc Hin. unfold pick_up, pac_tile in *. rewrite Hc. simpl.
    destruct (bool_decide (_ ∈ pellets w0)); simpl;
      rewrite bool_decide_eq_true_2 by exact Hin; reflexivity.
  - intros n. rewrite (collide_from_step _ _ _ _ Hg), Hnear, Heat. reflexivity.
  - intros Halive Hfar. unfold check_collisions. rewrite Halive. simpl.
    pose proof (lookup_lt_Some _ _ _ Hg) as Hlt.
    replace (length (ghosts w)) with (i + S (length (ghosts w) - S i))%nat by lia.
    rewrite collide_from_skip; [| intros j gj Hj; apply Hfar; lia | lia].
    simpl Nat.add.
    rewrite (collide_from_step _ _ _ _ Hg), Hnear, Heat.
    apply collide_from_none.
    destruct (eat_ghost_frame w i g) as (Hb & _ & _ & _ & Hoth).
    intros j gj Hj Hgj. rewrite (near_base _ (player w)) by exact Hb.
    rewrite Hoth in Hgj by lia. apply (Hfar j); [lia | exact Hgj].
  - intros Halive Hsafe. unfold check_collisions. rewrite Halive. simpl.
    pose proof (lookup_lt_Some _ _ _ Hg) as Hlt.
    replace (length (ghosts w)) with (i + S (length (ghosts w) - S i))%nat at 1
      by lia.
    rewrite collide_from_split by (auto; lia). simpl Nat.add.
    destruct (collide_from_no_death i 0 w Hsafe) as (Hb & _ & Hoth).
    assert (Hgi : ghosts (collide_from i 0 w) !! i = Some g)
      by (rewrite Hoth by lia; exact Hg).
    rewrite (collide_from_step _ _ _ _ Hgi), (near_base _ (player w)), Hnear, Heat
      by exact Hb.
    reflexivity.
  - intros w0 l. destruct (eat_all_effect l (trigger_fright w0)) as [_ Hs].
    rewrite Hs. reflexivity.
Qed.

(** *** Death ends the check *)

(** Up to the first deadly ghost within reach the loop runs as usual, and
    there it stops: the check is the death branch on the state the earlier
    ghosts left. *)
Lemma collide_from_first_deadly (i : nat) :
  forall (n k : nat) (w : World F) (g : Ghost.t F),
    (i < n)%nat -> no_death_in w k i ->
    ghosts w !! (k + i)%nat = Some g ->
    near (player w) g = true -> deadly g = true ->
    collide_from n k w = player_death (collide_from i k w).
Proof.
  induction i as [| i IH]; intros n k w g Hn Hsafe Hg Hnear Hd;
    destruct n as [| n]; try lia.
  - rewrite Nat.add_0_r in Hg.
    rewrite (collide_from_step _ _ _ _ Hg), Hnear, Hd.
    unfold deadly in Hd. destruct (eatable g); [discriminate | reflexivity].
  - assert (Hk : is_Some (ghosts w !! k)).
    { apply lookup_lt_is_Some. apply lookup_lt_Some in Hg. lia. }
    destruct Hk as [gk Hgk].
    rewrite !(collide_from_step _ _ _ _ Hgk).
    replace (k + S i)%nat with (S k + i)%nat in Hg by lia.
    destruct (near (player w) gk) eqn:Hnk.
    + destruct (eatable gk) eqn:Hek.
      * destruct (eat_ghost_frame w k gk) as (Hb & _ & _ & _ & Hoth).
        apply (IH n (S k) (eat_ghost w k gk) g); try lia.
        -- intros j gj Hj Hgj Hnj. rewrite Hoth in Hgj by lia.
           rewrite (near_base _ (player w)) in Hnj by exact Hb.
           apply (Hsafe j gj); auto. lia.
        -- rewrite Hoth by lia. exact Hg.
        -- rewrite (near_base _ (player w)) by exact Hb. exact Hnear.
        -- exact Hd.
      * rewrite (Hsafe k gk) by (auto; lia).
        apply (IH n (S k) w g); auto; try lia.
        intros j gj Hj. apply Hsafe. lia.
    + apply (IH n (S k) w g); auto; try lia.
      intros j gj Hj. apply Hsafe. lia.
Qed.

(** C5, as the code has it: the death branch leaves the loop at once, so no
    ghost later in the list is examined and none is eaten after a death;
    the ghosts earlier in the list have been handled before, eats included:
    the check is the death branch applied to the state they left, and the
    score it returns is the score after those earlier ghosts. *)
Theorem death_ends_collision_check (w : World F) (i : nat) (g : Ghost.t F) :
  ghosts w !! i = Some g ->
  near (player w) g = true ->
  Ghost.mode g <> frightened -> Ghost.mode g <> eyes -> Ghost.dead g = false ->
  (forall n, collide_from (S n) i w = player_death w)
  /\ (Pacman.alive (player w) = true -> no_death_in w 0 i ->
      check_collisions w = player_death (collide_from i 0 w)
      /\ Pacman.score (player (check_collisions w))
         = Pacman.score (player (collide_from i 0 w))).
Proof.
  intros Hg Hnear Hm1 Hm2 Hdead.
  assert (Hd : deadly g = true) by (apply deadly_iff; auto).
  split.
  - intros n. rewrite (collide_from_step _ _ _ _ Hg), Hnear, Hd.
    unfold deadly in Hd. destruct (eatable g); [discriminate | reflexivity].
  - intros Halive Hsafe.
    assert (E : check_collisions w = player_death (collide_from i 0 w)).
    { unfold check_collisions. rewrite Halive. simpl.
      apply (collide_from_first_deadly i (length (ghosts w)) 0 w g); auto.
      apply lookup_lt_Some in Hg. exact Hg. }
    split; [exact E |]. rewrite E. reflexivity.
Qed.
End Collisions.

(** ** The end of a fright *)

Section FrightExpiry.
Context {F : Type} `{FloatOps F} `{Screen}.

Lemma fright_countdown_frightened (g : Ghost.t F) :
  Ghost.mode g = frightened -> Ghost.dead g = false ->
  Ghost.fright_countdown g
  = if Ghost.fright_timer g - 1 <=? 0
    then Ghost.set_mode (Ghost.set_fright_timer g (Ghost.fright_timer g - 1)) chase
    else Ghost.set_fright_timer g (Ghost.fright_timer g - 1).
Proof.
  intros Hm Hd. unfold Ghost.fright_countdown. rewrite Hm, Hd. reflexivity.
Qed.

Lemma choose_direction_toward_base (g : Ghost.t F) (target : Z * Z) :
  Ghost.choose_direction_toward g target
  = Ghost.set_base g (Ghost.base (Ghost.choose_direction_toward g target)).
Proof.
  unfold Ghost.choose_direction_toward.
  destruct (fold_left _ _ _) as [[d |] bd]; destruct g; reflexivity.
Qed.

(** Outside eyes mode, [Ghost.update] leaves the mode and the timer the
    countdown set. *)
Lemma update_mode_after_countdown (g : Ghost.t F) pac blinky r :
  Ghost.mode (Ghost.fright_countdown g) <> eyes ->
  Ghost.mode (Ghost.update g pac blinky r) = Ghost.mode (Ghost.fright_countdown g)
  /\ Ghost.fright_timer (Ghost.update g pac blinky r)
     = Ghost.fright_timer (Ghost.fright_countdown g).
Proof.
  unfold Ghost.update. generalize (Ghost.fright_countdown g). clear g.
  intros g Hne. cbv zeta.
  destruct (Ghost.mode g) eqn:Hm; try congruence;
    cbv beta iota delta [Mode_eqb];
    destruct (TileMover.moving (Ghost.base g)); cbv beta iota delta [negb];
    repeat (first
      [ progress cbn [Ghost.mode Ghost.fright_timer Ghost.set_base]
      | progress rewrite Hm
      | match goal with
        | |- context [Ghost.mode (Ghost.choose_direction_toward ?a ?b)] =>
            rewrite (choose_direction_toward_base a b)
        | |- context [Ghost.fright_timer (Ghost.choose_direction_toward ?a ?b)] =>
            rewrite (choose_direction_toward_base a b)
        end ]);
    split; reflexivity.
Qed.

(** C4, as the code has it: a ghost whose frightened timer runs out on its
    own leaves [update] in chase mode, whatever the mode scheduler's cursor
    designates (the scheduler is no input of [update]); until then it stays
    frightened with its timer one lower. *)
Theorem fright_expiry_becomes_chase (g : Ghost.t F) (pac : Pacman.t F)
    (blinky : option (Z * Z)) (r : nat) :
  Ghost.mode g = frightened -> Ghost.dead g = false ->
  (Ghost.fright_timer g <= 1 ->
     Ghost.mode (Ghost.update g pac blinky r) = chase)
  /\ (1 < Ghost.fright_timer g ->
     Ghost.mode (Ghost.update g pac blinky r) = frightened
     /\ Ghost.fright_timer (Ghost.update g pac blinky r) = Ghost.fright_timer g - 1).
Proof.
  intros Hm Hd.
  pose proof (fright_countdown_frightened g Hm Hd) as Hc.
  split; intros Ht.
  - destruct (Z.leb_spec (Ghost.fright_timer g - 1) 0); [| lia].
    destruct (update_mode_after_countdown g pac blinky r) as [E _];
      rewrite ?E, Hc; simpl; congruence.
  - destruct (Z.leb_spec (Ghost.fright_timer g - 1) 0); [lia |].
    destruct (update_mode_after_countdown g pac blinky r) as [E1 E2];
      rewrite ?E1, ?E2, Hc; simpl; try congruence. auto.
Qed.
End FrightExpiry.

(** ** Tunnel traversal *)

Section Tunnel.
Context {F : Type} `{FloatOps F} `{Screen}.

(** The arrival test of [update_position_pixels] (lines 198-204): the
    distance left to the centre of the tile ahead is at most the speed. *)
Definition arrives (m : TileMover.t F) : bool :=
  let '(target_cx, target_cy) :=
    tile_center_pixel (TileMover.tx m + TileMover.dx m)
                      (TileMover.ty m + TileMover.dy m) in
  fleb (hypot (fsub (float_of_int target_cx) (TileMover.px m))
              (fsub (float_of_int target_cy) (TileMover.py m)))
       (TileMover.speed m).

(** The mover snapped to the centre of tile [(wx, wy)], idle, wrap cleared. *)
Definition snapped (m : TileMover.t F) (wx wy : Z) : TileMover.t F :=
  {| TileMover.tx := wx; TileMover.ty := wy;
     TileMover.px := fst (TileMover.center_float wx wy);
     TileMover.py := snd (TileMover.center_float wx wy);
     TileMover.dx := TileMover.dx m; TileMover.dy := TileMover.dy m;
     TileMover.next_dx := TileMover.next_dx m;
     TileMover.next_dy := TileMover.next_dy m;
     TileMover.moving := false; TileMover.speed := TileMover.speed m;
     TileMover.warping := false; TileMover.warp_target := None |}.

Lemma update_position_pixels_wrap (m : TileMover.t F) (wx wy : Z) :
  TileMover.moving m = true -> TileMover.warping m = true ->
  TileMover.warp_target m = Some (wx, wy) -> arrives m = true ->
  TileMover.update_position_pixels m
  = fst (TileMover.start_move (snapped m wx wy) (TileMover.dx m) (TileMover.dy m)).
Proof.
  unfold arrives, TileMover.update_position_pixels. intros Hmov Hw Ht.
  rewrite Hmov, Hw, Ht. cbv zeta. change (negb true) with false. cbv iota.
  destruct (tile_center_pixel _ _) as [cx cy]. intros ->.
  unfold snapped. destruct (TileMover.center_float wx wy) as [fx fy].
  reflexivity.
Qed.

Lemma update_position_pixels_on_the_way (m : TileMover.t F) :
  TileMover.moving m = true -> arrives m = false ->
  exists x y, TileMover.update_position_pixels m = TileMover.set_pixel m x y.
Proof.
  unfold arrives, TileMover.update_position_pixels. intros Hmov.
  rewrite Hmov. cbv zeta. change (negb true) with false. cbv iota.
  destruct (tile_center_pixel _ _) as [cx cy]. intros ->.
  eexists _, _. reflexivity.
Qed.

(** The rows of the maze, for facts checked row by row. *)
Definition rows : list Z := List.map Z.of_nat (seq 0 31).

Lemma rows_all (P : Z -> bool) :
  forallb P rows = true -> forall y, 0 <= y < 31 -> P y = true.
Proof.
  intros Hall y Hy. rewrite forallb_forall in Hall. apply Hall.
  unfold rows. apply in_map_iff. exists (Z.to_nat y). split; [lia |].
  apply in_seq. lia.
Qed.

(** In this maze, a row open at the left edge is open next to it, and no
    tile lies beyond the right edge. *)
Lemma left_edge_continues (y : Z) : is_open 0 y = true -> is_open 1 y = true.
Proof.
  intros Ho. pose proof (is_open_in_bounds _ _ Ho) as Hb.
  apply in_bounds_range in Hb.
  assert (Hr : implb (is_open 0 y) (is_open 1 y) = true).
  { apply (rows_all (fun y => implb (is_open 0 y) (is_open 1 y)));
      [vm_compute; reflexivity | lia]. }
  rewrite Ho in Hr. exact Hr.
Qed.

Lemma beyond_right_edge (y : Z) : is_open MAZE_W y = false.
Proof.
  unfold is_open. replace (in_bounds MAZE_W y) with false; [reflexivity |].
  symmetry. apply not_true_iff_false. rewrite in_bounds_range, MAZE_W_eq. lia.
Qed.

(** C6: a mover in transit with a wrap target that arrives is snapped to
    the target tile and its centre, idle and with the wrap state cleared,
    and [start_move] is called at once with its direction from there.  In
    this maze a mover that leaves the right edge of an open row therefore
    keeps the direction right and stays in transit at every frame of the
    crossing, the frame of the arrival included. *)
Theorem tunnel_wrap_continues (m : TileMover.t F) (wx wy : Z) :
  TileMover.moving m = true -> TileMover.warping m = true ->
  TileMover.warp_target m = Some (wx, wy) -> arrives m = true ->
  TileMover.update_position_pixels m
    = fst (TileMover.start_move (snapped m wx wy) (TileMover.dx m) (TileMover.dy m))
  /\ (TileMover.tx (snapped m wx wy), TileMover.ty (snapped m wx wy)) = (wx, wy)
  /\ (TileMover.px (snapped m wx wy), TileMover.py (snapped m wx wy))
     = TileMover.center_float wx wy
  /\ TileMover.moving (snapped m wx wy) = false
  /\ TileMover.warping (snapped m wx wy) = false
  /\ TileMover.warp_target (snapped m wx wy) = None
  /\ (forall (m0 : TileMover.t F) (y : Z),
        TileMover.tx m0 = MAZE_W - 1 -> TileMover.ty m0 = y ->
        is_open 0 y = true ->
        TileMover.start_move m0 1 0 = (committed m0 1 0 true (Some (0, y)), true))
  /\ (forall (m1 : TileMover.t F) (y : Z),
        TileMover.tx m1 = MAZE_W - 1 -> TileMover.ty m1 = y ->
        TileMover.dx m1 = 1 -> TileMover.dy m1 = 0 ->
        TileMover.moving m1 = true -> TileMover.warping m1 = true ->
        TileMover.warp_target m1 = Some (0, y) -> is_open 0 y = true ->
        let m' := TileMover.update_position_pixels m1 in
        TileMover.moving m' = true
        /\ (TileMover.dx m', TileMover.dy m') = (1, 0)
        /\ (arrives m1 = true ->
            (TileMover.tx m', TileMover.ty m') = (0, y)
            /\ (TileMover.px m', TileMover.py m') = TileMover.center_float 0 y
            /\ TileMover.warping m' = false /\ TileMover.warp_target m' = None)
        /\ (arrives m1 = false ->
            (TileMover.tx m', TileMover.ty m') = (MAZE_W - 1, y)
            /\ TileMover.warping m' = true
            /\ TileMover.warp_target m' = Some (0, y))).
Proof.
  intros Hmov Hw Ht Ha.
  split; [now apply update_position_pixels_wrap |].
  split; [reflexivity |].
  split; [unfold snapped; cbn [TileMover.px TileMover.py];
          symmetry; apply surjective_pairing |].
  do 3 (split; [reflexivity |]).
  split.
  - intros m0 y Hx Hy Ho.
    pose proof (start_move_wrap m0 1) as Hs.
    rewrite Hx, Hy, Z.add_0_r in Hs.
    replace (MAZE_W - 1 + 1) with MAZE_W in Hs by lia.
    rewrite Z_mod_same_full in Hs.
    rewrite Hs; [reflexivity | apply beyond_right_edge | exact Ho].
  - intros m1 y Hx Hy Hdx Hdy Hm1 Hw1 Ht1 Ho m'. subst m'.
    destruct (arrives m1) eqn:Harr.
    + rewrite (update_position_pixels_wrap m1 0 y) by assumption.
      rewrite Hdx, Hdy.
      rewrite start_move_open
        by (simpl; rewrite Z.add_0_r; now apply left_edge_continues).
      unfold snapped, committed. cbn [fst TileMover.tx TileMover.ty TileMover.px
        TileMover.py TileMover.dx TileMover.dy TileMover.moving TileMover.warping
        TileMover.warp_target].
      split; [reflexivity |]. split; [reflexivity |].
      split; [| intros [=]].
      intros _. split; [reflexivity |].
      split; [symmetry; apply surjective_pairing | auto].
    + destruct (update_position_pixels_on_the_way m1 Hm1 Harr) as (x & y' & ->).
      simpl. rewrite Hm1, Hdx, Hdy, Hx, Hy, Hw1, Ht1.
      split; [reflexivity |]. split; [reflexivity |].
      split; [intros [=] | auto].
Qed.
End Tunnel.

(** ** The mode scheduler *)

Section Scheduler.
Context {F : Type} `{FloatOps F} `{Screen}.

(** What [set_global_mode] does to one ghost. *)
Definition broadcast (md : Mode) (g : Ghost.t F) : Ghost.t F :=
  match Ghost.mode g with
  | frightened | eyes => g
  | _ => Ghost.set_mode g md
  end.

Lemma mode_tick_wait (w : World F) :
  1 < mode_timer w ->
  mode_tick w = set_schedule w (mode_index w) (mode_timer w - 1).
Proof.
  intros Ht. unfold mode_tick. cbv zeta. cbn [mode_timer set_schedule].
  destruct (Z.leb_spec (mode_timer w - 1) 0); [lia | reflexivity].
Qed.

Lemma mode_tick_switch (w : World F) :
  mode_timer w <= 1 ->
  let i := (mode_index w + 1) mod 8 in
  mode_index (mode_tick w) = i
  /\ mode_timer (mode_tick w) = snd (mode_entry i) * FPS
  /\ ghosts (mode_tick w) = List.map (broadcast (fst (mode_entry i))) (ghosts w).
Proof.
  intros Ht i. unfold mode_tick. cbv zeta. cbn [mode_timer mode_index set_schedule].
  destruct (Z.leb_spec (mode_timer w - 1) 0); [| lia].
  change (Z.of_nat (length MODE_SEQUENCE)) with 8. fold i.
  destruct (mode_entry i) as [mode_name sec]. simpl. auto.
Qed.

(** A phase of [t] ticks is left at its [t]-th tick, not before. *)
Lemma mode_tick_iter (k : nat) :
  forall w : World F,
    Z.of_nat k < mode_timer w ->
    mode_index (Nat.iter k mode_tick w) = mode_index w
    /\ mode_timer (Nat.iter k mode_tick w) = mode_timer w - Z.of_nat k.
Proof.
  induction k as [| k IH]; intros w Hk.
  - simpl. split; lia.
  - rewrite Nat.iter_succ. destruct (IH w) as [Hi Ht]; [lia |].
    rewrite mode_tick_wait by lia. simpl. rewrite Hi, Ht. split; lia.
Qed.

(** C9: the cursor of the mode scheduler wraps around.  When the countdown
    of the last entry (chase, 9999 s) runs out, the cursor goes from 7 to
    [(7 + 1) mod 8 = 0], the countdown restarts at the 7 s of the first
    scatter phase and scatter is broadcast; from a full countdown this
    happens at tick [9999 * 60], and not before. *)
Theorem scheduler_wraps_around (w : World F) :
  mode_index w = 7 ->
  mode_entry 7 = (chase, 9999)
  /\ (mode_timer w <= 1 ->
      mode_index (mode_tick w) = 0
      /\ mode_timer (mode_tick w) = 7 * FPS
      /\ ghosts (mode_tick w) = List.map (broadcast scatter) (ghosts w))
  /\ (mode_timer w = 9999 * FPS ->
      (forall k, (k < Z.to_nat (9999 * FPS))%nat ->
                 mode_index (Nat.iter k mode_tick w) = 7)
      /\ mode_index (Nat.iter (Z.to_nat (9999 * FPS)) mode_tick w) = 0
      /\ mode_timer (Nat.iter (Z.to_nat (9999 * FPS)) mode_tick w) = 7 * FPS).
Proof.
  intros Hi. split; [reflexivity |]. split.
  - intros Ht. destruct (mode_tick_switch w Ht) as (E1 & E2 & E3).
    rewrite Hi in E1, E2, E3. exact (conj E1 (conj E2 E3)).
  - intros Ht.
    assert (Hpos : 0 < 9999 * FPS) by (unfold FPS; lia).
    split.
    + intros k Hk. destruct (mode_tick_iter k w) as [E _]; [lia |].
      rewrite E. exact Hi.
    + set (n := Z.to_nat (9999 * FPS)).
      assert (Hn : n = S (Nat.pred n)) by lia.
      rewrite Hn, Nat.iter_succ.
      destruct (mode_tick_iter (Nat.pred n) w) as [E1 E2]; [lia |].
      destruct (mode_tick_switch (Nat.iter (Nat.pred n) mode_tick w))
        as (S1 & S2 & _); [lia |].
      rewrite E1, Hi in S1, S2. split; [exact S1 | exact S2].
Qed.
End Scheduler.

(** ** The items of a round *)

Section MazeCells.

Lemma enumerate_row_In (row : string) :
  forall (k i : Z) (ch : ascii),
    In (i, ch) (enumerate_row k row)
    <-> k <= i /\ String.get (Z.to_nat (i - k)) row = Some ch.
Proof.
  induction row as [| c rest IH]; intros k i ch; simpl.
  - split; [intros [] | intros [_ Hg]; discriminate].
  - rewrite IH. split.
    + intros [Heq | [Hle Hg]].
      * injection Heq as <- <-. rewrite Z.sub_diag. simpl. split; [lia | reflexivity].
      * split; [lia |].
        replace (Z.to_nat (i - k)) with (S (Z.to_nat (i - (k + 1)))) by lia.
        exact Hg.
    + intros [Hle Hg]. destruct (Z.eq_dec i k) as [-> | Hne].
      * left. rewrite Z.sub_diag in Hg. simpl in Hg. congruence.
      * right. split; [lia |].
        replace (Z.to_nat (i - k)) with (S (Z.to_nat (i - (k + 1)))) in Hg by lia.
        exact Hg.
Qed.

Lemma enumerate_maze_In (rs : list string) :
  forall (k x y : Z) (ch : ascii),
    In ((x, y), ch) (enumerate_maze k rs)
    <-> k <= y /\ 0 <= x
        /\ exists row, nth_error rs (Z.to_nat (y - k)) = Some row
                       /\ String.get (Z.to_nat x) row = Some ch.
Proof.
  induction rs as [| row rest IH]; intros k x y ch; simpl.
  - split; [intros [] | intros (_ & _ & row & Hn & _)].
    destruct (Z.to_nat (y - k)); discriminate.
  - rewrite in_app_iff, IH, in_map_iff. split.
    + intros [([i c] & Heq & Hin) | (Hle & Hx & row' & Hn & Hg)].
      * simpl in Heq. injection Heq as -> -> ->.
        apply enumerate_row_In in Hin as [Hi Hg]. rewrite Z.sub_0_r in Hg.
        split; [lia |]. split; [exact Hi |].
        exists row. rewrite Z.sub_diag. simpl. auto.
      * split; [lia |]. split; [exact Hx |]. exists row'.
        replace (Z.to_nat (y - k)) with (S (Z.to_nat (y - (k + 1)))) by lia.
        auto.
    + intros (Hle & Hx & row' & Hn & Hg). destruct (Z.eq_dec y k) as [-> | Hne].
      * left. rewrite Z.sub_diag in Hn. simpl in Hn. injection Hn as <-.
        exists (x, ch). split; [reflexivity |].
        apply enumerate_row_In. rewrite Z.sub_0_r. auto.
      * right. split; [lia |]. split; [exact Hx |]. exists row'.
        replace (Z.to_nat (y - k)) with (S (Z.to_nat (y - (k + 1)))) in Hn by lia.
        auto.
Qed.

(** The tile [t] of the maze holds the character [ch]. *)
Definition cell_is (t : Z * Z) (ch : ascii) : Prop :=
  0 <= fst t /\ 0 <= snd t /\ maze_at (fst t) (snd t) = Some ch.

Lemma maze_cells_In (t : Z * Z) (ch : ascii) :
  In (t, ch) maze_cells <-> cell_is t ch.
Proof.
  destruct t as [x y]. unfold maze_cells, cell_is, maze_at. cbn [fst snd].
  rewrite enumerate_maze_In, Z.sub_0_r. split.
  - intros (Hy & Hx & row & Hn & Hg). rewrite Hn. auto.
  - intros (Hx & Hy & Hm).
    destruct (nth_error MAZE (Z.to_nat y)) as [row |] eqn:Hn; [| discriminate].
    split; [exact Hy |]. split; [exact Hx |]. exists row. auto.
Qed.

(** The loop of [reset_level] collects the ['.'] tiles and the ['o'] tiles. *)
Lemma reset_cells_spec (cells : list ((Z * Z) * ascii)) :
  forall (acc : tiles * tiles) (t : Z * Z),
    (t ∈ fst (fold_left reset_cell cells acc)
     <-> t ∈ fst acc \/ In (t, "."%char) cells)
    /\ (t ∈ snd (fold_left reset_cell cells acc)
     <-> t ∈ snd acc \/ In (t, "o"%char) cells).
Proof.
  induction cells as [| [xy ch] cells IH]; intros acc t; simpl.
  - tauto.
  - destruct (IH (reset_cell acc (xy, ch)) t) as [IH1 IH2].
    rewrite IH1, IH2. clear IH IH1 IH2. unfold reset_cell.
    destruct (Ascii.eqb_spec ch "."%char) as [-> | Hd];
      [| destruct (Ascii.eqb_spec ch "o"%char) as [-> | Ho]];
      cbn [fst snd]; rewrite ?elem_of_union, ?elem_of_singleton;
      intuition (subst; auto; congruence).
Qed.

(** The second set-up loop adds the blank tiles outside the ghost box. *)
Definition outside_box (t : Z * Z) : bool :=
  negb ((10 <=? fst t) && (fst t <=? 17) && (11 <=? snd t) && (snd t <=? 16)).

Lemma blank_pellets_spec (cells : list ((Z * Z) * ascii)) :
  forall (ps : tiles) (t : Z * Z),
    t ∈ fold_left add_blank_pellet cells ps
    <-> t ∈ ps \/ In (t, " "%char) cells /\ outside_box t = true.
Proof.
  induction cells as [| [[x y] ch] cells IH]; intros ps t; simpl.
  - tauto.
  - rewrite IH. clear IH. unfold add_blank_pellet.
    destruct (Ascii.eqb_spec ch " "%char) as [-> | Hb].
    + change (negb ((10 <=? x) && (x <=? 17) && (11 <=? y) && (y <=? 16)))
        with (outside_box (x, y)).
      destruct (outside_box (x, y)) eqn:Hout;
        rewrite ?elem_of_union, ?elem_of_singleton;
        intuition (subst; auto; congruence).
    + intuition (subst; auto; congruence).
Qed.
End MazeCells.

Section Items.
Context {F : Type} `{FloatOps F} `{Screen}.

(** The worlds the game can be in: the initial one and those a frame of the
    main loop leads to, whatever the events and the random draws. *)
Inductive reachable : World F -> Prop :=
| reachable_initial : reachable initial_world
| reachable_frame (w : World F) (evs : list Event) (rs : list nat) :
    reachable w -> reachable (frame w evs rs).

(** Pellets lie on ['.'] tiles only, power pellets on ['o'] tiles only. *)
Definition items_ok (w : World F) : Prop :=
  (forall t, t ∈ pellets w -> cell_is t "."%char)
  /\ (forall t, t ∈ power_pellets w -> cell_is t "o"%char).

Definition items (w : World F) : tiles * tiles := (pellets w, power_pellets w).

Lemma items_ok_eq (w w' : World F) : items w' = items w -> items_ok w -> items_ok w'.
Proof. unfold items, items_ok. intros [= -> ->]. auto. Qed.

Lemma reset_level_items (w : World F) (t : Z * Z) :
  (t ∈ pellets (reset_level w) <-> cell_is t "."%char)
  /\ (t ∈ power_pellets (reset_level w) <-> cell_is t "o"%char).
Proof.
  unfold reset_level. cbv zeta. cbn [pellets power_pellets set_items].
  generalize (reset_cells_spec maze_cells (∅, ∅) t).
  rewrite !maze_cells_In.
  generalize (fold_left reset_cell maze_cells (∅, ∅)).
  intros sets [H1 H2]. cbn [fst snd] in H1, H2. rewrite H1, H2.
  split; (split; [intros [Hin | Hc]; [| exact Hc] | intros Hc; right; exact Hc]);
    exfalso; revert Hin; apply not_elem_of_empty.
Qed.

Lemma set_global_mode_items (w : World F) md : items (set_global_mode w md) = items w.
Proof. reflexivity. Qed.

Lemma trigger_fright_items (w : World F) : items (trigger_fright w) = items w.
Proof. reflexivity. Qed.

Lemma restart_items (w : World F) (t : Z * Z) :
  (t ∈ pellets (restart w) <-> cell_is t "."%char)
  /\ (t ∈ power_pellets (restart w) <-> cell_is t "o"%char).
Proof.
  unfold restart. cbv zeta.
  cbn [pellets power_pellets set_global_mode set_ghosts set_schedule set_flags
       set_player].
  apply reset_level_items.
Qed.

Lemma initial_world_eq :
  initial_world = set_global_mode (set_eaten (reset_level startup_world) 0) scatter.
Proof. reflexivity. Qed.

Lemma initial_world_items (t : Z * Z) :
  (t ∈ pellets initial_world <-> cell_is t "."%char)
  /\ (t ∈ power_pellets initial_world <-> cell_is t "o"%char).
Proof. rewrite initial_world_eq. apply reset_level_items. Qed.

Lemma mode_tick_items (w : World F) : items (mode_tick w) = items w.
Proof.
  unfold mode_tick. cbv zeta.
  destruct (_ <=? _); [destruct (mode_entry _) |]; reflexivity.
Qed.

Lemma pick_up_items (w : World F) :
  pellets (pick_up w) ⊆ pellets w /\ power_pellets (pick_up w) ⊆ power_pellets w.
Proof.
  unfold pick_up. cbv zeta.
  destruct (TileMover.at_center _); cbn [negb]; [| split; reflexivity].
  destruct (bool_decide (_ ∈ pellets w)); cbn [power_pellets set_player set_items];
    destruct (bool_decide _);
    cbn [pellets power_pellets set_player set_items trigger_fright set_ghosts set_eaten];
    split; first [reflexivity | apply subseteq_difference_l; reflexivity].
Qed.

Lemma player_tick_items (w : World F) :
  pellets (player_tick w) ⊆ pellets w
  /\ power_pellets (player_tick w) ⊆ power_pellets w.
Proof.
  unfold player_tick. destruct (Pacman.alive (player w)); cbn [negb].
  - apply (pick_up_items (set_player w (Pacman.update (player w)))).
  - cbv zeta. cbn [player set_player].
    destruct (Z.leb _ _); [destruct (Z.gtb _ _) |]; split; reflexivity.
Qed.

Lemma ghosts_tick_items (w : World F) rs : items (ghosts_tick w rs) = items w.
Proof. reflexivity. Qed.

Lemma collide_from_items (n : nat) :
  forall (i : nat) (w : World F), items (collide_from n i w) = items w.
Proof.
  induction n as [| n IH]; intros i w; [reflexivity |]. simpl.
  destruct (ghosts w !! i) as [g |]; [| reflexivity].
  destruct (near (player w) g); [| apply IH].
  destruct (_ && _); [rewrite IH; reflexivity |].
  destruct (_ && _); [reflexivity | apply IH].
Qed.

Lemma check_collisions_items (w : World F) : items (check_collisions w) = items w.
Proof.
  unfold check_collisions. destruct (negb _); [reflexivity | apply collide_from_items].
Qed.

Lemma win_check_items (w : World F) : items (win_check w) = items w.
Proof. unfold win_check. destruct (_ && _); reflexivity. Qed.

Lemma items_ok_subset (w w' : World F) :
  pellets w' ⊆ pellets w /\ power_pellets w' ⊆ power_pellets w ->
  items_ok w -> items_ok w'.
Proof. unfold items_ok. intros [Hp Hpp] [H1 H2]. split; set_solver. Qed.

Lemma simulate_items_ok (w : World F) rs : items_ok w -> items_ok (simulate w rs).
Proof.
  intros Hok. unfold simulate. destruct (_ && _); [| exact Hok].
  apply (items_ok_eq _ _ (win_check_items _)).
  apply (items_ok_eq _ _ (check_collisions_items _)).
  apply (items_ok_eq _ _ (ghosts_tick_items _ _)).
  apply (items_ok_subset _ _ (player_tick_items _)).
  apply (items_ok_eq _ _ (mode_tick_items _)). exact Hok.
Qed.

Lemma handle_event_items_ok (w : World F) ev : items_ok w -> items_ok (handle_event w ev).
Proof.
  intros Hok. destruct ev as [| k |]; [exact Hok | | exact Hok].
  destruct k; try exact Hok. simpl.
  destruct (_ || _); [| exact Hok].
  split; intros t Ht; apply (restart_items w t); exact Ht.
Qed.

Lemma frame_items_ok (w : World F) evs rs : items_ok w -> items_ok (frame w evs rs).
Proof.
  intros Hok. unfold frame.
  assert (Hev : items_ok (fold_left handle_event evs w)).
  { revert w Hok. induction evs as [| ev evs IH]; intros w Hok; [exact Hok |].
    simpl. apply IH. now apply handle_event_items_ok. }
  cbv zeta. destruct (paused _); [exact Hev | now apply simulate_items_ok].
Qed.

Lemma reachable_items_ok (w : World F) : reachable w -> items_ok w.
Proof.
  induction 1 as [| w evs rs _ IH].
  - split; intros t Ht; apply (initial_world_items t); exact Ht.
  - now apply frame_items_ok.
Qed.

Lemma setup_pellets_blank (t : Z * Z) :
  cell_is t " "%char -> outside_box t = true -> t ∈ setup_pellets.
Proof.
  intros Hc Ho. unfold setup_pellets. apply blank_pellets_spec.
  right. split; [now apply maze_cells_In | exact Ho].
Qed.

(** C10: the item sets of play are those [reset_level] builds, from the
    ['.'] and ['o'] tiles only, at program start (the initial world is
    [reset_level] applied after the level set-up) and at every restart.  The
    set-up had put a pellet on every blank tile outside the ghost box, but in
    no world the game can reach does a blank tile hold a pellet or a power
    pellet: all items lie on ['.'] and ['o'] tiles. *)
Theorem blank_tiles_hold_no_item (w : World F) (t : Z * Z) :
  reachable w -> cell_is t " "%char ->
  (outside_box t = true -> t ∈ setup_pellets)
  /\ cell_is (0, 14) " "%char /\ outside_box (0, 14) = true
  /\ initial_world = set_global_mode (set_eaten (reset_level startup_world) 0) scatter
  /\ pellets startup_world = setup_pellets
  /\ (forall t0, (t0 ∈ pellets initial_world <-> cell_is t0 "."%char)
                 /\ (t0 ∈ power_pellets initial_world <-> cell_is t0 "o"%char))
  /\ (forall w0 t0, (t0 ∈ pellets (restart w0) <-> cell_is t0 "."%char)
                    /\ (t0 ∈ power_pellets (restart w0) <-> cell_is t0 "o"%char))
  /\ (forall t0, t0 ∈ pellets w -> cell_is t0 "."%char)
  /\ (forall t0, t0 ∈ power_pellets w -> cell_is t0 "o"%char)
  /\ (t ∉ pellets w) /\ (t ∉ power_pellets w).
Proof.
  intros Hr Hc. destruct (reachable_items_ok w Hr) as [Hp Hpp].
  assert (Hne : forall ch, ch <> " "%char -> ~ cell_is t ch).
  { intros ch Hch (_ & _ & Hm). destruct Hc as (_ & _ & Hm'). congruence. }
  split; [now apply setup_pellets_blank |].
  split; [unfold cell_is; cbn [fst snd]; repeat split; try lia; reflexivity |].
  split; [reflexivity |]. split; [exact initial_world_eq |]. split; [reflexivity |].
  split; [exact initial_world_items |].
  split; [exact restart_items |].
  split; [exact Hp |]. split; [exact Hpp |].
  split; intros Hin; [apply Hp in Hin | apply Hpp in Hin];
    revert Hin; apply Hne; discriminate.
Qed.
End Items.

(** ** Invariants of the reachable worlds *)

Section Invariants.
Context {F : Type} `{FloatOps F} `{Screen}.

(** The captured flag and the eyes mode go together. *)
Definition eyes_iff_dead (g : Ghost.t F) : Prop :=
  Ghost.dead g = true <-> Ghost.mode g = eyes.

(** Four ghosts, each captured exactly when in eyes mode; an eaten counter
    that is not negative; a cursor within the mode sequence. *)
Definition world_ok (w : World F) : Prop :=
  length (ghosts w) = 4%nat
  /\ Forall eyes_iff_dead (ghosts w)
  /\ 0 <= ghosts_eaten_in_power w
  /\ 0 <= mode_index w < 8.

Lemma fright_countdown_ok (g : Ghost.t F) :
  eyes_iff_dead g -> eyes_iff_dead (Ghost.fright_countdown g).
Proof.
  unfold eyes_iff_dead, Ghost.fright_countdown.
  destruct (Ghost.mode g) eqn:Hm, (Ghost.dead g) eqn:Hd; simpl;
    rewrite ?Hm, ?Hd; try tauto;
    destruct (_ <=? _); simpl; rewrite ?Hm, ?Hd; intuition congruence.
Qed.

Lemma update_ok (g : Ghost.t F) pac blinky r :
  eyes_iff_dead g -> eyes_iff_dead (Ghost.update g pac blinky r).
Proof.
  intros Hg. apply fright_countdown_ok in Hg. revert Hg.
  unfold Ghost.update. generalize (Ghost.fright_countdown g). clear g.
  intros g. unfold eyes_iff_dead. cbv zeta.
  destruct (Ghost.mode g) eqn:Hm; cbv beta iota delta [Mode_eqb];
    destruct (TileMover.moving (Ghost.base g)); cbv beta iota delta [negb];
    repeat match goal with
    | |- context [if ?b then _ else _] => destruct b
    end;
    repeat (first
      [ progress cbn [Ghost.mode Ghost.dead Ghost.set_base Ghost.set_dead
                      Ghost.set_mode]
      | progress rewrite Hm
      | match goal with
        | |- context [Ghost.mode (Ghost.choose_direction_toward ?a ?b)] =>
            rewrite (choose_direction_toward_base a b)
        | |- context [Ghost.dead (Ghost.choose_direction_toward ?a ?b)] =>
            rewrite (choose_direction_toward_base a b)
        end ]);
    intuition congruence.
Qed.

Lemma new_ghosts_ok :
  length (new_ghosts (F := F)) = 4%nat /\ Forall eyes_iff_dead (new_ghosts (F := F)).
Proof.
  split; [reflexivity |]. unfold new_ghosts. apply Forall_forall.
  intros g Hg. apply list_elem_of_In, in_map_iff in Hg as (i & <- & _).
  unfold eyes_iff_dead. simpl. intuition congruence.
Qed.

Lemma set_global_mode_ok (w : World F) md :
  md <> eyes -> world_ok w -> world_ok (set_global_mode w md).
Proof.
  intros Hmd (L & G & C & I). unfold world_ok, set_global_mode. simpl.
  rewrite length_map. repeat split; auto; try lia.
  apply Forall_fmap. eapply Forall_impl; [exact G |].
  intros g Hg. unfold eyes_iff_dead in *. simpl.
  destruct (Ghost.mode g) eqn:Hm; simpl; rewrite ?Hm; intuition congruence.
Qed.

Lemma mode_entry_not_eyes (i : Z) : fst (mode_entry i) <> eyes.
Proof.
  unfold mode_entry, MODE_SEQUENCE.
  destruct (Z.to_nat i) as [| [| [| [| [| [| [| [| n]]]]]]]]; simpl;
    try discriminate. destruct n; discriminate.
Qed.

Lemma trigger_fright_ok (w : World F) : world_ok w -> world_ok (trigger_fright w).
Proof.
  intros (L & G & C & I). unfold world_ok, trigger_fright. simpl.
  rewrite length_map. repeat split; auto; try lia.
  apply Forall_fmap. eapply Forall_impl; [exact G |].
  intros g Hg. unfold eyes_iff_dead in *. simpl.
  destruct (Ghost.dead g) eqn:Hd; simpl; rewrite ?Hd; intuition congruence.
Qed.

Lemma mode_tick_ok (w : World F) : world_ok w -> world_ok (mode_tick w).
Proof.
  intros Hw. unfold mode_tick. cbv zeta. cbn [mode_timer mode_index set_schedule].
  change (Z.of_nat (length MODE_SEQUENCE)) with 8.
  destruct (_ <=? _).
  - pose proof (mode_entry_not_eyes ((mode_index w + 1) mod 8)) as Hne.
    destruct (mode_entry _) as [md sec]. apply set_global_mode_ok; [exact Hne |].
    destruct Hw as (L & G & C & I). unfold world_ok. simpl.
    repeat split; auto; apply Z.mod_pos_bound; lia.
  - exact Hw.
Qed.

Lemma pick_up_ok (w : World F) : world_ok w -> world_ok (pick_up w).
Proof.
  intros Hw. unfold pick_up. cbv zeta.
  destruct (TileMover.at_center _); cbn [negb]; [| exact Hw].
  destruct (bool_decide (_ ∈ pellets w)); cbn [power_pellets set_player set_items];
    destruct (bool_decide _); try exact Hw; try (apply trigger_fright_ok; exact Hw).
Qed.

Lemma player_tick_ok (w : World F) : world_ok w -> world_ok (player_tick w).
Proof.
  intros Hw. unfold player_tick. destruct (Pacman.alive (player w)); cbn [negb].
  - apply pick_up_ok. exact Hw.
  - cbv zeta. cbn [player set_player].
    destruct (Z.leb _ _); [destruct (Z.gtb _ _) |]; exact Hw.
Qed.

Lemma ghosts_tick_ok (w : World F) rs : world_ok w -> world_ok (ghosts_tick w rs).
Proof.
  intros (L & G & C & I). unfold world_ok, ghosts_tick. simpl.
  rewrite length_imap. repeat split; auto; try lia.
  apply Forall_lookup. intros i g Hg. rewrite list_lookup_imap in Hg.
  apply fmap_Some in Hg as (g0 & Hg0 & ->).
  apply update_ok. rewrite Forall_lookup in G. eapply G; eauto.
Qed.

Lemma eat_ghost_ok (w : World F) (i : nat) (g : Ghost.t F) :
  world_ok w -> world_ok (eat_ghost w i g).
Proof.
  intros (L & G & C & I). unfold world_ok, eat_ghost. simpl.
  rewrite length_insert. repeat split; auto; try lia.
  apply Forall_insert; [exact G |]. unfold eyes_iff_dead. simpl. tauto.
Qed.

Lemma player_death_ok (w : World F) : world_ok w -> world_ok (player_death w).
Proof.
  intros (L & G & C & I). unfold world_ok, player_death. simpl.
  rewrite length_imap. repeat split; auto; try lia.
  apply Forall_lookup. intros i g Hg. rewrite list_lookup_imap in Hg.
  apply fmap_Some in Hg as (g0 & _ & ->).
  destruct (reset_ghost_is_reset i g0) as (_ & _ & _ & _ & _ & _ & Hm & Hd & _).
  unfold eyes_iff_dead. rewrite Hm, Hd. intuition congruence.
Qed.

Lemma collide_from_ok (n : nat) :
  forall (i : nat) (w : World F), world_ok w -> world_ok (collide_from n i w).
Proof.
  induction n as [| n IH]; intros i w Hw; [exact Hw |]. simpl.
  destruct (ghosts w !! i) as [g |]; [| exact Hw].
  destruct (near (player w) g); [| now apply IH].
  destruct (_ && _); [apply IH; now apply eat_ghost_ok |].
  destruct (_ && _); [now apply player_death_ok | now apply IH].
Qed.

Lemma simulate_ok (w : World F) rs : world_ok w -> world_ok (simulate w rs).
Proof.
  intros Hw. unfold simulate. destruct (_ && _); [| exact Hw].
  assert (Hc : world_ok (check_collisions (ghosts_tick (player_tick (mode_tick w)) rs))).
  { unfold check_collisions. destruct (negb _).
    - now apply ghosts_tick_ok, player_tick_ok, mode_tick_ok.
    - now apply collide_from_ok, ghosts_tick_ok, player_tick_ok, mode_tick_ok. }
  unfold win_check. destruct (_ && _); exact Hc.
Qed.

Lemma restart_ok (w : World F) : world_ok w -> world_ok (restart w).
Proof.
  intros (L & G & C & I). unfold restart. cbv zeta.
  apply set_global_mode_ok; [apply mode_entry_not_eyes |].
  destruct new_ghosts_ok as [L' G']. unfold world_ok. simpl.
  repeat split; auto; lia.
Qed.

Lemma handle_event_ok (w : World F) ev : world_ok w -> world_ok (handle_event w ev).
Proof.
  intros Hw. destruct ev as [| k |]; [exact Hw | | exact Hw].
  destruct k; try exact Hw. simpl.
  destruct (_ || _); [now apply restart_ok | exact Hw].
Qed.

Lemma frame_ok (w : World F) evs rs : world_ok w -> world_ok (frame w evs rs).
Proof.
  intros Hw. unfold frame.
  assert (Hev : world_ok (fold_left handle_event evs w)).
  { revert w Hw. induction evs as [| ev evs IH]; intros w Hw; [exact Hw |].
    simpl. apply IH. now apply handle_event_ok. }
  cbv zeta. destruct (paused _); [exact Hev | now apply simulate_ok].
Qed.

Lemma initial_world_ok : world_ok (initial_world (F := F)).
Proof.
  rewrite initial_world_eq. apply set_global_mode_ok; [discriminate |].
  destruct new_ghosts_ok as [L G]. unfold world_ok. simpl.
  repeat split; auto; lia.
Qed.

(** In every world the game can reach there are four ghosts, each captured
    exactly when in eyes mode, the eaten counter is not negative and the
    cursor of the scheduler is within the mode sequence. *)
Lemma reachable_ok (w : World F) : reachable w -> world_ok w.
Proof.
  induction 1 as [| w evs rs _ IH]; [apply initial_world_ok | now apply frame_ok].
Qed.
End Invariants.

(** ** Movers stay on the maze *)

Section Movers.
Context {F : Type} `{FloatOps F} `{Screen}.

(** A direction of the game: none, or one step along an axis. *)
Definition axis_step (d : Z * Z) : Prop :=
  d = (0, 0) \/ In d [(1, 0); (-1, 0); (0, 1); (0, -1)].

(** A mover on an open tile, with an axis direction, and, when in transit,
    heading for an open tile: the wrap target if it wraps, the next tile
    otherwise. *)
Definition mover_ok (m : TileMover.t F) : Prop :=
  is_open (TileMover.tx m) (TileMover.ty m) = true
  /\ axis_step (TileMover.dx m, TileMover.dy m)
  /\ (TileMover.moving m = true ->
      if TileMover.warping m
      then exists t, TileMover.warp_target m = Some t
                     /\ is_open (fst t) (snd t) = true
      else is_open (TileMover.tx m + TileMover.dx m)
                   (TileMover.ty m + TileMover.dy m) = true).

Lemma axis_step_reverse (x y : Z) : axis_step (x, y) -> axis_step (- x, - y).
Proof.
  unfold axis_step. simpl.
  intros [[= -> ->] | [[= <- <-] | [[= <- <-] | [[= <- <-] | [[= <- <-] | []]]]]];
    simpl; tauto.
Qed.

Lemma start_move_ok (m : TileMover.t F) (dx_ dy_ : Z) :
  mover_ok m -> axis_step (dx_, dy_) ->
  mover_ok (fst (TileMover.start_move m dx_ dy_)).
Proof.
  intros (Ht & Ha & Hm) Hd. unfold TileMover.start_move.
  destruct (is_open (TileMover.tx m + dx_) (TileMover.ty m + dy_)) eqn:Ho.
  - unfold mover_ok. simpl. auto.
  - destruct (_ && _); [| unfold mover_ok; auto].
    destruct (is_open ((TileMover.tx m + dx_) mod MAZE_W) (TileMover.ty m + dy_))
      eqn:Hw; [| unfold mover_ok; auto].
    unfold mover_ok. simpl. split; [exact Ht |]. split; [exact Hd |].
    intros _. eexists. split; [reflexivity | exact Hw].
Qed.

Lemma update_position_pixels_ok (m : TileMover.t F) :
  mover_ok m -> mover_ok (TileMover.update_position_pixels m).
Proof.
  intros Hok. pose proof Hok as (Ht & Ha & Hm).
  unfold TileMover.update_position_pixels.
  destruct (TileMover.moving m) eqn:Hmov; [| exact Hok].
  cbv zeta. change (negb true) with false. cbv iota.
  destruct (tile_center_pixel (TileMover.tx m + TileMover.dx m)
              (TileMover.ty m + TileMover.dy m)) as [cx cy].
  specialize (Hm eq_refl).
  match goal with
  | |- context [fleb ?a ?b] => destruct (fleb a b)
  end.
  - destruct (TileMover.warping m) eqn:Hw.
    + destruct Hm as ([wx wy] & Hwt & Hot). rewrite Hwt.
      destruct (TileMover.center_float wx wy) as [fx fy].
      apply start_move_ok; [| exact Ha].
      unfold mover_ok. simpl. split; [exact Hot |]. split; [exact Ha |].
      intros [=].
    + assert (Hn : mover_ok
                (TileMover.set_moving
                   (TileMover.set_pixel
                      (TileMover.set_tile m (TileMover.tx m + TileMover.dx m)
                         (TileMover.ty m + TileMover.dy m))
                      (float_of_int cx) (float_of_int cy)) false)).
      { unfold mover_ok. simpl. split; [exact Hm |]. split; [exact Ha |].
        intros [=]. }
      destruct (TileMover.warp_target m) as [[wx wy] |]; exact Hn.
  - unfold mover_ok. simpl. rewrite Hmov. auto.
Qed.

Lemma init_ok (tile : Z * Z) :
  is_open (fst tile) (snd tile) = true -> mover_ok (TileMover.init tile).
Proof.
  destruct tile as [x y]. intros Ho. unfold TileMover.init, mover_ok.
  destruct (TileMover.center_float x y) as [cx cy]. simpl.
  split; [exact Ho |]. split; [left; reflexivity | intros [=]].
Qed.

(** The player: its mover and its queued direction. *)
Definition pacman_ok (p : Pacman.t F) : Prop :=
  mover_ok (Pacman.base p)
  /\ axis_step (TileMover.next_dx (Pacman.base p), TileMover.next_dy (Pacman.base p)).

Lemma start_move_next (m : TileMover.t F) (dx_ dy_ : Z) :
  TileMover.next_dx (fst (TileMover.start_move m dx_ dy_)) = TileMover.next_dx m
  /\ TileMover.next_dy (fst (TileMover.start_move m dx_ dy_)) = TileMover.next_dy m.
Proof.
  unfold TileMover.start_move.
  repeat match goal with |- context [if ?b then _ else _] => destruct b end;
    simpl; auto.
Qed.

Lemma update_position_pixels_next (m : TileMover.t F) :
  TileMover.next_dx (TileMover.update_position_pixels m) = TileMover.next_dx m
  /\ TileMover.next_dy (TileMover.update_position_pixels m) = TileMover.next_dy m.
Proof.
  unfold TileMover.update_position_pixels.
  destruct (TileMover.moving m); [| simpl; auto].
  cbv zeta. change (negb true) with false. cbv iota.
  destruct (tile_center_pixel (TileMover.tx m + TileMover.dx m)
              (TileMover.ty m + TileMover.dy m)) as [cx cy].
  match goal with
  | |- context [fleb ?a ?b] => destruct (fleb a b)
  end; [| simpl; auto].
  destruct (TileMover.warping m), (TileMover.warp_target m) as [[wx wy] |];
    try (simpl; auto; fail).
  destruct (TileMover.center_float wx wy) as [fx fy].
  match goal with
  | |- context [TileMover.start_move ?a ?b ?c] =>
      pose proof (start_move_next a b c) as Hs
  end.
  simpl in Hs. simpl. exact Hs.
Qed.

Lemma pacman_update_ok (p : Pacman.t F) : pacman_ok p -> pacman_ok (Pacman.update p).
Proof.
  intros [Hm Hn]. unfold Pacman.update. cbv zeta.
  set (m := Pacman.base p) in *.
  assert (Hstep : forall m0, mover_ok m0 ->
            axis_step (TileMover.next_dx m0, TileMover.next_dy m0) ->
            pacman_ok (Pacman.set_base p (TileMover.update_position_pixels m0))).
  { intros m0 H1 H2. unfold pacman_ok. cbn [Pacman.base Pacman.set_base].
    split; [now apply update_position_pixels_ok |].
    destruct (update_position_pixels_next m0) as [-> ->]. exact H2. }
  assert (Hcur : forall m0, mover_ok m0 ->
            axis_step (TileMover.next_dx m0, TileMover.next_dy m0) ->
            mover_ok (fst (TileMover.start_move m0 (TileMover.dx m0) (TileMover.dy m0)))
            /\ axis_step
                 (TileMover.next_dx
                    (fst (TileMover.start_move m0 (TileMover.dx m0) (TileMover.dy m0))),
                  TileMover.next_dy
                    (fst (TileMover.start_move m0 (TileMover.dx m0) (TileMover.dy m0))))).
  { intros m0 H1 H2. split; [apply start_move_ok; [exact H1 | apply H1] |].
    destruct (start_move_next m0 (TileMover.dx m0) (TileMover.dy m0)) as [-> ->].
    exact H2. }
  destruct (TileMover.moving m); cbn [negb]; [now apply Hstep |].
  destruct (Pacman.is_zero_dir (TileMover.next_dx m) (TileMover.next_dy m)); cbn [negb].
  - destruct (Pacman.is_zero_dir (TileMover.dx m) (TileMover.dy m)); cbn [negb];
      [now apply Hstep |].
    destruct (Hcur m Hm Hn). now apply Hstep.
  - pose proof (start_move_ok m _ _ Hm Hn) as Hs.
    pose proof (start_move_next m (TileMover.next_dx m) (TileMover.next_dy m)) as [N1 N2].
    destruct (TileMover.start_move m (TileMover.next_dx m) (TileMover.next_dy m))
      as [m' ok]. cbn [fst] in *.
    destruct ok.
    + apply Hstep.
      * destruct Hs as (A & B & C). unfold mover_ok. simpl. auto.
      * simpl. left. reflexivity.
    + assert (Hn' : axis_step (TileMover.next_dx m', TileMover.next_dy m'))
        by (rewrite N1, N2; exact Hn).
      destruct (Pacman.is_zero_dir (TileMover.dx m') (TileMover.dy m')); cbn [negb];
        [now apply Hstep |].
      destruct (Hcur m' Hs Hn'). now apply Hstep.
Qed.

Lemma pac_start_open : is_open (fst pac_start) (snd pac_start) = true.
Proof. reflexivity. Qed.

Lemma pacman_init_ok : pacman_ok (Pacman.init pac_start).
Proof.
  unfold pacman_ok, Pacman.init. cbn [Pacman.base].
  pose proof (init_ok pac_start pac_start_open) as Hi.
  unfold TileMover.init in *. destruct pac_start as [x y].
  destruct (TileMover.center_float x y) as [cx cy].
  split; [exact Hi | left; reflexivity].
Qed.

Lemma respawn_ok (p : Pacman.t F) : pacman_ok p -> pacman_ok (Pacman.respawn p).
Proof.
  intros [Hm Hn]. unfold Pacman.respawn. cbv zeta.
  cbn [TileMover.tx TileMover.ty TileMover.set_tile].
  destruct (TileMover.center_float (fst pac_start) (snd pac_start)) as [cx cy].
  unfold pacman_ok, mover_ok.
  cbn [Pacman.base TileMover.tx TileMover.ty TileMover.dx TileMover.dy
       TileMover.next_dx TileMover.next_dy TileMover.moving TileMover.warping
       TileMover.warp_target TileMover.set_tile TileMover.set_pixel
       TileMover.set_dir TileMover.set_moving TileMover.set_warp].
  split; [| exact Hn].
  split; [exact pac_start_open |]. split; [left; reflexivity | intros [=]].
Qed.

Lemma queue_dir_ok (p : Pacman.t F) (dx_ dy_ : Z) :
  pacman_ok p -> axis_step (dx_, dy_) -> pacman_ok (Pacman.queue_dir p dx_ dy_).
Proof. intros [Hm Hn] Hd. unfold pacman_ok. simpl. split; [exact Hm | exact Hd]. Qed.
End Movers.


Section GhostMovers.
Context {F : Type} `{FloatOps F} `{Screen}.

Lemma set_speed_ok (m : TileMover.t F) (s : F) :
  mover_ok m -> mover_ok (TileMover.set_speed m s).
Proof. intros Hm. exact Hm. Qed.

Lemma set_dir_idle_ok (m : TileMover.t F) (x y : Z) :
  TileMover.moving m = false -> mover_ok m -> axis_step (x, y) ->
  mover_ok (TileMover.set_dir m x y).
Proof.
  intros Hmov (Ht & _ & _) Ha. unfold mover_ok. simpl.
  rewrite Hmov. split; [exact Ht |]. split; [exact Ha | intros [=]].
Qed.

Lemma start_move_own_ok (m : TileMover.t F) :
  mover_ok m ->
  mover_ok (fst (TileMover.start_move m (TileMover.dx m) (TileMover.dy m))).
Proof. intros Hm. apply start_move_ok; [exact Hm | apply Hm]. Qed.

(** The directions a ghost chooses among are axis steps. *)
Lemma choices_axis (m : TileMover.t F) (d : Z * Z) :
  axis_step (TileMover.dx m, TileMover.dy m) ->
  In d (Ghost.or_reverse m (Ghost.candidates m)) -> axis_step d.
Proof.
  intros Ha Hin. unfold Ghost.or_reverse in Hin.
  destruct (Ghost.candidates m) as [| c cs] eqn:Hc.
  - destruct Hin as [<- | []]. now apply axis_step_reverse.
  - rewrite <- Hc in Hin. unfold Ghost.candidates in Hin.
    apply filter_In in Hin as [Hin _]. right. exact Hin.
Qed.

Lemma or_reverse_nonempty (m : TileMover.t F) (l : list (Z * Z)) :
  Ghost.or_reverse m l <> [].
Proof. destruct l; discriminate. Qed.

Lemma random_choice_In (r : nat) (l : list (Z * Z)) :
  l <> [] -> In (Ghost.random_choice r l) l.
Proof.
  intros Hl. unfold Ghost.random_choice. apply nth_In.
  apply Nat.mod_upper_bound. destruct l; [congruence | discriminate].
Qed.

(** [choose_direction_toward] picks one of the choices, or leaves the
    direction as it is. *)
Lemma choose_direction_toward_In (g : Ghost.t F) (target : Z * Z) :
  let g' := Ghost.choose_direction_toward g target in
  g' = g
  \/ exists d, In d (Ghost.or_reverse (Ghost.base g) (Ghost.candidates (Ghost.base g)))
               /\ g' = Ghost.set_base g (TileMover.set_dir (Ghost.base g) (fst d) (snd d)).
Proof.
  unfold Ghost.choose_direction_toward. cbv zeta.
  set (f := fun d : Z * Z => sqdist (dest g d) target).
  change (Ghost.best_step (TileMover.tx (Ghost.base g)) (TileMover.ty (Ghost.base g)) target)
    with (best_of f).
  pose proof (fold_best_of f
                (Ghost.or_reverse (Ghost.base g) (Ghost.candidates (Ghost.base g)))
                (None, 10 ^ 9)) as [_ Hcase].
  cbv zeta in Hcase.
  destruct (fold_left (best_of f) _ _) as [best bestd].
  destruct Hcase as [[[= -> ->] _] | (_ & l1 & d & l2 & Hl & Hb & _)].
  - left. reflexivity.
  - simpl in Hb. subst best. right. exists d. split; [| reflexivity].
    rewrite Hl. apply in_or_app. right. left. reflexivity.
Qed.

Lemma choose_direction_toward_ok (g : Ghost.t F) (target : Z * Z) :
  TileMover.moving (Ghost.base g) = false -> mover_ok (Ghost.base g) ->
  mover_ok (Ghost.base (Ghost.choose_direction_toward g target)).
Proof.
  intros Hmov Hok.
  destruct (choose_direction_toward_In g target) as [-> | (d & Hd & ->)];
    [exact Hok |].
  cbn [Ghost.base Ghost.set_base]. apply set_dir_idle_ok; auto.
  rewrite <- surjective_pairing. eapply choices_axis; [apply Hok | exact Hd].
Qed.

Lemma fright_countdown_base (g : Ghost.t F) :
  Ghost.base (Ghost.fright_countdown g) = Ghost.base g.
Proof.
  unfold Ghost.fright_countdown.
  destruct (_ && _); [| reflexivity]. cbv zeta.
  destruct (_ <=? _); reflexivity.
Qed.

(** [Ghost.update] keeps the ghost's mover on the maze. *)
Lemma update_base_ok (g : Ghost.t F) pac blinky r :
  mover_ok (Ghost.base g) -> mover_ok (Ghost.base (Ghost.update g pac blinky r)).
Proof.
  rewrite <- (fright_countdown_base g). unfold Ghost.update.
  generalize (Ghost.fright_countdown g). clear g. intros g Hok. cbv zeta.
  assert (Hdec : forall g1 : Ghost.t F,
            TileMover.moving (Ghost.base g) = false ->
            mover_ok (Ghost.base g1) ->
            mover_ok (Ghost.base
              (Ghost.set_base g1
                 (fst (TileMover.start_move (Ghost.base g1)
                         (TileMover.dx (Ghost.base g1))
                         (TileMover.dy (Ghost.base g1))))))).
  { intros g1 _ H1. cbn [Ghost.base Ghost.set_base]. now apply start_move_own_ok. }
  destruct (Mode_eqb (Ghost.mode g) eyes).
  - match goal with
    | |- context [TileMover.update_position_pixels ?a] =>
        assert (Hm : mover_ok (TileMover.update_position_pixels a));
        [ apply update_position_pixels_ok; cbn [Ghost.base Ghost.set_base];
          apply set_speed_ok
        | set (m' := TileMover.update_position_pixels a) in * ]
    end.
    + destruct (TileMover.moving (Ghost.base g)) eqn:Hmov; cbn [negb]; [exact Hok |].
      apply Hdec; [reflexivity |]. now apply choose_direction_toward_ok.
    + cbn [Ghost.base Ghost.set_base].
      destruct (Ghost.dir_eqb _ _ && negb (TileMover.moving m')) eqn:Hc.
      * cbn [Ghost.base Ghost.set_base Ghost.set_mode Ghost.set_dead].
        apply andb_true_iff in Hc as [_ Hc]. apply negb_true_iff in Hc.
        apply set_dir_idle_ok; [exact Hc | exact Hm | left; reflexivity].
      * exact Hm.
  - cbn [Ghost.base Ghost.set_base].
    apply update_position_pixels_ok.
    match goal with
    | |- mover_ok (Ghost.base match Ghost.mode ?a with _ => _ end) =>
        assert (Ha : mover_ok (Ghost.base a));
        [| destruct (Ghost.mode a); cbn [Ghost.base Ghost.set_base];
           apply set_speed_ok; exact Ha]
    end.
    destruct (TileMover.moving (Ghost.base g)) eqn:Hmov; cbn [negb]; [exact Hok |].
    apply Hdec; [reflexivity |].
    destruct (Ghost.mode g).
    + now apply choose_direction_toward_ok.
    + now apply choose_direction_toward_ok.
    + cbn [Ghost.base Ghost.set_base]. apply set_dir_idle_ok; auto.
      rewrite <- surjective_pairing. eapply choices_axis; [apply Hok |].
      apply random_choice_In, or_reverse_nonempty.
    + now apply choose_direction_toward_ok.
Qed.
End GhostMovers.


Section GhostModes.
Context {F : Type} `{FloatOps F} `{Screen}.

(** A ghost in eyes mode stays in eyes mode, captured, until an update
    leaves it idle on the home tile (14, 14); that update sets it to scatter,
    clears the captured flag and the direction. *)
Lemma update_in_eyes (g : Ghost.t F) pac blinky r :
  Ghost.mode g = eyes ->
  let g' := Ghost.update g pac blinky r in
  Ghost.mode g' = scatter /\ Ghost.dead g' = false
    /\ ghost_tile g' = (14, 14) /\ TileMover.moving (Ghost.base g') = false
    /\ ghost_dir g' = (0, 0)
  \/ Ghost.mode g' = eyes /\ Ghost.dead g' = Ghost.dead g
     /\ (ghost_tile g' <> (14, 14) \/ TileMover.moving (Ghost.base g') = true).
Proof.
  intros Hm. unfold Ghost.update, Ghost.fright_countdown.
  rewrite Hm. cbv beta iota zeta delta [Mode_eqb andb negb]. rewrite Hm.
  cbv beta iota.
  match goal with
  | |- context [TileMover.update_position_pixels ?a] =>
      set (m' := TileMover.update_position_pixels a)
  end.
  cbn [Ghost.base Ghost.set_base].
  destruct (Ghost.dir_eqb (TileMover.tx m', TileMover.ty m') (14, 14)) eqn:Ht.
  - destruct (TileMover.moving m') eqn:Hmov.
    + right. unfold ghost_tile.
      cbn [Ghost.mode Ghost.dead Ghost.base Ghost.set_base].
      split; [| split; [| right; exact Hmov]];
        destruct (TileMover.moving (Ghost.base g)); try reflexivity; try exact Hm;
        rewrite (choose_direction_toward_base g (14, 14)); simpl; auto.
    + left. apply dir_eqb_eq in Ht. unfold ghost_tile, ghost_dir.
      cbn [Ghost.mode Ghost.dead Ghost.base Ghost.set_base Ghost.set_mode
           Ghost.set_dead TileMover.tx TileMover.ty TileMover.dx TileMover.dy
           TileMover.moving TileMover.set_dir].
      auto.
  - right. unfold ghost_tile.
    cbn [Ghost.mode Ghost.dead Ghost.base Ghost.set_base].
    split; [| split; [| left; intros Heq; apply dir_eqb_eq in Heq; congruence]];
      destruct (TileMover.moving (Ghost.base g)); try reflexivity; try exact Hm;
      rewrite (choose_direction_toward_base g (14, 14)); simpl; auto.
Qed.

(** A frightened ghost has between 1 and [FRIGHT_DURATION] ticks left. *)
Definition fright_timer_ok (g : Ghost.t F) : Prop :=
  Ghost.mode g = frightened -> 1 <= Ghost.fright_timer g <= FRIGHT_DURATION.

Lemma update_fright_timer_ok (g : Ghost.t F) pac blinky r :
  eyes_iff_dead g -> fright_timer_ok g ->
  fright_timer_ok (Ghost.update g pac blinky r).
Proof.
  intros He Ht Hf. destruct (Ghost.mode g) eqn:Hm.
  - destruct (update_mode_after_countdown g pac blinky r) as [E1 E2];
      unfold Ghost.fright_countdown in *; rewrite Hm in *; simpl in *;
      congruence.
  - destruct (update_mode_after_countdown g pac blinky r) as [E1 E2];
      unfold Ghost.fright_countdown in *; rewrite Hm in *; simpl in *;
      congruence.
  - assert (Hd : Ghost.dead g = false).
    { destruct (Ghost.dead g) eqn:Hd; [| reflexivity].
      destruct He as [He _]. specialize (He Hd). congruence. }
    pose proof (fright_countdown_frightened g Hm Hd) as Hc.
    specialize (Ht Hm).
    destruct (Z.leb_spec (Ghost.fright_timer g - 1) 0).
    + destruct (update_mode_after_countdown g pac blinky r) as [E1 E2];
        rewrite Hc in *; simpl in *; congruence.
    + destruct (update_mode_after_countdown g pac blinky r) as [E1 E2];
        rewrite Hc in *; simpl in *; try congruence. rewrite E2. lia.
  - destruct (update_in_eyes g pac blinky r Hm) as [(E & _) | (E & _)]; congruence.
Qed.
End GhostModes.


(** ** The state of a round *)

Section RoundState.
Context {F : Type} `{FloatOps F} `{Screen}.

Definition ghost_ok (g : Ghost.t F) : Prop :=
  mover_ok (Ghost.base g) /\ fright_timer_ok g.

(** What every operation of a frame keeps: the movers are on the maze, a
    frightened ghost has ticks left, the countdown of the scheduler is
    running, the player has 0 to 3 lives, at least one while alive, and the
    game is over only with no life left. *)
Definition core_ok (w : World F) : Prop :=
  pacman_ok (player w)
  /\ Forall ghost_ok (ghosts w)
  /\ 1 <= mode_timer w <= 9999 * FPS
  /\ 0 <= Pacman.lives (player w) <= 3
  /\ (Pacman.alive (player w) = true -> 1 <= Pacman.lives (player w))
  /\ (game_over w = true ->
      Pacman.lives (player w) = 0 /\ Pacman.alive (player w) = false).

Lemma mode_entry_values (i : Z) :
  0 <= i < 8 ->
  (fst (mode_entry i) = scatter \/ fst (mode_entry i) = chase)
  /\ 1 <= snd (mode_entry i) * FPS <= 9999 * FPS.
Proof.
  intros Hi. unfold mode_entry, MODE_SEQUENCE, FPS.
  assert (Hc : i = 0 \/ i = 1 \/ i = 2 \/ i = 3 \/ i = 4 \/ i = 5 \/ i = 6 \/ i = 7)
    by lia.
  repeat destruct Hc as [-> | Hc]; try subst i; simpl; split; auto; lia.
Qed.

Lemma set_global_mode_core (w : World F) md :
  md <> frightened -> core_ok w -> core_ok (set_global_mode w md).
Proof.
  intros Hmd (P & G & T & L & A & O).
  refine (conj P (conj _ (conj T (conj L (conj A O))))).
  unfold set_global_mode. cbn [ghosts set_ghosts].
  apply Forall_fmap. eapply Forall_impl; [exact G |].
  intros g [Hm Ht]. cbv beta delta [compose]. unfold ghost_ok, fright_timer_ok in *.
  destruct (Ghost.mode g) eqn:Hg;
    cbn [Ghost.base Ghost.mode Ghost.set_mode Ghost.fright_timer];
    (split; [exact Hm |]);
    intros Hx; first [exfalso; congruence | apply Ht; reflexivity].
Qed.

Lemma trigger_fright_core (w : World F) : core_ok w -> core_ok (trigger_fright w).
Proof.
  intros (P & G & T & L & A & O).
  refine (conj P (conj _ (conj T (conj L (conj A O))))).
  unfold trigger_fright. cbn [ghosts set_ghosts set_eaten].
  apply Forall_fmap. eapply Forall_impl; [exact G |].
  intros g [Hm Ht]. cbv beta delta [compose]. unfold ghost_ok, fright_timer_ok in *.
  destruct (Ghost.dead g); cbn [negb]; [auto |].
  cbn [Ghost.base Ghost.mode Ghost.set_mode Ghost.fright_timer Ghost.set_fright_timer].
  split; [exact Hm |]. intros _. unfold FRIGHT_DURATION, FPS. lia.
Qed.

Lemma mode_tick_core (w : World F) :
  world_ok w -> core_ok w -> core_ok (mode_tick w).
Proof.
  intros (_ & _ & _ & I) Hc. unfold mode_tick. cbv zeta.
  cbn [mode_timer mode_index set_schedule].
  change (Z.of_nat (length MODE_SEQUENCE)) with 8.
  destruct (Z.leb_spec (mode_timer w - 1) 0) as [Hle | Hgt].
  - assert (Hi : 0 <= (mode_index w + 1) mod 8 < 8) by (apply Z.mod_pos_bound; lia).
    destruct (mode_entry_values _ Hi) as [Hmd Hsec].
    destruct (mode_entry ((mode_index w + 1) mod 8)) as [md sec].
    cbn [fst snd] in *.
    apply set_global_mode_core; [destruct Hmd; congruence |].
    destruct Hc as (P & G & T & L & A & O).
    exact (conj P (conj G (conj Hsec (conj L (conj A O))))).
  - destruct Hc as (P & G & T & L & A & O).
    refine (conj P (conj G (conj _ (conj L (conj A O))))). simpl. lia.
Qed.

(** [pick_up] touches of the player nothing but the score. *)
Lemma pick_up_player (w : World F) :
  Pacman.base (player (pick_up w)) = Pacman.base (player w)
  /\ Pacman.lives (player (pick_up w)) = Pacman.lives (player w)
  /\ Pacman.alive (player (pick_up w)) = Pacman.alive (player w)
  /\ game_over (pick_up w) = game_over w
  /\ win (pick_up w) = win w
  /\ mode_timer (pick_up w) = mode_timer w.
Proof.
  unfold pick_up. cbv zeta.
  destruct (TileMover.at_center _); cbn [negb]; [| auto 10].
  destruct (bool_decide (_ ∈ pellets w)); cbn [power_pellets set_player set_items];
    destruct (bool_decide _); simpl; auto 10.
Qed.

Lemma pick_up_ghosts (w : World F) :
  ghosts (pick_up w) = ghosts w \/ ghosts (pick_up w) = ghosts (trigger_fright w).
Proof.
  unfold pick_up. cbv zeta.
  destruct (TileMover.at_center _); cbn [negb]; [| auto].
  destruct (bool_decide (_ ∈ pellets w)); cbn [power_pellets set_player set_items];
    destruct (bool_decide _); simpl; auto.
Qed.

Lemma pick_up_core (w : World F) : core_ok w -> core_ok (pick_up w).
Proof.
  intros Hc. pose proof (trigger_fright_core w Hc) as Hf.
  destruct Hc as (P & G & T & L & A & O).
  destruct (pick_up_player w) as (Eb & El & Ea & Eo & _ & Et).
  unfold core_ok. rewrite El, Ea, Eo, Et.
  split.
  { destruct P as [P1 P2]. unfold pacman_ok. rewrite Eb. auto. }
  split; [| auto].
  destruct (pick_up_ghosts w) as [-> | ->]; [exact G | apply Hf].
Qed.

Lemma player_tick_core (w : World F) : core_ok w -> core_ok (player_tick w).
Proof.
  intros Hc. unfold player_tick.
  destruct (Pacman.alive (player w)) eqn:Ha; cbn [negb].
  - apply pick_up_core.
    destruct Hc as (P & G & T & L & A & O).
    refine (conj _ (conj G (conj T (conj L (conj _ _))))).
    + now apply pacman_update_ok.
    + exact A.
    + intros Ho. specialize (O Ho). cbn [player set_player] in *.
      change (Pacman.alive (Pacman.update (player w))) with (Pacman.alive (player w)).
      change (Pacman.lives (Pacman.update (player w))) with (Pacman.lives (player w)).
      exact O.
  - cbv zeta. cbn [player set_player].
    destruct Hc as (P & G & T & L & A & O).
    destruct (Z.leb _ _); [| exact (conj P (conj G (conj T (conj L (conj A O)))))].
    cbn [Pacman.lives Pacman.set_respawn_timer].
    destruct (Z.gtb_spec (Pacman.lives (player w)) 0) as [Hpos | Hle].
    + refine (conj _ (conj G (conj T (conj L (conj _ _))))).
      * now apply respawn_ok.
      * intros _. cbn [player set_player]. simpl. lia.
      * intros Ho. specialize (O Ho). simpl in *. lia.
    + refine (conj P (conj G (conj T (conj L (conj A _))))).
      intros _. simpl. split; [lia | exact Ha].
Qed.

Lemma ghosts_tick_core (w : World F) rs :
  world_ok w -> core_ok w -> core_ok (ghosts_tick w rs).
Proof.
  intros (_ & E & _ & _) (P & G & T & L & A & O).
  refine (conj P (conj _ (conj T (conj L (conj A O))))).
  unfold ghosts_tick. cbn [ghosts set_ghosts].
  apply Forall_lookup. intros i g Hg. rewrite list_lookup_imap in Hg.
  apply fmap_Some in Hg as (g0 & Hg0 & ->).
  rewrite Forall_lookup in G, E.
  destruct (G _ _ Hg0) as [Hm Ht]. split.
  - now apply update_base_ok.
  - apply update_fright_timer_ok; [eapply E; eauto | exact Ht].
Qed.

Lemma ghost_start_open (i : nat) :
  (i < 4)%nat -> is_open (fst (ghost_start i)) (snd (ghost_start i)) = true.
Proof.
  intros Hi. destruct i as [| [| [| [| i]]]]; try reflexivity. lia.
Qed.

Lemma eat_ghost_core (w : World F) (i : nat) (g : Ghost.t F) :
  ghosts w !! i = Some g -> core_ok w -> core_ok (eat_ghost w i g).
Proof.
  intros Hg (P & G & T & L & A & O).
  refine (conj P (conj _ (conj T (conj L (conj A O))))).
  unfold eat_ghost. cbn [ghosts set_ghosts set_eaten set_player].
  apply Forall_insert; [exact G |].
  rewrite Forall_lookup in G. destruct (G _ _ Hg) as [(Ho & _ & _) _].
  split.
  - unfold mover_ok. simpl. split; [exact Ho |].
    split; [left; reflexivity | intros [=]].
  - intros Hx. simpl in Hx. discriminate.
Qed.

Lemma player_death_core (w : World F) :
  length (ghosts w) = 4%nat -> Pacman.alive (player w) = true ->
  core_ok w -> core_ok (player_death w).
Proof.
  intros Hlen Ha (P & G & T & L & A & O). specialize (A Ha).
  unfold core_ok, player_death. cbn [player ghosts set_player set_ghosts
    mode_timer game_over Pacman.die Pacman.base Pacman.lives Pacman.alive].
  split; [exact P |]. split.
  - apply Forall_lookup. intros i g Hg. rewrite list_lookup_imap in Hg.
    apply fmap_Some in Hg as (g0 & Hg0 & ->).
    apply lookup_lt_Some in Hg0. rewrite Hlen in Hg0.
    destruct (reset_ghost_is_reset i g0)
      as (Htile & _ & Hdir & Hmov & _ & _ & Hmode & _ & _).
    split.
    + unfold mover_ok. unfold ghost_tile, ghost_dir in *.
      pose proof (f_equal fst Htile) as Hx. pose proof (f_equal snd Htile) as Hy.
      pose proof (f_equal fst Hdir) as Hdx. pose proof (f_equal snd Hdir) as Hdy.
      cbn [fst snd] in Hx, Hy, Hdx, Hdy. rewrite Hx, Hy, Hdx, Hdy, Hmov.
      split; [now apply ghost_start_open |].
      split; [left; reflexivity | intros [=]].
    + intros Hx. congruence.
  - split; [exact T |]. split; [lia |]. split; [intros [=] |].
    intros Ho. destruct (O Ho) as [_ Hd]. congruence.
Qed.

Lemma collide_from_core (n : nat) :
  forall (i : nat) (w : World F),
    length (ghosts w) = 4%nat -> Pacman.alive (player w) = true ->
    core_ok w -> core_ok (collide_from n i w).
Proof.
  induction n as [| n IH]; intros i w Hlen Ha Hc; [exact Hc |].
  destruct (ghosts w !! i) as [g |] eqn:Hg; [| simpl; rewrite Hg; exact Hc].
  rewrite (collide_from_step _ _ _ _ Hg).
  destruct (near (player w) g); [| now apply IH].
  destruct (eatable g).
  - destruct (eat_ghost_frame w i g) as (_ & _ & Ea & El & _).
    apply IH; [congruence | congruence | now apply eat_ghost_core].
  - destruct (deadly g); [now apply player_death_core | now apply IH].
Qed.

Lemma check_collisions_core (w : World F) :
  world_ok w -> core_ok w -> core_ok (check_collisions w).
Proof.
  intros (Hlen & _) Hc. unfold check_collisions.
  destruct (Pacman.alive (player w)) eqn:Ha; cbn [negb]; [| exact Hc].
  now apply collide_from_core.
Qed.
End RoundState.

(** ** Frames *)

Section Rounds.
Context {F : Type} `{FloatOps F} `{Screen}.

Lemma new_ghosts_core : Forall ghost_ok (new_ghosts (F := F)).
Proof.
  unfold new_ghosts. apply List.Forall_forall. intros g Hg.
  apply in_map_iff in Hg as (i & <- & Hi). apply in_seq in Hi.
  split.
  - cbn [Ghost.base Ghost.init]. apply init_ok. apply ghost_start_open. lia.
  - intros Hx. cbn [Ghost.mode Ghost.init] in Hx. discriminate Hx.
Qed.

Lemma mode_entry_not_frightened (i : Z) : fst (mode_entry i) <> frightened.
Proof.
  unfold mode_entry, MODE_SEQUENCE.
  destruct (Z.to_nat i) as [| [| [| [| [| [| [| [| n]]]]]]]]; simpl;
    try discriminate. destruct n; discriminate.
Qed.

Lemma first_phase_length : 1 <= snd (mode_entry 0) * FPS <= 9999 * FPS.
Proof. apply (mode_entry_values 0). lia. Qed.

Lemma win_check_core (w : World F) : core_ok w -> core_ok (win_check w).
Proof. intros Hc. unfold win_check. destruct (_ && _); exact Hc. Qed.

Lemma simulate_core (w : World F) rs :
  world_ok w -> core_ok w -> core_ok (simulate w rs).
Proof.
  intros Hw Hc. unfold simulate. destruct (_ && _); [| exact Hc].
  apply win_check_core, check_collisions_core.
  - now apply ghosts_tick_ok, player_tick_ok, mode_tick_ok.
  - apply ghosts_tick_core; [now apply player_tick_ok, mode_tick_ok |].
    apply player_tick_core. now apply mode_tick_core.
Qed.

Lemma fresh_round_core (w : World F) (i : Z) :
  player w = Pacman.init pac_start -> ghosts w = new_ghosts ->
  mode_timer w = snd (mode_entry 0) * FPS -> game_over w = false ->
  core_ok (set_global_mode w (fst (mode_entry i))).
Proof.
  intros Hp Hg Ht Ho. apply set_global_mode_core; [apply mode_entry_not_frightened |].
  unfold core_ok. rewrite Hp, Hg, Ht, Ho.
  split; [exact pacman_init_ok |]. split; [exact new_ghosts_core |].
  split; [exact first_phase_length |].
  cbn [Pacman.lives Pacman.alive Pacman.init].
  split; [lia |]. split; [intros _; lia | intros [=]].
Qed.

Lemma restart_core (w : World F) : core_ok (restart w).
Proof. unfold restart. cbv zeta. apply fresh_round_core; reflexivity. Qed.

Lemma initial_world_core : core_ok (initial_world (F := F)).
Proof. unfold initial_world. cbv zeta. apply fresh_round_core; reflexivity. Qed.

Lemma handle_event_core (w : World F) ev : core_ok w -> core_ok (handle_event w ev).
Proof.
  intros Hc.
  assert (Hq : forall x y, axis_step (x, y) ->
            core_ok (set_player w (Pacman.queue_dir (player w) x y))).
  { intros x y Ha. destruct Hc as (P & G & T & L & A & O).
    exact (conj (queue_dir_ok _ _ _ P Ha) (conj G (conj T (conj L (conj A O))))). }
  destruct ev as [| k |]; [exact Hc | | exact Hc].
  destruct k; cbn [handle_event]; try exact Hc;
    try (apply Hq; unfold axis_step; simpl; tauto).
  destruct (_ || _); [apply restart_core | exact Hc].
Qed.

Lemma events_ok (evs : list Event) :
  forall w : World F, world_ok w -> world_ok (fold_left handle_event evs w).
Proof.
  induction evs as [| ev evs IH]; intros w Hw; [exact Hw |].
  simpl. apply IH. now apply handle_event_ok.
Qed.

Lemma events_core (evs : list Event) :
  forall w : World F, core_ok w -> core_ok (fold_left handle_event evs w).
Proof.
  induction evs as [| ev evs IH]; intros w Hw; [exact Hw |].
  simpl. apply IH. now apply handle_event_core.
Qed.

Lemma frame_core (w : World F) evs rs :
  world_ok w -> core_ok w -> core_ok (frame w evs rs).
Proof.
  intros Hw Hc. unfold frame. cbv zeta.
  pose proof (events_ok evs w Hw). pose proof (events_core evs w Hc).
  destruct (paused _); [assumption | now apply simulate_core].
Qed.

Lemma reachable_core (w : World F) : reachable w -> core_ok w.
Proof.
  induction 1 as [| w evs rs Hr IH]; [apply initial_world_core |].
  apply frame_core; [now apply reachable_ok | exact IH].
Qed.

(** *** Won, lost *)

(** No item is left. *)
Definition cleared (w : World F) : Prop := pellets w = ∅ /\ power_pellets w = ∅.

Definition status_ok (w : World F) : Prop :=
  (win w = true <-> cleared w) /\ (game_over w = true -> win w = false).

Lemma cleared_items (w w' : World F) : items w' = items w -> cleared w' <-> cleared w.
Proof. unfold items, cleared. intros [= -> ->]. tauto. Qed.

Lemma first_pellet : cell_is (1, 1) "."%char.
Proof. unfold cell_is. cbn [fst snd]. split; [lia |]. split; [lia | reflexivity]. Qed.

Lemma fresh_items_not_cleared (w : World F) :
  (forall t, t ∈ pellets w <-> cell_is t "."%char) -> ~ cleared w.
Proof.
  intros Hp [He _]. pose proof (proj2 (Hp (1, 1)) first_pellet) as Hin.
  rewrite He in Hin. revert Hin. apply not_elem_of_empty.
Qed.

Lemma mode_tick_flags (w : World F) :
  game_over (mode_tick w) = game_over w /\ win (mode_tick w) = win w
  /\ player (mode_tick w) = player w.
Proof.
  unfold mode_tick. cbv zeta.
  destruct (_ <=? _); [destruct (mode_entry _) |]; auto.
Qed.

Lemma player_tick_flags (w : World F) :
  win (player_tick w) = win w
  /\ (Pacman.alive (player w) = true -> game_over (player_tick w) = game_over w)
  /\ (Pacman.alive (player w) = false -> items (player_tick w) = items w).
Proof.
  unfold player_tick. destruct (Pacman.alive (player w)); cbn [negb].
  - destruct (pick_up_player (set_player w (Pacman.update (player w))))
      as (_ & _ & _ & Eo & Ew & _).
    split; [exact Ew |]. split; [intros _; exact Eo | intros [=]].
  - cbv zeta. cbn [player set_player].
    destruct (Z.leb _ _); [destruct (Z.gtb _ _) |];
      (split; [reflexivity |]); (split; [intros [=] | reflexivity]).
Qed.

Lemma collide_from_flags (n : nat) :
  forall (i : nat) (w : World F),
    game_over (collide_from n i w) = game_over w
    /\ win (collide_from n i w) = win w.
Proof.
  induction n as [| n IH]; intros i w; [auto |]. simpl.
  destruct (ghosts w !! i) as [g |]; [| auto].
  destruct (near (player w) g); [| apply IH].
  destruct (_ && _); [apply (IH (S i) (eat_ghost w i g)) |].
  destruct (_ && _); [auto | apply IH].
Qed.

Lemma check_collisions_flags (w : World F) :
  game_over (check_collisions w) = game_over w
  /\ win (check_collisions w) = win w.
Proof.
  unfold check_collisions. destruct (negb _); [auto | apply collide_from_flags].
Qed.

Lemma win_check_flags (w : World F) :
  game_over (win_check w) = game_over w
  /\ (win (win_check w) = true <-> win w = true \/ cleared w).
Proof.
  unfold win_check, cleared.
  destruct (bool_decide (pellets w = ∅)) eqn:Hp;
    [apply bool_decide_eq_true in Hp | apply bool_decide_eq_false in Hp];
    (destruct (bool_decide (power_pellets w = ∅)) eqn:Hq;
     [apply bool_decide_eq_true in Hq | apply bool_decide_eq_false in Hq]);
    cbn [andb game_over win set_flags]; (split; [reflexivity |]); tauto.
Qed.

Lemma simulate_status (w : World F) rs : status_ok w -> status_ok (simulate w rs).
Proof.
  intros Hs. pose proof Hs as [Hwin Hover]. unfold simulate.
  destruct (negb (game_over w) && negb (win w)) eqn:Hb; [| exact Hs].
  apply andb_true_iff in Hb as [Ho Hw]. apply negb_true_iff in Ho, Hw.
  set (w1 := mode_tick w). set (w2 := player_tick w1).
  set (w3 := ghosts_tick w2 rs). set (w4 := check_collisions w3).
  destruct (mode_tick_flags w) as (O1 & W1 & P1).
  destruct (player_tick_flags w1) as (W2 & O2 & I2).
  destruct (check_collisions_flags w3) as (O4 & W4).
  destruct (win_check_flags w4) as (O5 & W5).
  fold w1 in O1, W1, P1. fold w2 in W2, O2, I2. fold w4 in O4, W4.
  assert (Hw4 : win w4 = false).
  { rewrite W4. change (win w3) with (win w2). congruence. }
  assert (Hnot : ~ cleared w) by (intros Hc; apply Hwin in Hc; congruence).
  split.
  - rewrite W5, Hw4. rewrite (cleared_items _ _ (win_check_items w4)).
    split; [intros [[=] | Hc]; exact Hc | intros Hc; right; exact Hc].
  - rewrite O5, O4. change (game_over w3) with (game_over w2). intros Ho2.
    destruct (win (win_check w4)) eqn:Hw5; [| reflexivity]. exfalso.
    destruct (proj1 W5 eq_refl) as [Hx | Hc]; [congruence |].
    destruct (Pacman.alive (player w1)) eqn:Ha.
    + rewrite (O2 eq_refl), O1 in Ho2. congruence.
    + apply Hnot.
      apply (cleared_items _ _ (check_collisions_items w3)) in Hc.
      change (cleared w2) in Hc.
      apply (cleared_items _ _ (I2 eq_refl)) in Hc.
      apply (cleared_items _ _ (mode_tick_items w)) in Hc. exact Hc.
Qed.

Lemma restart_status (w : World F) : status_ok (restart w).
Proof.
  pose proof (fresh_items_not_cleared (restart w)
                (fun t => proj1 (restart_items w t))) as Hn.
  split; [| reflexivity].
  change (win (restart w)) with false. split; [intros [=] | tauto].
Qed.

Lemma initial_world_status : status_ok (initial_world (F := F)).
Proof.
  pose proof (fresh_items_not_cleared initial_world
                (fun t => proj1 (initial_world_items t))) as Hn.
  split; [| reflexivity].
  change (win initial_world) with false. split; [intros [=] | tauto].
Qed.

Lemma handle_event_status (w : World F) ev :
  status_ok w -> status_ok (handle_event w ev).
Proof.
  intros Hs. destruct ev as [| k |]; [exact Hs | | exact Hs].
  destruct k; cbn [handle_event]; try exact Hs.
  destruct (_ || _); [apply restart_status | exact Hs].
Qed.

Lemma frame_status (w : World F) evs rs : status_ok w -> status_ok (frame w evs rs).
Proof.
  intros Hs. unfold frame. cbv zeta.
  assert (Hev : status_ok (fold_left handle_event evs w)).
  { revert w Hs. induction evs as [| ev evs IH]; intros w Hs; [exact Hs |].
    simpl. apply IH. now apply handle_event_status. }
  destruct (paused _); [exact Hev | now apply simulate_status].
Qed.

Lemma reachable_status (w : World F) : reachable w -> status_ok w.
Proof.
  induction 1 as [| w evs rs _ IH];
    [apply initial_world_status | now apply frame_status].
Qed.
End Rounds.

(** ** Score, lives and items over a frame *)

Section Scores.
Context {F : Type} `{FloatOps F} `{Screen}.

Lemma eat_points_bounds (N : Z) : 200 <= eat_points N <= 1600.
Proof.
  destruct eat_points_values as (E0 & E1 & E2 & E3).
  destruct (Z_le_gt_dec N 0) as [Hle | Hgt].
  - replace (eat_points N) with 200; [lia |].
    unfold eat_points. replace (Z.to_nat (Z.min N 3)) with O by lia. reflexivity.
  - assert (Hc : N = 1 \/ N = 2 \/ 3 <= N) by lia.
    destruct Hc as [-> | [-> | Hc]]; [rewrite E1 | rewrite E2 | rewrite (E3 N Hc)]; lia.
Qed.

(** *** The pick-up *)

Lemma items_disjoint (w : World F) (t : Z * Z) :
  items_ok w -> t ∈ pellets w -> t ∈ power_pellets w -> False.
Proof.
  intros [Hp Hq] H1 H2. destruct (Hp t H1) as (_ & _ & E1).
  destruct (Hq t H2) as (_ & _ & E2). congruence.
Qed.

Lemma pick_up_off_center (w : World F) :
  TileMover.at_center (Pacman.base (player w)) = false -> pick_up w = w.
Proof. intros Hc. unfold pick_up. cbv zeta. rewrite Hc. reflexivity. Qed.

Lemma pick_up_nothing (w : World F) :
  pac_tile (player w) ∉ pellets w -> pac_tile (player w) ∉ power_pellets w ->
  pick_up w = w.
Proof.
  intros Hp Hq. unfold pick_up. cbv zeta.
  destruct (TileMover.at_center _); cbn [negb]; [| reflexivity].
  fold (pac_tile (player w)).
  rewrite (bool_decide_eq_false_2 _ Hp). rewrite (bool_decide_eq_false_2 _ Hq).
  reflexivity.
Qed.

Lemma pick_up_pellet (w : World F) :
  TileMover.at_center (Pacman.base (player w)) = true ->
  pac_tile (player w) ∈ pellets w -> pac_tile (player w) ∉ power_pellets w ->
  pick_up w
  = set_player (set_items w (pellets w ∖ {[pac_tile (player w)]}) (power_pellets w))
      (Pacman.set_score (player w) (Pacman.score (player w) + 10)).
Proof.
  intros Hc Hp Hq. unfold pick_up. cbv zeta. rewrite Hc. cbn [negb].
  fold (pac_tile (player w)).
  rewrite (bool_decide_eq_true_2 _ Hp). cbn [power_pellets set_player set_items].
  rewrite (bool_decide_eq_false_2 _ Hq). reflexivity.
Qed.

Lemma pick_up_power_pellet (w : World F) :
  TileMover.at_center (Pacman.base (player w)) = true ->
  pac_tile (player w) ∉ pellets w -> pac_tile (player w) ∈ power_pellets w ->
  pick_up w
  = trigger_fright
      (set_player (set_items w (pellets w) (power_pellets w ∖ {[pac_tile (player w)]}))
         (Pacman.set_score (player w) (Pacman.score (player w) + 50))).
Proof.
  intros Hc Hp Hq. unfold pick_up. cbv zeta. rewrite Hc. cbn [negb].
  fold (pac_tile (player w)).
  rewrite (bool_decide_eq_false_2 _ Hp). rewrite (bool_decide_eq_true_2 _ Hq).
  reflexivity.
Qed.

Lemma pick_up_score (w : World F) :
  Pacman.score (player w) <= Pacman.score (player (pick_up w))
    <= Pacman.score (player w) + 60.
Proof.
  unfold pick_up. cbv zeta.
  destruct (TileMover.at_center _); cbn [negb]; [| lia].
  destruct (bool_decide (_ ∈ pellets w)); cbn [power_pellets set_player set_items];
    destruct (bool_decide _); simpl; lia.
Qed.

Lemma pick_up_removed (w : World F) (t : Z * Z) :
  (t ∈ pellets w -> t ∉ pellets (pick_up w) -> t = pac_tile (player w))
  /\ (t ∈ power_pellets w -> t ∉ power_pellets (pick_up w) -> t = pac_tile (player w)).
Proof.
  unfold pick_up. cbv zeta.
  destruct (TileMover.at_center _); cbn [negb]; [| tauto].
  fold (pac_tile (player w)).
  destruct (bool_decide (_ ∈ pellets w)); cbn [power_pellets set_player set_items];
    destruct (bool_decide _);
    cbn [pellets power_pellets set_player set_items trigger_fright set_ghosts set_eaten];
    rewrite ?elem_of_difference, ?elem_of_singleton;
    (split; intros Hin Hout; [| ]); try tauto;
    destruct (decide (t = pac_tile (player w))); tauto.
Qed.

(** *** The player and the score over the steps of a frame *)

Lemma respawn_effect (p : Pacman.t F) :
  Pacman.lives (Pacman.respawn p) = Pacman.lives p
  /\ Pacman.score (Pacman.respawn p) = Pacman.score p
  /\ Pacman.alive (Pacman.respawn p) = true
  /\ Pacman.respawn_timer (Pacman.respawn p) = Pacman.respawn_timer p
  /\ pac_tile (Pacman.respawn p) = pac_start
  /\ pac_dir (Pacman.respawn p) = (0, 0)
  /\ TileMover.moving (Pacman.base (Pacman.respawn p)) = false
  /\ (TileMover.px (Pacman.base (Pacman.respawn p)),
      TileMover.py (Pacman.base (Pacman.respawn p)))
     = TileMover.center_float (fst pac_start) (snd pac_start)
  /\ TileMover.next_dx (Pacman.base (Pacman.respawn p))
     = TileMover.next_dx (Pacman.base p)
  /\ TileMover.next_dy (Pacman.base (Pacman.respawn p))
     = TileMover.next_dy (Pacman.base p).
Proof.
  unfold Pacman.respawn, pac_tile, pac_dir. cbv zeta.
  cbn [TileMover.tx TileMover.ty TileMover.set_tile].
  destruct (TileMover.center_float (fst pac_start) (snd pac_start)) as [cx cy].
  cbn [Pacman.base Pacman.lives Pacman.score Pacman.alive Pacman.respawn_timer
       TileMover.tx TileMover.ty TileMover.dx TileMover.dy TileMover.px TileMover.py
       TileMover.next_dx TileMover.next_dy TileMover.moving
       TileMover.set_tile TileMover.set_pixel TileMover.set_dir
       TileMover.set_moving TileMover.set_warp].
  rewrite <- surjective_pairing. auto 12.
Qed.

Lemma player_tick_score (w : World F) :
  Pacman.score (player w) <= Pacman.score (player (player_tick w))
  /\ Pacman.lives (player (player_tick w)) = Pacman.lives (player w).
Proof.
  unfold player_tick. destruct (Pacman.alive (player w)); cbn [negb].
  - pose proof (pick_up_score (set_player w (Pacman.update (player w)))) as Hs.
    destruct (pick_up_player (set_player w (Pacman.update (player w))))
      as (_ & El & _).
    split; [apply Hs | exact El].
  - cbv zeta. cbn [player set_player].
    destruct (Z.leb _ _); [destruct (Z.gtb _ _) |]; cbn [player set_player set_flags];
      [| simpl; split; lia | simpl; split; lia].
    destruct (respawn_effect (Pacman.set_respawn_timer (player w)
                                (Pacman.respawn_timer (player w) - 1)))
      as (El & Es & _).
    rewrite El, Es. simpl. split; lia.
Qed.

Lemma collide_from_score (n : nat) :
  forall (i : nat) (w : World F),
    Pacman.score (player w) <= Pacman.score (player (collide_from n i w))
    /\ (Pacman.lives (player (collide_from n i w)) = Pacman.lives (player w)
        \/ Pacman.lives (player (collide_from n i w)) = Pacman.lives (player w) - 1
           /\ Pacman.alive (player (collide_from n i w)) = false).
Proof.
  induction n as [| n IH]; intros i w;
    [cbn [collide_from]; split; [lia | left; reflexivity] |].
  destruct (ghosts w !! i) as [g |] eqn:Hg;
    [| cbn [collide_from]; rewrite Hg; split; [lia | left; reflexivity]].
  rewrite (collide_from_step _ _ _ _ Hg).
  destruct (near (player w) g); [| apply IH].
  destruct (eatable g).
  - destruct (eat_ghost_frame w i g) as (_ & El & _).
    destruct (eat_ghost_effect w i g Hg) as (Es & _).
    pose proof (eat_points_bounds (ghosts_eaten_in_power w)).
    destruct (IH (S i) (eat_ghost w i g)) as [Hs Hl].
    rewrite El in Hl. split; [lia | exact Hl].
  - destruct (deadly g); [| apply IH].
    destruct (player_death_effect w) as (El & Ea & Es & _).
    split; [lia | right; split; assumption].
Qed.

Lemma collide_from_base (n : nat) :
  forall (i : nat) (w : World F),
    Pacman.base (player (collide_from n i w)) = Pacman.base (player w).
Proof.
  induction n as [| n IH]; intros i w; [reflexivity |]. simpl.
  destruct (ghosts w !! i) as [g |]; [| reflexivity].
  destruct (near (player w) g); [| apply IH].
  destruct (_ && _); [rewrite IH; reflexivity |].
  destruct (_ && _); [reflexivity | apply IH].
Qed.

Lemma check_collisions_base (w : World F) :
  Pacman.base (player (check_collisions w)) = Pacman.base (player w).
Proof.
  unfold check_collisions. destruct (negb _); [reflexivity | apply collide_from_base].
Qed.

Lemma win_check_player (w : World F) : player (win_check w) = player w.
Proof. unfold win_check. destruct (_ && _); reflexivity. Qed.

(** *** The eaten counter *)

Definition fr (g : Ghost.t F) : Z :=
  if Mode_eqb (Ghost.mode g) frightened then 1 else 0.

(** The number of frightened ghosts of a list. *)
Definition frightened_count (gs : list (Ghost.t F)) : Z :=
  fold_right (fun g n => fr g + n) 0 gs.

(** The counter of eaten ghosts and the frightened ghosts together are at
    most the four ghosts of the game. *)
Definition eaten_ok (w : World F) : Prop :=
  0 <= ghosts_eaten_in_power w
  /\ ghosts_eaten_in_power w + frightened_count (ghosts w) <= 4.

Lemma fr_bounds (g : Ghost.t F) : 0 <= fr g <= 1.
Proof. unfold fr. destruct (Mode_eqb _ _); lia. Qed.

Lemma fr_frightened (g : Ghost.t F) : Ghost.mode g = frightened -> fr g = 1.
Proof. intros Hm. unfold fr. rewrite Hm. reflexivity. Qed.

Lemma fr_other (g : Ghost.t F) : Ghost.mode g <> frightened -> fr g = 0.
Proof. intros Hm. unfold fr. destruct (Ghost.mode g); try reflexivity. congruence. Qed.

Lemma frightened_count_bounds (gs : list (Ghost.t F)) :
  0 <= frightened_count gs <= Z.of_nat (length gs).
Proof.
  induction gs as [| g gs IH]; simpl; [lia |].
  pose proof (fr_bounds g). lia.
Qed.

Lemma frightened_count_In (gs : list (Ghost.t F)) (g : Ghost.t F) :
  In g gs -> Ghost.mode g = frightened -> 1 <= frightened_count gs.
Proof.
  induction gs as [| g0 gs IH]; simpl; [intros [] |].
  intros [-> | Hin] Hm.
  - rewrite (fr_frightened g Hm). pose proof (frightened_count_bounds gs). lia.
  - specialize (IH Hin Hm). pose proof (fr_bounds g0). lia.
Qed.

Lemma frightened_count_insert (gs : list (Ghost.t F)) :
  forall (i : nat) (g g' : Ghost.t F),
    gs !! i = Some g ->
    frightened_count (<[i := g']> gs) = frightened_count gs - fr g + fr g'.
Proof.
  induction gs as [| g0 gs IH]; intros i g g' Hg; [discriminate |].
  destruct i as [| i]; simpl in *.
  - injection Hg as ->. lia.
  - rewrite (IH i g g' Hg). lia.
Qed.

Lemma frightened_count_imap (gs : list (Ghost.t F)) :
  forall f : nat -> Ghost.t F -> Ghost.t F,
    (forall i g, gs !! i = Some g -> fr (f i g) <= fr g) ->
    frightened_count (imap f gs) <= frightened_count gs.
Proof.
  induction gs as [| g gs IH]; intros f Hf; simpl; [lia |].
  pose proof (Hf O g eq_refl).
  specialize (IH (f ∘ S) (fun i g0 Hg => Hf (S i) g0 Hg)). lia.
Qed.

Lemma frightened_count_map (gs : list (Ghost.t F)) (f : Ghost.t F -> Ghost.t F) :
  (forall g, fr (f g) <= fr g) ->
  frightened_count (List.map f gs) <= frightened_count gs.
Proof.
  intros Hf. induction gs as [| g gs IH]; simpl; [lia |].
  pose proof (Hf g). lia.
Qed.

Lemma set_global_mode_eaten (w : World F) md :
  md <> frightened -> eaten_ok w -> eaten_ok (set_global_mode w md).
Proof.
  intros Hmd [Hlo Hhi]. unfold eaten_ok, set_global_mode.
  cbn [ghosts ghosts_eaten_in_power set_ghosts]. split; [exact Hlo |].
  match goal with
  | |- _ + frightened_count (List.map ?f _) <= _ =>
      pose proof (frightened_count_map (ghosts w) f) as Hle
  end.
  cut (frightened_count
         (List.map (fun g => match Ghost.mode g with
                             | frightened | eyes => g
                             | _ => Ghost.set_mode g md
                             end) (ghosts w)) <= frightened_count (ghosts w));
    [lia |].
  apply Hle. intros g. unfold fr.
  destruct (Ghost.mode g) eqn:Hm; cbn [Ghost.mode Ghost.set_mode]; rewrite ?Hm;
    destruct md; cbn [Mode_eqb]; try lia; congruence.
Qed.

Lemma trigger_fright_eaten (w : World F) :
  length (ghosts w) = 4%nat -> eaten_ok (trigger_fright w).
Proof.
  intros Hlen. unfold eaten_ok, trigger_fright.
  cbn [ghosts ghosts_eaten_in_power set_ghosts set_eaten]. split; [lia |].
  match goal with
  | |- _ + frightened_count ?l <= _ =>
      pose proof (frightened_count_bounds l) as Hb
  end.
  rewrite length_map, Hlen in Hb. lia.
Qed.

Lemma mode_tick_eaten (w : World F) : eaten_ok w -> eaten_ok (mode_tick w).
Proof.
  intros He. unfold mode_tick. cbv zeta. cbn [mode_timer mode_index set_schedule].
  destruct (_ <=? _); [| exact He].
  pose proof (mode_entry_not_frightened
                ((mode_index w + 1) mod Z.of_nat (length MODE_SEQUENCE))) as Hne.
  destruct (mode_entry _) as [md sec]. cbn [fst] in Hne.
  apply set_global_mode_eaten; [exact Hne | exact He].
Qed.

Lemma pick_up_eaten_cases (w : World F) :
  ghosts (pick_up w) = ghosts w
    /\ ghosts_eaten_in_power (pick_up w) = ghosts_eaten_in_power w
  \/ ghosts (pick_up w) = ghosts (trigger_fright w)
    /\ ghosts_eaten_in_power (pick_up w) = 0.
Proof.
  unfold pick_up. cbv zeta.
  destruct (TileMover.at_center _); cbn [negb]; [| auto].
  destruct (bool_decide (_ ∈ pellets w)); cbn [power_pellets set_player set_items];
    destruct (bool_decide _); simpl; auto.
Qed.

Lemma pick_up_eaten (w : World F) :
  length (ghosts w) = 4%nat -> eaten_ok w -> eaten_ok (pick_up w).
Proof.
  intros Hlen He. pose proof (trigger_fright_eaten w Hlen) as Ht.
  unfold eaten_ok in *.
  destruct (pick_up_eaten_cases w) as [[-> ->] | [-> ->]]; [exact He |].
  exact Ht.
Qed.

Lemma player_tick_eaten (w : World F) :
  length (ghosts w) = 4%nat -> eaten_ok w -> eaten_ok (player_tick w).
Proof.
  intros Hlen He. unfold player_tick. destruct (Pacman.alive (player w)); cbn [negb].
  - apply pick_up_eaten; assumption.
  - cbv zeta. cbn [player set_player].
    destruct (Z.leb _ _); [destruct (Z.gtb _ _) |]; exact He.
Qed.

(** An update never makes a ghost frightened. *)
Lemma update_fr (g : Ghost.t F) pac blinky r :
  fr (Ghost.update g pac blinky r) <= fr g.
Proof.
  destruct (Mode_eqb (Ghost.mode g) frightened) eqn:Hf.
  - unfold fr at 2. rewrite Hf. apply fr_bounds.
  - assert (Hm : Ghost.mode g <> frightened)
      by (intros Hx; rewrite Hx in Hf; discriminate).
    assert (Hc : Ghost.fright_countdown g = g).
    { unfold Ghost.fright_countdown. rewrite Hf. reflexivity. }
    rewrite (fr_other g Hm).
    destruct (Ghost.mode g) eqn:Hg; try congruence.
    + destruct (update_mode_after_countdown g pac blinky r) as [E _];
        [rewrite Hc, Hg; discriminate |].
      rewrite Hc, Hg in E. rewrite fr_other; [lia | congruence].
    + destruct (update_mode_after_countdown g pac blinky r) as [E _];
        [rewrite Hc, Hg; discriminate |].
      rewrite Hc, Hg in E. rewrite fr_other; [lia | congruence].
    + destruct (update_in_eyes g pac blinky r Hg) as [(E & _) | (E & _)];
        rewrite fr_other; try lia; congruence.
Qed.

Lemma ghosts_tick_eaten (w : World F) rs : eaten_ok w -> eaten_ok (ghosts_tick w rs).
Proof.
  intros [Hlo Hhi]. unfold eaten_ok, ghosts_tick.
  cbn [ghosts ghosts_eaten_in_power set_ghosts]. split; [exact Hlo |].
  match goal with
  | |- _ + frightened_count (imap ?f _) <= _ =>
      pose proof (frightened_count_imap (ghosts w) f) as Hle
  end.
  cbv beta in Hle.
  match type of Hle with
  | _ -> ?a <= _ => cut (a <= frightened_count (ghosts w)); [lia |]
  end.
  apply Hle. intros i g _. apply update_fr.
Qed.

Lemma eat_ghost_eaten (w : World F) (i : nat) (g : Ghost.t F) :
  ghosts w !! i = Some g -> eatable g = true ->
  eaten_ok w -> eaten_ok (eat_ghost w i g).
Proof.
  intros Hg He [Hlo Hhi]. apply eatable_iff in He as [Hm _].
  unfold eaten_ok, eat_ghost.
  cbn [ghosts ghosts_eaten_in_power set_ghosts set_eaten set_player].
  rewrite (frightened_count_insert _ _ _ _ Hg), (fr_frightened g Hm).
  rewrite (fr_other (Ghost.kill_and_become_eyes g)) by discriminate.
  lia.
Qed.

Lemma player_death_eaten (w : World F) : eaten_ok w -> eaten_ok (player_death w).
Proof.
  intros [Hlo Hhi]. unfold eaten_ok, player_death.
  cbn [ghosts ghosts_eaten_in_power set_ghosts set_player]. split; [exact Hlo |].
  pose proof (frightened_count_imap (ghosts w) reset_ghost) as Hle.
  cut (frightened_count (imap reset_ghost (ghosts w)) <= frightened_count (ghosts w));
    [lia |].
  apply Hle. intros i g _.
  destruct (reset_ghost_is_reset i g) as (_ & _ & _ & _ & _ & _ & Hm & _).
  rewrite fr_other; [apply fr_bounds | congruence].
Qed.

Lemma collide_from_eaten (n : nat) :
  forall (i : nat) (w : World F), eaten_ok w -> eaten_ok (collide_from n i w).
Proof.
  induction n as [| n IH]; intros i w He; [exact He |].
  destruct (ghosts w !! i) as [g |] eqn:Hg; [| simpl; rewrite Hg; exact He].
  rewrite (collide_from_step _ _ _ _ Hg).
  destruct (near (player w) g); [| now apply IH].
  destruct (eatable g) eqn:Heat; [apply IH; now apply eat_ghost_eaten |].
  destruct (deadly g); [now apply player_death_eaten | now apply IH].
Qed.

Lemma simulate_eaten (w : World F) rs :
  length (ghosts w) = 4%nat -> eaten_ok w -> eaten_ok (simulate w rs).
Proof.
  intros Hlen He. unfold simulate. destruct (_ && _); [| exact He].
  assert (Hc : eaten_ok (check_collisions (ghosts_tick (player_tick (mode_tick w)) rs))).
  { assert (Hg : eaten_ok (ghosts_tick (player_tick (mode_tick w)) rs)).
    { apply ghosts_tick_eaten, player_tick_eaten; [| now apply mode_tick_eaten].
      unfold mode_tick. cbv zeta. destruct (_ <=? _); [destruct (mode_entry _) |];
        cbn [ghosts set_global_mode set_ghosts set_schedule];
        rewrite ?length_map; exact Hlen. }
    unfold check_collisions. destruct (negb _); [exact Hg |].
    now apply collide_from_eaten. }
  unfold win_check. destruct (_ && _); exact Hc.
Qed.

Lemma fresh_round_eaten (w : World F) (i : Z) :
  ghosts w = new_ghosts -> 0 <= ghosts_eaten_in_power w <= 4 ->
  eaten_ok (set_global_mode w (fst (mode_entry i))).
Proof.
  intros Hg He. apply set_global_mode_eaten; [apply mode_entry_not_frightened |].
  unfold eaten_ok. rewrite Hg.
  change (frightened_count (new_ghosts (F := F))) with 0. lia.
Qed.

Lemma restart_eaten (w : World F) : eaten_ok w -> eaten_ok (restart w).
Proof.
  intros [Hlo Hhi]. unfold restart. cbv zeta. apply fresh_round_eaten; [reflexivity |].
  cbn [ghosts_eaten_in_power set_schedule set_flags set_ghosts set_player
       reset_level set_items].
  pose proof (frightened_count_bounds (ghosts w)). lia.
Qed.

Lemma initial_world_eaten : eaten_ok (initial_world (F := F)).
Proof.
  unfold initial_world. cbv zeta. apply fresh_round_eaten; [reflexivity |].
  cbn [ghosts_eaten_in_power set_eaten]. lia.
Qed.

Lemma handle_event_eaten (w : World F) ev : eaten_ok w -> eaten_ok (handle_event w ev).
Proof.
  intros He. destruct ev as [| k |]; [exact He | | exact He].
  destruct k; cbn [handle_event]; try exact He.
  destruct (_ || _); [now apply restart_eaten | exact He].
Qed.

Lemma frame_eaten (w : World F) evs rs :
  world_ok w -> eaten_ok w -> eaten_ok (frame w evs rs).
Proof.
  intros Hw He. unfold frame. cbv zeta.
  pose proof (events_ok evs w Hw) as (Hlen & _).
  assert (Hev : eaten_ok (fold_left handle_event evs w)).
  { clear Hlen Hw. revert w He.
    induction evs as [| ev evs IH]; intros w He; [exact He |].
    simpl. apply IH. now apply handle_event_eaten. }
  destruct (paused _); [exact Hev | now apply simulate_eaten].
Qed.

Lemma reachable_eaten (w : World F) : reachable w -> eaten_ok w.
Proof.
  induction 1 as [| w evs rs Hr IH]; [apply initial_world_eaten |].
  apply frame_eaten; [now apply reachable_ok | exact IH].
Qed.
End Scores.

(** ** The ghosts, mode by mode *)

Section GhostBehaviour.
Context {F : Type} `{FloatOps F} `{Screen}.

(** The update of an idle frightened ghost whose fright goes on: the
    countdown, the random draw among the choices, then the move. *)
Lemma update_frightened (g : Ghost.t F) pac blinky r :
  TileMover.moving (Ghost.base g) = false ->
  Ghost.mode g = frightened -> Ghost.dead g = false -> 1 < Ghost.fright_timer g ->
  Ghost.update g pac blinky r
  = after_decision
      (let g1 := Ghost.set_fright_timer g (Ghost.fright_timer g - 1) in
       let d := Ghost.random_choice r
                  (Ghost.or_reverse (Ghost.base g) (Ghost.candidates (Ghost.base g))) in
       Ghost.set_base g1 (TileMover.set_dir (Ghost.base g1) (fst d) (snd d))).
Proof.
  intros Hmov Hmode Hdead Ht. unfold Ghost.update.
  rewrite (fright_countdown_frightened g Hmode Hdead).
  rewrite (proj2 (Z.leb_gt (Ghost.fright_timer g - 1) 0)) by lia.
  unfold after_decision.
  cbn [Ghost.mode Ghost.base Ghost.set_fright_timer]. rewrite Hmode.
  cbv beta iota zeta delta [Mode_eqb andb negb].
  rewrite ?Hmov. cbv beta iota zeta delta [Mode_eqb andb negb].
  reflexivity.
Qed.

Lemma nth_draw (l : list (Z * Z)) (c : Z * Z) :
  In c l -> exists r, Ghost.random_choice r l = c.
Proof.
  intros Hin. apply (In_nth l c (0, 0)) in Hin as (n & Hn & <-).
  exists n. unfold Ghost.random_choice. rewrite Nat.mod_small by exact Hn.
  reflexivity.
Qed.

(** X11: an idle frightened ghost whose fright goes on takes the direction
    that [random.choice] draws from its choices: the open neighbours that are
    not behind it, in the order right, left, down, up, or the reverse of its
    direction when there is none.  So it never runs into a wall, turns back
    in a dead end only, and every legal direction is taken for some draw. *)
Theorem frightened_ghost_choice (g : Ghost.t F) (pac : Pacman.t F)
    (blinky : option (Z * Z)) (r : nat) :
  TileMover.moving (Ghost.base g) = false ->
  Ghost.mode g = frightened -> Ghost.dead g = false -> 1 < Ghost.fright_timer g ->
  ghost_dir (Ghost.update g pac blinky r)
    = Ghost.random_choice r
        (Ghost.or_reverse (Ghost.base g) (Ghost.candidates (Ghost.base g)))
  /\ ((exists c, legal g c) -> legal g (ghost_dir (Ghost.update g pac blinky r)))
  /\ ((forall c, ~ legal g c) ->
      ghost_dir (Ghost.update g pac blinky r) = reverse_dir g)
  /\ (forall c, legal g c ->
      exists r', ghost_dir (Ghost.update g pac blinky r') = c).
Proof.
  intros Hmov Hmode Hdead Ht.
  assert (Hdir : forall r0,
            ghost_dir (Ghost.update g pac blinky r0)
            = Ghost.random_choice r0
                (Ghost.or_reverse (Ghost.base g) (Ghost.candidates (Ghost.base g)))).
  { intros r0. rewrite (update_frightened g pac blinky r0 Hmov Hmode Hdead Ht).
    rewrite after_decision_dir. cbv zeta. unfold ghost_dir.
    cbn [Ghost.base Ghost.set_base TileMover.dx TileMover.dy TileMover.set_dir].
    symmetry. apply surjective_pairing. }
  split; [apply Hdir |]. rewrite Hdir.
  split; [| split].
  - intros [c Hc]. apply candidates_legal in Hc.
    apply candidates_legal.
    destruct (Ghost.candidates (Ghost.base g)) as [| c0 cs] eqn:Hl; [destruct Hc |].
    cbn [Ghost.or_reverse]. apply random_choice_In. discriminate.
  - intros Hnone.
    destruct (Ghost.candidates (Ghost.base g)) as [| c0 cs] eqn:Hl.
    + cbn [Ghost.or_reverse]. unfold Ghost.random_choice. cbn [length].
      rewrite Nat.mod_1_r. reflexivity.
    + exfalso. apply (Hnone c0). apply candidates_legal. rewrite Hl. left. reflexivity.
  - intros c Hc. apply candidates_legal in Hc.
    assert (Hin : In c (Ghost.or_reverse (Ghost.base g) (Ghost.candidates (Ghost.base g)))).
    { destruct (Ghost.candidates (Ghost.base g)) as [| c0 cs]; [destruct Hc | exact Hc]. }
    destruct (nth_draw _ _ Hin) as [r' Hr']. exists r'. rewrite Hdir. exact Hr'.
Qed.

(** X12: a captured ghost stays in eyes mode, captured, through every
    update but the one that leaves it idle on the home tile (14, 14); that
    one makes it a scatter ghost again: not captured, without a direction. *)
Theorem eyes_until_home (g : Ghost.t F) (pac : Pacman.t F)
    (blinky : option (Z * Z)) (r : nat) :
  Ghost.mode g = eyes ->
  (Ghost.mode (Ghost.update g pac blinky r) = scatter
   <-> ghost_tile (Ghost.update g pac blinky r) = (14, 14)
       /\ TileMover.moving (Ghost.base (Ghost.update g pac blinky r)) = false)
  /\ (Ghost.mode (Ghost.update g pac blinky r) = scatter
      \/ Ghost.mode (Ghost.update g pac blinky r) = eyes)
  /\ (Ghost.mode (Ghost.update g pac blinky r) = scatter ->
      Ghost.dead (Ghost.update g pac blinky r) = false
      /\ ghost_dir (Ghost.update g pac blinky r) = (0, 0))
  /\ (Ghost.mode (Ghost.update g pac blinky r) = eyes ->
      Ghost.dead (Ghost.update g pac blinky r) = Ghost.dead g).
Proof.
  intros Hm. pose proof (update_in_eyes g pac blinky r Hm) as Hu. cbv zeta in Hu.
  destruct Hu as [(E & D & T & M & Dir) | (E & D & N)]; rewrite E.
  - split; [split; auto |]. split; [left; reflexivity |].
    split; [auto | discriminate].
  - split.
    + split; [discriminate |]. intros [T M]. exfalso.
      destruct N as [N | N]; [exact (N T) | congruence].
    + split; [right; reflexivity |]. split; [discriminate | auto].
Qed.

(** *** Speeds *)

Lemma start_move_speed (m : TileMover.t F) (dx_ dy_ : Z) :
  TileMover.speed (fst (TileMover.start_move m dx_ dy_)) = TileMover.speed m.
Proof.
  unfold TileMover.start_move.
  repeat match goal with |- context [if ?b then _ else _] => destruct b end;
    reflexivity.
Qed.

Lemma update_position_pixels_speed (m : TileMover.t F) :
  TileMover.speed (TileMover.update_position_pixels m) = TileMover.speed m.
Proof.
  unfold TileMover.update_position_pixels.
  destruct (TileMover.moving m); [| reflexivity].
  cbv zeta. change (negb true) with false. cbv iota.
  destruct (tile_center_pixel (TileMover.tx m + TileMover.dx m)
              (TileMover.ty m + TileMover.dy m)) as [cx cy].
  match goal with
  | |- context [fleb ?a ?b] => destruct (fleb a b)
  end; [| reflexivity].
  destruct (TileMover.warping m), (TileMover.warp_target m) as [[wx wy] |];
    try reflexivity.
  destruct (TileMover.center_float wx wy) as [fx fy].
  rewrite start_move_speed. reflexivity.
Qed.

(** The speed of the mode [md] among the four speeds of [g]. *)
Definition speed_of (g : Ghost.t F) (md : Mode) : F :=
  match md with
  | eyes => Ghost.speed_eyes g
  | frightened => Ghost.speed_fright g
  | chase => Ghost.speed_chase g
  | scatter => Ghost.speed_scatter g
  end.

Lemma fright_countdown_speeds (g : Ghost.t F) (md : Mode) :
  speed_of (Ghost.fright_countdown g) md = speed_of g md.
Proof.
  unfold Ghost.fright_countdown.
  destruct (_ && _); [| reflexivity]. cbv zeta.
  destruct (_ <=? _); destruct md; reflexivity.
Qed.

Lemma choose_direction_toward_speeds (g : Ghost.t F) (target : Z * Z) (md : Mode) :
  speed_of (Ghost.choose_direction_toward g target) md = speed_of g md.
Proof.
  rewrite (choose_direction_toward_base g target). destruct md; reflexivity.
Qed.

Lemma update_speed_after_countdown (g : Ghost.t F) pac blinky r :
  TileMover.speed (Ghost.base (Ghost.update g pac blinky r))
  = speed_of g (Ghost.mode (Ghost.fright_countdown g)).
Proof.
  rewrite <- (fright_countdown_speeds g). unfold Ghost.update.
  generalize (Ghost.fright_countdown g). clear g. intros g. cbv zeta.
  destruct (Ghost.mode g) eqn:Hm; cbv beta iota delta [Mode_eqb];
    destruct (TileMover.moving (Ghost.base g)); cbv beta iota delta [negb];
    repeat match goal with
    | |- context [if ?b then _ else _] => destruct b
    end;
    repeat (first
      [ progress cbn [Ghost.mode Ghost.base Ghost.set_base Ghost.set_dead
                      Ghost.set_mode Ghost.speed_eyes Ghost.speed_fright
                      Ghost.speed_chase Ghost.speed_scatter
                      TileMover.speed TileMover.set_speed TileMover.set_dir]
      | progress rewrite Hm
      | rewrite update_position_pixels_speed
      | match goal with
        | |- context [Ghost.mode (Ghost.choose_direction_toward ?a ?b)] =>
            rewrite (choose_direction_toward_base a b)
        | |- context [Ghost.speed_eyes (Ghost.choose_direction_toward ?a ?b)] =>
            rewrite (choose_direction_toward_base a b)
        | |- context [Ghost.speed_chase (Ghost.choose_direction_toward ?a ?b)] =>
            rewrite (choose_direction_toward_base a b)
        | |- context [Ghost.speed_scatter (Ghost.choose_direction_toward ?a ?b)] =>
            rewrite (choose_direction_toward_base a b)
        end ]);
    reflexivity.
Qed.

(** X18: after an update a ghost has the speed of the mode it moved in:
    the scatter, chase or eyes speed in these modes, the fright speed while
    the fright goes on, and the chase speed in the update that ends the
    fright.  An eyes ghost that an update brings home is a scatter ghost with
    the eyes speed until its next update. *)
Theorem ghost_speed_by_mode (g : Ghost.t F) (pac : Pacman.t F)
    (blinky : option (Z * Z)) (r : nat) :
  let g' := Ghost.update g pac blinky r in
  (Ghost.mode g = scatter -> TileMover.speed (Ghost.base g') = Ghost.speed_scatter g)
  /\ (Ghost.mode g = chase -> TileMover.speed (Ghost.base g') = Ghost.speed_chase g)
  /\ (Ghost.mode g = eyes -> TileMover.speed (Ghost.base g') = Ghost.speed_eyes g)
  /\ (Ghost.mode g = frightened -> Ghost.dead g = false ->
      1 < Ghost.fright_timer g -> TileMover.speed (Ghost.base g') = Ghost.speed_fright g)
  /\ (Ghost.mode g = frightened -> Ghost.dead g = false ->
      Ghost.fright_timer g <= 1 -> TileMover.speed (Ghost.base g') = Ghost.speed_chase g)
  /\ Ghost.speed_scatter g' = Ghost.speed_scatter g
  /\ Ghost.speed_chase g' = Ghost.speed_chase g
  /\ Ghost.speed_fright g' = Ghost.speed_fright g
  /\ Ghost.speed_eyes g' = Ghost.speed_eyes g.
Proof.
  cbv zeta. pose proof (update_speed_after_countdown g pac blinky r) as Hs.
  assert (Hplain : Ghost.mode g <> frightened -> Ghost.fright_countdown g = g).
  { intros Hm. unfold Ghost.fright_countdown.
    destruct (Ghost.mode g); try reflexivity. congruence. }
  split; [intros Hm; rewrite Hs, Hplain, Hm by congruence; reflexivity |].
  split; [intros Hm; rewrite Hs, Hplain, Hm by congruence; reflexivity |].
  split; [intros Hm; rewrite Hs, Hplain, Hm by congruence; reflexivity |].
  split.
  { intros Hm Hd Ht. rewrite Hs, (fright_countdown_frightened g Hm Hd).
    rewrite (proj2 (Z.leb_gt (Ghost.fright_timer g - 1) 0)) by lia.
    cbn [Ghost.mode Ghost.set_fright_timer]. rewrite Hm. reflexivity. }
  split.
  { intros Hm Hd Ht. rewrite Hs, (fright_countdown_frightened g Hm Hd).
    rewrite (proj2 (Z.leb_le (Ghost.fright_timer g - 1) 0)) by lia.
    reflexivity. }
  clear Hs Hplain.
  assert (Hall : forall md, speed_of (Ghost.update g pac blinky r) md = speed_of g md).
  { intros md. rewrite <- (fright_countdown_speeds g). unfold Ghost.update.
    generalize (Ghost.fright_countdown g). clear g. intros g. cbv zeta.
    destruct (Ghost.mode g) eqn:Hm; cbv beta iota delta [Mode_eqb];
      destruct (TileMover.moving (Ghost.base g)); cbv beta iota delta [negb];
      repeat match goal with
      | |- context [if ?b then _ else _] => destruct b
      end;
      destruct md; unfold speed_of;
      repeat (first
        [ progress cbn [Ghost.mode Ghost.base Ghost.set_base Ghost.set_dead
                        Ghost.set_mode Ghost.speed_eyes Ghost.speed_fright
                        Ghost.speed_chase Ghost.speed_scatter]
        | progress rewrite Hm
        | match goal with
          | |- context [Ghost.choose_direction_toward ?a ?b] =>
              rewrite (choose_direction_toward_base a b)
          end ]);
      reflexivity. }
  split; [exact (Hall scatter) |]. split; [exact (Hall chase) |].
  split; [exact (Hall frightened) | exact (Hall eyes)].
Qed.
End GhostBehaviour.

(** ** The player *)

Section PlayerBehaviour.
Context {F : Type} `{FloatOps F} `{Screen}.

Definition pac_next (p : Pacman.t F) : Z * Z :=
  (TileMover.next_dx (Pacman.base p), TileMover.next_dy (Pacman.base p)).

(** The last step of [Pacman.update] keeps direction and queued direction. *)
Lemma moved_dirs (p : Pacman.t F) (m : TileMover.t F) :
  pac_dir (Pacman.set_base p (TileMover.update_position_pixels m))
    = (TileMover.dx m, TileMover.dy m)
  /\ pac_next (Pacman.set_base p (TileMover.update_position_pixels m))
    = (TileMover.next_dx m, TileMover.next_dy m).
Proof.
  unfold pac_dir, pac_next. cbn [Pacman.base Pacman.set_base].
  pose proof (update_position_pixels_dir m) as [Dx Dy]. cbv zeta in Dx, Dy.
  destruct (update_position_pixels_next m) as [Nx Ny].
  rewrite Dx, Dy, Nx, Ny. auto.
Qed.

Lemma is_zero_dir_false (x y : Z) :
  (x, y) <> (0, 0) -> Pacman.is_zero_dir x y = false.
Proof.
  intros Hne. unfold Pacman.is_zero_dir.
  destruct (Z.eqb_spec x 0) as [-> | Hx]; [| reflexivity].
  destruct (Z.eqb_spec y 0) as [-> | Hy]; [congruence | reflexivity].
Qed.

Lemma start_move_refused (m : TileMover.t F) (dx_ dy_ : Z) :
  snd (TileMover.start_move m dx_ dy_) = false ->
  fst (TileMover.start_move m dx_ dy_) = m.
Proof.
  unfold TileMover.start_move.
  repeat match goal with |- context [if ?b then _ else _] => destruct b end;
    cbn [fst snd]; congruence.
Qed.

Lemma start_move_accepted (m : TileMover.t F) (dx_ dy_ : Z) :
  snd (TileMover.start_move m dx_ dy_) = true ->
  TileMover.dx (fst (TileMover.start_move m dx_ dy_)) = dx_
  /\ TileMover.dy (fst (TileMover.start_move m dx_ dy_)) = dy_
  /\ TileMover.moving (fst (TileMover.start_move m dx_ dy_)) = true.
Proof.
  unfold TileMover.start_move.
  repeat match goal with |- context [if ?b then _ else _] => destruct b end;
    cbn [fst snd]; try discriminate; auto.
Qed.

(** X16: the player turns at tile centres only.  In transit an update keeps
    its direction, and keeps the queued direction for later.  When it is idle
    with a direction queued, the update takes the queued direction and clears
    the queue if [start_move] accepts it (as it does when the tile on that
    side is open); otherwise it keeps both the direction and the queue. *)
Theorem queued_turn (p : Pacman.t F) :
  pac_next p <> (0, 0) ->
  (TileMover.moving (Pacman.base p) = true ->
     pac_dir (Pacman.update p) = pac_dir p /\ pac_next (Pacman.update p) = pac_next p)
  /\ (TileMover.moving (Pacman.base p) = false ->
      snd (TileMover.start_move (Pacman.base p) (fst (pac_next p)) (snd (pac_next p)))
        = true ->
      pac_dir (Pacman.update p) = pac_next p /\ pac_next (Pacman.update p) = (0, 0))
  /\ (TileMover.moving (Pacman.base p) = false ->
      snd (TileMover.start_move (Pacman.base p) (fst (pac_next p)) (snd (pac_next p)))
        = false ->
      pac_dir (Pacman.update p) = pac_dir p /\ pac_next (Pacman.update p) = pac_next p)
  /\ (is_open (fst (pac_tile p) + fst (pac_next p)) (snd (pac_tile p) + snd (pac_next p))
        = true ->
      snd (TileMover.start_move (Pacman.base p) (fst (pac_next p)) (snd (pac_next p)))
        = true).
Proof.
  intros Hq. unfold pac_next in Hq. apply is_zero_dir_false in Hq.
  unfold pac_next, pac_dir, pac_tile. cbn [fst snd].
  assert (Hmv : forall m0 : TileMover.t F,
            let p' := Pacman.set_base p (TileMover.update_position_pixels m0) in
            (TileMover.dx (Pacman.base p'), TileMover.dy (Pacman.base p'))
              = (TileMover.dx m0, TileMover.dy m0)
            /\ (TileMover.next_dx (Pacman.base p'), TileMover.next_dy (Pacman.base p'))
              = (TileMover.next_dx m0, TileMover.next_dy m0)).
  { intros m0. exact (moved_dirs p m0). }
  cbv zeta in Hmv.
  set (m := Pacman.base p) in *.
  split; [| split; [| split]].
  - intros Hmov. unfold Pacman.update. cbv zeta. fold m. rewrite Hmov. cbn [negb].
    destruct (Hmv m) as [-> ->]. split; reflexivity.
  - intros Hmov Hok. unfold Pacman.update. cbv zeta. fold m. rewrite Hmov, Hq.
    cbn [negb].
    destruct (start_move_accepted m _ _ Hok) as (Dx & Dy & _).
    destruct (TileMover.start_move m (TileMover.next_dx m) (TileMover.next_dy m))
      as [m' ok]. cbn [fst snd] in Hok, Dx, Dy. rewrite Hok.
    destruct (Hmv (TileMover.set_next m' 0 0)) as [-> ->].
    cbn [TileMover.dx TileMover.dy TileMover.next_dx TileMover.next_dy
         TileMover.set_next].
    rewrite Dx, Dy. split; reflexivity.
  - intros Hmov Hno. unfold Pacman.update. cbv zeta. fold m. rewrite Hmov, Hq.
    cbn [negb].
    pose proof (start_move_refused m _ _ Hno) as Hm.
    destruct (TileMover.start_move m (TileMover.next_dx m) (TileMover.next_dy m))
      as [m' ok]. cbn [fst snd] in Hno, Hm. rewrite Hno, Hm.
    destruct (Pacman.is_zero_dir (TileMover.dx m) (TileMover.dy m)); cbn [negb].
    + destruct (Hmv m) as [-> ->]. split; reflexivity.
    + destruct (Hmv (fst (TileMover.start_move m (TileMover.dx m)
                            (TileMover.dy m)))) as [-> ->].
      pose proof (start_move_same_dir m) as [Dx Dy]. cbv zeta in Dx, Dy.
      destruct (start_move_next m (TileMover.dx m) (TileMover.dy m)) as [Nx Ny].
      rewrite Dx, Dy, Nx, Ny. split; reflexivity.
  - intros Ho. rewrite (start_move_open m _ _ Ho). reflexivity.
Qed.

(** *** Death and respawn *)

Lemma player_tick_waiting (w : World F) :
  Pacman.alive (player w) = false -> 1 < Pacman.respawn_timer (player w) ->
  player_tick w
  = set_player w (Pacman.set_respawn_timer (player w)
                    (Pacman.respawn_timer (player w) - 1)).
Proof.
  intros Ha Ht. unfold player_tick. rewrite Ha. cbn [negb]. cbv zeta.
  cbn [player set_player Pacman.respawn_timer Pacman.set_respawn_timer].
  rewrite (proj2 (Z.leb_gt _ _)) by lia. reflexivity.
Qed.

Lemma player_tick_respawn (w : World F) :
  Pacman.alive (player w) = false -> Pacman.respawn_timer (player w) <= 1 ->
  0 < Pacman.lives (player w) ->
  player_tick w
  = set_player w (Pacman.respawn
                    (Pacman.set_respawn_timer (player w)
                       (Pacman.respawn_timer (player w) - 1))).
Proof.
  intros Ha Ht Hl. unfold player_tick. rewrite Ha. cbn [negb]. cbv zeta.
  cbn [player set_player Pacman.respawn_timer Pacman.set_respawn_timer Pacman.lives].
  rewrite (proj2 (Z.leb_le _ _)) by lia.
  rewrite (proj2 (Z.gtb_lt _ _)) by lia. reflexivity.
Qed.

Lemma player_tick_out_of_lives (w : World F) :
  Pacman.alive (player w) = false -> Pacman.respawn_timer (player w) <= 1 ->
  Pacman.lives (player w) <= 0 ->
  player_tick w
  = set_flags (set_player w (Pacman.set_respawn_timer (player w)
                               (Pacman.respawn_timer (player w) - 1)))
      (running w) true (win w) (paused w).
Proof.
  intros Ha Ht Hl. unfold player_tick. rewrite Ha. cbn [negb]. cbv zeta.
  cbn [player set_player Pacman.respawn_timer Pacman.set_respawn_timer Pacman.lives].
  rewrite (proj2 (Z.leb_le _ _)) by lia.
  destruct (Z.gtb_spec (Pacman.lives (player w)) 0); [lia | reflexivity].
Qed.

Lemma player_tick_wait_iter (k : nat) :
  forall w : World F,
    Pacman.alive (player w) = false ->
    Z.of_nat k < Pacman.respawn_timer (player w) ->
    Nat.iter k player_tick w
    = set_player w (Pacman.set_respawn_timer (player w)
                      (Pacman.respawn_timer (player w) - Z.of_nat k))
      \/ k = O.
Proof.
  induction k as [| k IH]; intros w Ha Ht; [right; reflexivity |]. left.
  rewrite Nat.iter_succ.
  destruct (IH w Ha ltac:(lia)) as [-> | ->].
  - rewrite player_tick_waiting; cbn [player set_player Pacman.alive
      Pacman.respawn_timer Pacman.set_respawn_timer]; [| exact Ha | lia].
    unfold set_player, Pacman.set_respawn_timer.
    cbn [pellets power_pellets player ghosts ghosts_eaten_in_power mode_index
         mode_timer running game_over win paused Pacman.base Pacman.lives
         Pacman.score Pacman.alive Pacman.respawn_timer Pacman.radius].
    do 2 f_equal. lia.
  - change (Nat.iter 0 player_tick w) with w.
    rewrite player_tick_waiting; [| exact Ha | lia]. reflexivity.
Qed.

(** The world after [k] player ticks of a dead player that has more than
    [k] ticks to wait. *)
Lemma dead_for (k : nat) (w : World F) :
  Pacman.alive (player w) = false ->
  Z.of_nat k < Pacman.respawn_timer (player w) ->
  Pacman.alive (player (Nat.iter k player_tick w)) = false
  /\ Pacman.lives (player (Nat.iter k player_tick w)) = Pacman.lives (player w)
  /\ Pacman.score (player (Nat.iter k player_tick w)) = Pacman.score (player w)
  /\ Pacman.respawn_timer (player (Nat.iter k player_tick w))
     = Pacman.respawn_timer (player w) - Z.of_nat k
  /\ game_over (Nat.iter k player_tick w) = game_over w.
Proof.
  intros Ha Ht. destruct (player_tick_wait_iter k w Ha Ht) as [-> | ->].
  - cbn [player set_player game_over Pacman.alive Pacman.lives Pacman.score
         Pacman.respawn_timer Pacman.set_respawn_timer]. auto.
  - change (Nat.iter 0 player_tick w) with w. repeat split; auto.
    cbn [Z.of_nat]. lia.
Qed.

(** X13: a dead player waits out its respawn timer, which [die] sets to
    two seconds of frames.  With [n + 1] ticks on the timer it is still dead
    after each of the next [n] player ticks; the tick after these brings it
    back at the start tile, idle and without direction, with lives and score
    as they were, if it has a life left, and ends the game if it has none. *)
Theorem respawn_after_countdown (w : World F) (n : nat) :
  Pacman.alive (player w) = false ->
  Pacman.respawn_timer (player w) = Z.of_nat (S n) ->
  (forall k, (k <= n)%nat ->
     Pacman.alive (player (Nat.iter k player_tick w)) = false
     /\ game_over (Nat.iter k player_tick w) = game_over w)
  /\ (0 < Pacman.lives (player w) ->
      Pacman.alive (player (Nat.iter (S n) player_tick w)) = true
      /\ pac_tile (player (Nat.iter (S n) player_tick w)) = pac_start
      /\ pac_dir (player (Nat.iter (S n) player_tick w)) = (0, 0)
      /\ TileMover.moving (Pacman.base (player (Nat.iter (S n) player_tick w))) = false
      /\ Pacman.lives (player (Nat.iter (S n) player_tick w)) = Pacman.lives (player w)
      /\ Pacman.score (player (Nat.iter (S n) player_tick w)) = Pacman.score (player w)
      /\ game_over (Nat.iter (S n) player_tick w) = game_over w)
  /\ (Pacman.lives (player w) <= 0 ->
      Pacman.alive (player (Nat.iter (S n) player_tick w)) = false
      /\ game_over (Nat.iter (S n) player_tick w) = true)
  /\ (forall p : Pacman.t F,
        Pacman.alive (Pacman.die p) = false
        /\ Pacman.lives (Pacman.die p) = Pacman.lives p - 1
        /\ Pacman.respawn_timer (Pacman.die p) = 2 * FPS).
Proof.
  intros Ha Ht.
  split.
  { intros k Hk. destruct (dead_for k w Ha ltac:(lia)) as (A & _ & _ & _ & O).
    split; assumption. }
  destruct (dead_for n w Ha ltac:(lia)) as (A & L & S0 & T & O).
  rewrite Nat.iter_succ.
  set (wn := Nat.iter n player_tick w) in *.
  assert (Tn : Pacman.respawn_timer (player wn) <= 1) by lia.
  split; [| split].
  - intros Hl. rewrite (player_tick_respawn wn A Tn) by lia.
    cbn [player set_player game_over].
    destruct (respawn_effect (Pacman.set_respawn_timer (player wn)
                (Pacman.respawn_timer (player wn) - 1)))
      as (El & Es & Ea & _ & Etile & Edir & Emov & _).
    cbn [Pacman.lives Pacman.score Pacman.set_respawn_timer] in El, Es.
    rewrite El, Es, L, S0. auto 10.
  - intros Hl. rewrite (player_tick_out_of_lives wn A Tn) by lia.
    cbn [player set_player set_flags game_over Pacman.alive Pacman.set_respawn_timer].
    auto.
  - intros p. cbn [Pacman.alive Pacman.lives Pacman.respawn_timer Pacman.die]. auto.
Qed.

(** *** Wrapping *)

(** X17: a mover wraps at the left and right edges of the grid only.  When
    [start_move] sends a mover on an open tile one step along an axis and
    sets it to wrap, the step is horizontal and leaves the grid: from column
    27 to the right, with the tile of column 0 in the same row as wrap
    target, or from column 0 to the left, with the tile of column 27; the
    wrap target is open. *)
Theorem wrap_only_at_the_edges (m : TileMover.t F) (dx_ dy_ : Z) :
  is_open (TileMover.tx m) (TileMover.ty m) = true ->
  axis_step (dx_, dy_) ->
  snd (TileMover.start_move m dx_ dy_) = true ->
  TileMover.warping (fst (TileMover.start_move m dx_ dy_)) = true ->
  dy_ = 0
  /\ (TileMover.tx m = 27 /\ dx_ = 1
      /\ TileMover.warp_target (fst (TileMover.start_move m dx_ dy_))
         = Some (0, TileMover.ty m)
      /\ is_open 0 (TileMover.ty m) = true
      \/ TileMover.tx m = 0 /\ dx_ = -1
      /\ TileMover.warp_target (fst (TileMover.start_move m dx_ dy_))
         = Some (27, TileMover.ty m)
      /\ is_open 27 (TileMover.ty m) = true).
Proof.
  intros Ho Ha Hok Hw.
  pose proof (is_open_in_bounds _ _ Ho) as Hb. apply in_bounds_range in Hb.
  revert Hok Hw. unfold TileMover.start_move.
  destruct (is_open (TileMover.tx m + dx_) (TileMover.ty m + dy_)) eqn:Hn;
    [cbn [fst snd TileMover.warping TileMover.set_warp]; discriminate |].
  destruct (Z.eqb_spec dy_ 0) as [-> | Hdy]; [| cbn [andb fst snd]; discriminate].
  cbn [andb].
  destruct (_ || _); [| cbn [fst snd]; discriminate].
  destruct (is_open ((TileMover.tx m + dx_) mod MAZE_W) (TileMover.ty m + 0)) eqn:Hwrap;
    [| cbn [fst snd]; discriminate].
  cbn [fst snd TileMover.warping TileMover.warp_target TileMover.set_warp].
  intros _ _. rewrite MAZE_W_eq in Hwrap. rewrite MAZE_W_eq.
  rewrite Z.add_0_r in *. split; [reflexivity |].
  assert (Hdx : dx_ = 1 \/ dx_ = -1).
  { unfold axis_step in Ha. simpl in Ha.
    destruct Ha as [Ha | [Ha | [Ha | [Ha | [Ha | []]]]]];
      pose proof (f_equal fst Ha) as Hx; pose proof (f_equal snd Ha) as Hy;
      cbn [fst snd] in Hx, Hy; try lia.
    subst dx_. rewrite Z.add_0_r in Hwrap, Hn. rewrite Z.mod_small in Hwrap by lia.
    congruence. }
  destruct Hdx as [-> | ->].
  - destruct (Z.eq_dec (TileMover.tx m) 27) as [Hx | Hx].
    + rewrite Hx in *. change ((27 + 1) mod 28) with 0 in *. left. auto.
    + rewrite Z.mod_small in Hwrap by lia. congruence.
  - destruct (Z.eq_dec (TileMover.tx m) 0) as [Hx | Hx].
    + rewrite Hx in *. change ((0 + -1) mod 28) with 27 in *. right. auto.
    + rewrite Z.mod_small in Hwrap by lia. congruence.
Qed.
End PlayerBehaviour.

(** ** The operations on the ghosts together *)

Section GlobalOperations.
Context {F : Type} `{FloatOps F} `{Screen}.

Lemma set_ghosts_same (w : World F) : set_ghosts w (ghosts w) = w.
Proof. destruct w. reflexivity. Qed.

Lemma trigger_fright_modes (w : World F) (g : Ghost.t F) :
  Forall eyes_iff_dead (ghosts w) ->
  In g (ghosts (trigger_fright w)) ->
  Ghost.mode g = frightened /\ Ghost.dead g = false
    /\ Ghost.fright_timer g = FRIGHT_DURATION
  \/ Ghost.mode g = eyes /\ Ghost.dead g = true /\ In g (ghosts w).
Proof.
  intros He Hin. unfold trigger_fright in Hin. cbn [ghosts set_ghosts set_eaten] in Hin.
  apply in_map_iff in Hin as (g0 & <- & Hin0).
  rewrite List.Forall_forall in He. specialize (He g0 Hin0).
  destruct (Ghost.dead g0) eqn:Hd; cbn [negb].
  - right. split; [apply He; exact Hd | auto].
  - left. cbn [Ghost.mode Ghost.dead Ghost.fright_timer Ghost.set_mode
               Ghost.set_fright_timer]. auto.
Qed.

Lemma broadcast_spares (gs : list (Ghost.t F)) (md : Mode) :
  (forall g, In g gs -> Ghost.mode g = frightened \/ Ghost.mode g = eyes) ->
  List.map (fun g => match Ghost.mode g with
                     | frightened | eyes => g
                     | _ => Ghost.set_mode g md
                     end) gs = gs.
Proof.
  intros Hall. rewrite <- (map_id gs) at 2. apply map_ext_in.
  intros g Hin. destruct (Hall g Hin) as [-> | ->]; reflexivity.
Qed.

(** X8: a fright is not undone by the scheduler.  After [trigger_fright]
    every ghost is frightened with the full duration on its timer, or is a
    captured ghost in eyes mode as before; [set_global_mode], and so the tick
    of the mode timer, changes none of them. *)
Theorem fright_outlasts_broadcast (w : World F) (md : Mode) :
  Forall eyes_iff_dead (ghosts w) ->
  set_global_mode (trigger_fright w) md = trigger_fright w
  /\ ghosts (mode_tick (trigger_fright w)) = ghosts (trigger_fright w)
  /\ ghosts_eaten_in_power (trigger_fright w) = 0
  /\ (forall g, In g (ghosts (trigger_fright w)) ->
        Ghost.mode g = frightened /\ Ghost.dead g = false
          /\ Ghost.fright_timer g = FRIGHT_DURATION
        \/ Ghost.mode g = eyes /\ Ghost.dead g = true /\ In g (ghosts w)).
Proof.
  intros He.
  assert (Hall : forall g, In g (ghosts (trigger_fright w)) ->
            Ghost.mode g = frightened \/ Ghost.mode g = eyes).
  { intros g Hin. destruct (trigger_fright_modes w g He Hin) as [(E & _) | (E & _)];
      auto. }
  assert (Hset : forall md0, set_global_mode (trigger_fright w) md0 = trigger_fright w).
  { intros md0. unfold set_global_mode. rewrite (broadcast_spares _ md0 Hall).
    apply set_ghosts_same. }
  split; [apply Hset |]. split.
  - unfold mode_tick. cbv zeta.
    destruct (_ <=? _); [| reflexivity].
    destruct (mode_entry _) as [md0 sec].
    unfold set_global_mode. cbn [ghosts set_ghosts set_schedule].
    apply (broadcast_spares _ md0 Hall).
  - split; [reflexivity |]. intros g. apply trigger_fright_modes. exact He.
Qed.

(** X9: a restart builds the round the program starts with: [restart]
    yields the initial world, but for the [running] and [paused] flags and
    the counter of eaten ghosts, which it leaves as they are. *)
Theorem restart_is_initial (w : World F) :
  restart w
  = set_flags (set_eaten initial_world (ghosts_eaten_in_power w))
      (running w) false false (paused w).
Proof. reflexivity. Qed.

(** *** Collisions that change nothing *)

Lemma collide_from_harmless (n : nat) :
  forall (i : nat) (w : World F),
    (forall g, In g (ghosts w) -> near (player w) g = true -> Ghost.dead g = true) ->
    collide_from n i w = w.
Proof.
  induction n as [| n IH]; intros i w Hall; [reflexivity |].
  destruct (ghosts w !! i) as [g |] eqn:Hg; [| cbn [collide_from]; rewrite Hg; reflexivity].
  rewrite (collide_from_step _ _ _ _ Hg).
  destruct (near (player w) g) eqn:Hn; [| now apply IH].
  assert (Hd : Ghost.dead g = true).
  { apply Hall; [| exact Hn]. apply list_elem_of_In.
    eapply list_elem_of_lookup_2. exact Hg. }
  unfold eatable, deadly. rewrite Hd. cbn [negb andb].
  rewrite !andb_false_r. now apply IH.
Qed.

(** X10: captured ghosts are harmless.  [check_collisions] changes nothing
    when the player is dead, and nothing when every ghost within reach of the
    player is captured: such a ghost is neither eaten nor deadly. *)
Theorem captured_ghosts_are_harmless (w : World F) :
  Pacman.alive (player w) = false
  \/ (forall g, In g (ghosts w) -> near (player w) g = true -> Ghost.dead g = true) ->
  check_collisions w = w.
Proof.
  intros [Ha | Hall]; unfold check_collisions.
  - rewrite Ha. reflexivity.
  - destruct (negb _); [reflexivity | now apply collide_from_harmless].
Qed.
End GlobalOperations.

(** ** The worlds of the game *)

Section ReachableWorlds.
Context {F : Type} `{FloatOps F} `{Screen}.

Lemma Forall_In_ghosts (P : Ghost.t F -> Prop) (gs : list (Ghost.t F)) (g : Ghost.t F) :
  Forall P gs -> In g gs -> P g.
Proof. intros Hall Hin. rewrite List.Forall_forall in Hall. now apply Hall. Qed.

(** X1: the player and the ghosts never leave the corridors.  In every
    world the game can reach the player and each ghost are on an open tile
    of the maze, and one in transit heads for an open tile: the next tile in
    its direction, or its wrap target when it crosses the tunnel. *)
Theorem movers_stay_on_open_tiles (w : World F) :
  reachable w ->
  is_open (fst (pac_tile (player w))) (snd (pac_tile (player w))) = true
  /\ (forall g, In g (ghosts w) ->
        is_open (fst (ghost_tile g)) (snd (ghost_tile g)) = true)
  /\ mover_ok (Pacman.base (player w))
  /\ (forall g, In g (ghosts w) -> mover_ok (Ghost.base g)).
Proof.
  intros Hr. destruct (reachable_core w Hr) as ([Pm _] & G & _).
  assert (Hg : forall g, In g (ghosts w) -> mover_ok (Ghost.base g)).
  { intros g Hin. apply (Forall_In_ghosts _ _ _ G Hin). }
  split; [apply Pm |]. split; [intros g Hin; apply (Hg g Hin) |].
  split; [exact Pm | exact Hg].
Qed.

(** X2: every direction of the game is a step of one tile along an axis,
    or none: in every reachable world this holds of the direction of the
    player, of its queued direction and of the direction of each ghost. *)
Theorem directions_are_axis_steps (w : World F) :
  reachable w ->
  axis_step (pac_dir (player w))
  /\ axis_step (pac_next (player w))
  /\ (forall g, In g (ghosts w) -> axis_step (ghost_dir g)).
Proof.
  intros Hr. destruct (reachable_core w Hr) as ([(_ & Pd & _) Pn] & G & _).
  split; [exact Pd |]. split; [exact Pn |].
  intros g Hin. destruct (Forall_In_ghosts _ _ _ G Hin) as [(_ & Gd & _) _].
  exact Gd.
Qed.

(** X3: the player has between 0 and 3 lives, at least one while it is
    alive, and the game is over only when a dead player has none left. *)
Theorem lives_and_game_over (w : World F) :
  reachable w ->
  0 <= Pacman.lives (player w) <= 3
  /\ (Pacman.alive (player w) = true -> 1 <= Pacman.lives (player w))
  /\ (game_over w = true ->
      Pacman.lives (player w) = 0 /\ Pacman.alive (player w) = false).
Proof.
  intros Hr. destruct (reachable_core w Hr) as (_ & _ & _ & L & A & O). auto.
Qed.

(** X4: the bookkeeping of the ghosts and the scheduler is consistent in
    every reachable world: there are four ghosts; a ghost is captured exactly
    when it is in eyes mode; a frightened ghost has between 1 and
    [FRIGHT_DURATION] ticks of fright left; the cursor of the scheduler is
    within the mode sequence and its countdown is at least 1. *)
Theorem ghosts_and_scheduler_consistent (w : World F) :
  reachable w ->
  length (ghosts w) = 4%nat
  /\ (forall g, In g (ghosts w) ->
        (Ghost.dead g = true <-> Ghost.mode g = eyes)
        /\ (Ghost.mode g = frightened ->
            1 <= Ghost.fright_timer g <= FRIGHT_DURATION))
  /\ 0 <= mode_index w < Z.of_nat (length MODE_SEQUENCE)
  /\ 1 <= mode_timer w <= 9999 * FPS.
Proof.
  intros Hr. destruct (reachable_core w Hr) as (_ & G & T & _).
  destruct (reachable_ok w Hr) as (L & E & _ & I).
  split; [exact L |]. split; [| split; [exact I | exact T]].
  intros g Hin. split.
  - apply (Forall_In_ghosts _ _ _ E Hin).
  - apply (Forall_In_ghosts _ _ _ G Hin).
Qed.

(** X5: the game is won exactly when no pellet and no power pellet is
    left, in every reachable world; and it is never both won and lost. *)
Theorem won_exactly_when_cleared (w : World F) :
  reachable w ->
  (win w = true <-> pellets w = ∅ /\ power_pellets w = ∅)
  /\ (game_over w = true -> win w = false).
Proof. intros Hr. exact (reachable_status w Hr). Qed.

(** X15: at most four ghosts are eaten on one power pellet.  In every
    reachable world the counter of eaten ghosts and the number of frightened
    ghosts add up to four at most; so the counter is at most 3 while a ghost is
    still frightened, and the score of the next ghost is read from the table
    at the counter itself. *)
Theorem eaten_counter_bound (w : World F) :
  reachable w ->
  0 <= ghosts_eaten_in_power w <= 4
  /\ ghosts_eaten_in_power w + frightened_count (ghosts w) <= 4
  /\ (forall g, In g (ghosts w) -> Ghost.mode g = frightened ->
        ghosts_eaten_in_power w <= 3
        /\ eat_points (ghosts_eaten_in_power w)
           = nth (Z.to_nat (ghosts_eaten_in_power w)) score_table 0).
Proof.
  intros Hr. destruct (reachable_eaten w Hr) as [Hlo Hhi].
  pose proof (frightened_count_bounds (ghosts w)) as Hb.
  split; [lia |]. split; [exact Hhi |].
  intros g Hin Hm. pose proof (frightened_count_In _ _ Hin Hm) as H1.
  split; [lia |]. unfold eat_points. rewrite Z.min_l by lia. reflexivity.
Qed.

(** X6: what the player picks up.  Off the centre of its tile it picks up
    nothing.  At the centre, a pellet on its tile is removed for 10 points
    and a power pellet is removed for 50 points and starts a fright with the
    counter of eaten ghosts at 0; no other tile loses its item, and as a tile
    never holds both kinds, the pick-up is worth 0, 10 or 50 points. *)
Theorem pick_up_effect (w : World F) :
  items_ok w ->
  let here := pac_tile (player w) in
  let gain := Pacman.score (player (pick_up w)) - Pacman.score (player w) in
  (TileMover.at_center (Pacman.base (player w)) = false -> pick_up w = w)
  /\ (here ∉ pellets w -> here ∉ power_pellets w -> pick_up w = w)
  /\ (TileMover.at_center (Pacman.base (player w)) = true -> here ∈ pellets w ->
      gain = 10 /\ pellets (pick_up w) = pellets w ∖ {[here]}
      /\ power_pellets (pick_up w) = power_pellets w
      /\ ghosts (pick_up w) = ghosts w)
  /\ (TileMover.at_center (Pacman.base (player w)) = true -> here ∈ power_pellets w ->
      gain = 50 /\ power_pellets (pick_up w) = power_pellets w ∖ {[here]}
      /\ pellets (pick_up w) = pellets w
      /\ ghosts (pick_up w) = ghosts (trigger_fright w)
      /\ ghosts_eaten_in_power (pick_up w) = 0)
  /\ (gain = 0 \/ gain = 10 \/ gain = 50).
Proof.
  intros Hok here gain. subst here gain.
  split; [apply pick_up_off_center |]. split; [apply pick_up_nothing |].
  assert (Hp : TileMover.at_center (Pacman.base (player w)) = true ->
               pac_tile (player w) ∈ pellets w ->
               Pacman.score (player (pick_up w)) - Pacman.score (player w) = 10
               /\ pellets (pick_up w) = pellets w ∖ {[pac_tile (player w)]}
               /\ power_pellets (pick_up w) = power_pellets w
               /\ ghosts (pick_up w) = ghosts w).
  { intros Hc Hin.
    assert (Hq : pac_tile (player w) ∉ power_pellets w)
      by (intros Hq; exact (items_disjoint w _ Hok Hin Hq)).
    rewrite (pick_up_pellet w Hc Hin Hq).
    cbn [player pellets power_pellets ghosts set_player set_items
         Pacman.score Pacman.set_score].
    split; [lia | auto]. }
  assert (Hpp : TileMover.at_center (Pacman.base (player w)) = true ->
                pac_tile (player w) ∈ power_pellets w ->
                Pacman.score (player (pick_up w)) - Pacman.score (player w) = 50
                /\ power_pellets (pick_up w) = power_pellets w ∖ {[pac_tile (player w)]}
                /\ pellets (pick_up w) = pellets w
                /\ ghosts (pick_up w) = ghosts (trigger_fright w)
                /\ ghosts_eaten_in_power (pick_up w) = 0).
  { intros Hc Hin.
    assert (Hq : pac_tile (player w) ∉ pellets w)
      by (intros Hq; exact (items_disjoint w _ Hok Hq Hin)).
    rewrite (pick_up_power_pellet w Hc Hq Hin).
    cbn [player pellets power_pellets ghosts ghosts_eaten_in_power trigger_fright
         set_ghosts set_eaten set_player set_items Pacman.score Pacman.set_score].
    split; [lia | auto]. }
  split; [exact Hp |]. split; [exact Hpp |].
  destruct (TileMover.at_center (Pacman.base (player w))) eqn:Hc.
  - destruct (decide (pac_tile (player w) ∈ pellets w)) as [Hin | Hout].
    + right. left. apply (Hp eq_refl Hin).
    + destruct (decide (pac_tile (player w) ∈ power_pellets w)) as [Hin' | Hout'].
      * right. right. apply (Hpp eq_refl Hin').
      * left. rewrite (pick_up_nothing w Hout Hout'). lia.
  - left. rewrite (pick_up_off_center w Hc). lia.
Qed.

(** X7: the simulation of a frame never lowers the score and takes one
    life at most, on a collision that leaves the player dead. *)
Theorem simulate_score_and_lives (w : World F) (rs : list nat) :
  Pacman.score (player w) <= Pacman.score (player (simulate w rs))
  /\ (Pacman.lives (player (simulate w rs)) = Pacman.lives (player w)
      \/ Pacman.lives (player (simulate w rs)) = Pacman.lives (player w) - 1
         /\ Pacman.alive (player (simulate w rs)) = false).
Proof.
  unfold simulate. destruct (_ && _); [| split; [lia | left; reflexivity]].
  rewrite win_check_player.
  destruct (mode_tick_flags w) as (_ & _ & P1).
  destruct (player_tick_score (mode_tick w)) as [S2 L2]. rewrite P1 in S2, L2.
  set (w3 := ghosts_tick (player_tick (mode_tick w)) rs).
  change (player (player_tick (mode_tick w))) with (player w3) in S2, L2.
  unfold check_collisions. destruct (negb _).
  - split; [lia | left; exact L2].
  - destruct (collide_from_score (length (ghosts w3)) 0 w3) as [S4 L4].
    rewrite L2 in L4. split; [lia | exact L4].
Qed.

(** X14: items leave the maze under the player only.  Over the simulation
    of a frame the sets of pellets and power pellets can only shrink, and a
    tile that loses its item is the tile the player is on at the end of the
    frame. *)
Theorem items_leave_under_the_player (w : World F) (rs : list nat) :
  pellets (simulate w rs) ⊆ pellets w
  /\ power_pellets (simulate w rs) ⊆ power_pellets w
  /\ (forall t, t ∈ pellets w -> t ∉ pellets (simulate w rs) ->
        t = pac_tile (player (simulate w rs)))
  /\ (forall t, t ∈ power_pellets w -> t ∉ power_pellets (simulate w rs) ->
        t = pac_tile (player (simulate w rs))).
Proof.
  unfold simulate. destruct (_ && _);
    [| split; [reflexivity |]; split; [reflexivity |]; split; intros t Hin Hout;
       contradiction].
  set (w1 := mode_tick w). set (w2 := player_tick w1).
  set (w3 := ghosts_tick w2 rs). set (w4 := check_collisions w3).
  assert (I5 : items (win_check w4) = items w2).
  { rewrite win_check_items. unfold w4. rewrite check_collisions_items. reflexivity. }
  assert (I1 : items w1 = items w) by apply mode_tick_items.
  assert (T5 : pac_tile (player (win_check w4)) = pac_tile (player w2)).
  { rewrite win_check_player. unfold pac_tile, w4.
    rewrite check_collisions_base. reflexivity. }
  unfold items in I5, I1. injection I5 as -> ->. injection I1 as E1 E2.
  rewrite T5. rewrite <- E1, <- E2.
  destruct (player_tick_items w1) as [Sp Spp]. fold w2 in Sp, Spp.
  split; [exact Sp |]. split; [exact Spp |].
  assert (Hrem : forall t,
            (t ∈ pellets w1 -> t ∉ pellets w2 -> t = pac_tile (player w2))
            /\ (t ∈ power_pellets w1 -> t ∉ power_pellets w2 -> t = pac_tile (player w2))).
  { intros t. unfold w2, player_tick.
    destruct (Pacman.alive (player w1)); cbn [negb].
    - destruct (pick_up_removed (set_player w1 (Pacman.update (player w1))) t)
        as [R1 R2].
      destruct (pick_up_player (set_player w1 (Pacman.update (player w1))))
        as (Eb & _).
      unfold pac_tile in *. rewrite Eb. split; assumption.
    - cbv zeta. cbn [player set_player].
      destruct (Z.leb _ _); [destruct (Z.gtb _ _) |];
        split; intros Hin Hout; contradiction. }
  split; intros t; apply Hrem.
Qed.
End ReachableWorlds.

(** ** One step of a move *)

Section Steps.
Context {F : Type} `{FloatOps F} `{Screen}.

Lemma update_position_pixels_arrival (m : TileMover.t F) :
  TileMover.moving m = true -> arrives m = true ->
  TileMover.warping m = false \/ TileMover.warp_target m = None ->
  TileMover.update_position_pixels m
  = TileMover.set_moving
      (TileMover.set_pixel
         (TileMover.set_tile m (TileMover.tx m + TileMover.dx m)
            (TileMover.ty m + TileMover.dy m))
         (fst (TileMover.center_float (TileMover.tx m + TileMover.dx m)
                 (TileMover.ty m + TileMover.dy m)))
         (snd (TileMover.center_float (TileMover.tx m + TileMover.dx m)
                 (TileMover.ty m + TileMover.dy m))))
      false.
Proof.
  unfold arrives, TileMover.update_position_pixels, TileMover.center_float.
  intros Hmov. rewrite Hmov. cbv zeta. change (negb true) with false. cbv iota.
  destruct (tile_center_pixel _ _) as [cx cy]. intros -> Hw. cbn [fst snd].
  destruct Hw as [-> | ->]; [reflexivity |].
  destruct (TileMover.warping m); reflexivity.
Qed.

(** X19: a mover changes tile on arrival only.  One call of
    [update_position_pixels] leaves an idle mover as it is; it leaves a mover
    that does not reach its target this frame on its tile, in transit, with
    only its pixel position changed; and it puts a mover that arrives without
    wrapping on the next tile in its direction, at the centre, idle.  The
    direction and the speed are never changed. *)
Theorem step_of_a_move (m : TileMover.t F) :
  TileMover.moving m = true ->
  (arrives m = false ->
     exists x y, TileMover.update_position_pixels m = TileMover.set_pixel m x y)
  /\ (arrives m = true ->
      TileMover.warping m = false \/ TileMover.warp_target m = None ->
      let m' := TileMover.update_position_pixels m in
      (TileMover.tx m', TileMover.ty m')
        = (TileMover.tx m + TileMover.dx m, TileMover.ty m + TileMover.dy m)
      /\ (TileMover.px m', TileMover.py m')
         = TileMover.center_float (TileMover.tx m + TileMover.dx m)
             (TileMover.ty m + TileMover.dy m)
      /\ TileMover.moving m' = false
      /\ TileMover.warping m' = TileMover.warping m
      /\ TileMover.warp_target m' = TileMover.warp_target m)
  /\ (TileMover.dx (TileMover.update_position_pixels m),
      TileMover.dy (TileMover.update_position_pixels m))
     = (TileMover.dx m, TileMover.dy m)
  /\ TileMover.speed (TileMover.update_position_pixels m) = TileMover.speed m
  /\ (forall m0 : TileMover.t F,
        TileMover.moving m0 = false -> TileMover.update_position_pixels m0 = m0).
Proof.
  intros Hmov. split; [apply update_position_pixels_on_the_way; exact Hmov |].
  split.
  { intros Ha Hw. cbv zeta. rewrite (update_position_pixels_arrival m Hmov Ha Hw).
    cbn [TileMover.tx TileMover.ty TileMover.px TileMover.py TileMover.moving
         TileMover.warping TileMover.warp_target TileMover.set_moving
         TileMover.set_pixel TileMover.set_tile].
    rewrite <- surjective_pairing. auto. }
  split.
  { pose proof (update_position_pixels_dir m) as [Dx Dy]. cbv zeta in Dx, Dy.
    rewrite Dx, Dy. reflexivity. }
  split; [apply update_position_pixels_speed |].
  intros m0 H0'. unfold TileMover.update_position_pixels. rewrite H0'. reflexivity.
Qed.

Lemma update_in_transit (g : Ghost.t F) pac blinky r :
  TileMover.moving (Ghost.base g) = true ->
  Ghost.mode (Ghost.fright_countdown g) <> eyes ->
  exists s,
    Ghost.update g pac blinky r
    = Ghost.set_base (Ghost.fright_countdown g)
        (TileMover.update_position_pixels
           (TileMover.set_speed (Ghost.base g) s)).
Proof.
  intros Hmov Hm. unfold Ghost.update. cbv zeta.
  pose proof (fright_countdown_base g) as Hb.
  revert Hm Hb. generalize (Ghost.fright_countdown g). intros g1 Hm Hb.
  rewrite <- Hb in Hmov. rewrite <- Hb. clear Hb.
  destruct (Ghost.mode g1) eqn:Hg; try congruence;
    cbv beta iota delta [Mode_eqb]; rewrite Hmov; cbv beta iota delta [negb];
    rewrite ?Hg; eexists; reflexivity.
Qed.

(** X20: a ghost decides at tile centres only.  The update of a ghost in
    transit keeps its direction, whatever its mode and whatever the player
    does; the one exception is an eyes ghost that this update brings home,
    which is left without direction. *)
Theorem ghost_in_transit_keeps_direction (g : Ghost.t F) (pac : Pacman.t F)
    (blinky : option (Z * Z)) (r : nat) :
  TileMover.moving (Ghost.base g) = true ->
  ghost_dir (Ghost.update g pac blinky r) = ghost_dir g
  \/ Ghost.mode g = eyes
     /\ Ghost.mode (Ghost.update g pac blinky r) = scatter
     /\ ghost_tile (Ghost.update g pac blinky r) = (14, 14)
     /\ ghost_dir (Ghost.update g pac blinky r) = (0, 0).
Proof.
  intros Hmov.
  destruct (Mode_eqb (Ghost.mode g) eyes) eqn:He.
  - assert (Hm : Ghost.mode g = eyes) by (destruct (Ghost.mode g); try discriminate; reflexivity).
    destruct (update_in_eyes g pac blinky r Hm) as [(E & _ & T & _ & D) | (E & _ & _)].
    + right. auto.
    + left. revert E. unfold Ghost.update, Ghost.fright_countdown.
      rewrite Hm. cbv beta iota zeta delta [Mode_eqb andb negb]. rewrite Hm, Hmov.
      cbv beta iota.
      match goal with
      | |- context [TileMover.update_position_pixels ?a] =>
          pose proof (update_position_pixels_dir a) as [Dx Dy];
          set (m' := TileMover.update_position_pixels a) in *
      end.
      cbv zeta in Dx, Dy. cbn [Ghost.base Ghost.set_base].
      match goal with
      | |- context [if ?b then _ else _] => destruct b
      end; [cbn [Ghost.mode Ghost.set_base Ghost.set_mode]; discriminate |].
      intros _. unfold ghost_dir. cbn [Ghost.base Ghost.set_base].
      rewrite Dx, Dy. reflexivity.
  - left.
    assert (Hne : Ghost.mode (Ghost.fright_countdown g) <> eyes).
    { unfold Ghost.fright_countdown.
      destruct (Ghost.mode g) eqn:Hm; try discriminate;
        cbv beta iota delta [Mode_eqb andb]; try (rewrite Hm; discriminate).
      destruct (negb (Ghost.dead g)); [| rewrite Hm; discriminate].
      cbv zeta. destruct (_ <=? _); cbn [Ghost.mode Ghost.set_mode Ghost.set_fright_timer];
        [discriminate | rewrite Hm; discriminate]. }
    destruct (update_in_transit g pac blinky r Hmov Hne) as [s ->].
    unfold ghost_dir. cbn [Ghost.base Ghost.set_base].
    match goal with
    | |- context [TileMover.update_position_pixels ?a] =>
        pose proof (update_position_pixels_dir a) as [Dx Dy]
    end.
    cbv zeta in Dx, Dy. rewrite Dx, Dy. reflexivity.
Qed.
End Steps.

(** ** Movers at rest *)

Section AtRest.
Context {F : Type} `{FloatOps F} `{Screen}.

(** The pixel position is the centre of the tile. *)
Definition centred (m : TileMover.t F) : Prop :=
  (TileMover.px m, TileMover.py m)
  = TileMover.center_float (TileMover.tx m) (TileMover.ty m).

(** A mover that is not in transit is at the centre of its tile. *)
Definition rest_ok (m : TileMover.t F) : Prop :=
  TileMover.moving m = false -> centred m.

(** A ghost at rest is at the centre of its tile, unless it is an eaten
    ghost that has not moved since. *)
Definition ghost_rest (g : Ghost.t F) : Prop :=
  TileMover.moving (Ghost.base g) = false ->
  centred (Ghost.base g) \/ Ghost.mode g = eyes /\ ghost_dir g = (0, 0).

Lemma init_centred (tile : Z * Z) : centred (TileMover.init tile).
Proof.
  destruct tile as [x y]. unfold centred, TileMover.init.
  destruct (TileMover.center_float x y) as [cx cy] eqn:Hc.
  cbn [TileMover.px TileMover.py TileMover.tx TileMover.ty]. rewrite Hc. reflexivity.
Qed.

Lemma start_move_place (m : TileMover.t F) (dx_ dy_ : Z) :
  let m' := fst (TileMover.start_move m dx_ dy_) in
  TileMover.tx m' = TileMover.tx m /\ TileMover.ty m' = TileMover.ty m
  /\ TileMover.px m' = TileMover.px m /\ TileMover.py m' = TileMover.py m.
Proof.
  unfold TileMover.start_move.
  repeat match goal with |- context [if ?b then _ else _] => destruct b end;
    cbn [fst]; auto.
Qed.

Lemma start_move_centred (m : TileMover.t F) (dx_ dy_ : Z) :
  centred m -> centred (fst (TileMover.start_move m dx_ dy_)).
Proof.
  unfold centred. pose proof (start_move_place m dx_ dy_) as (-> & -> & -> & ->).
  auto.
Qed.

Lemma start_move_rest (m : TileMover.t F) (dx_ dy_ : Z) :
  rest_ok m -> rest_ok (fst (TileMover.start_move m dx_ dy_)).
Proof.
  intros Hr Hidle.
  destruct (snd (TileMover.start_move m dx_ dy_)) eqn:Hok.
  - destruct (start_move_accepted m dx_ dy_ Hok) as (_ & _ & Hm). congruence.
  - rewrite (start_move_refused m dx_ dy_ Hok) in Hidle |- *. exact (Hr Hidle).
Qed.

(** Whatever the mover was, one that [update_position_pixels] leaves idle
    after a move is at the centre of its tile. *)
Lemma update_position_pixels_lands (m : TileMover.t F) :
  TileMover.moving m = true -> rest_ok (TileMover.update_position_pixels m).
Proof.
  intros Hmov. unfold TileMover.update_position_pixels. rewrite Hmov.
  cbv zeta. change (negb true) with false. cbv iota.
  destruct (tile_center_pixel (TileMover.tx m + TileMover.dx m)
              (TileMover.ty m + TileMover.dy m)) as [cx cy] eqn:Hc.
  match goal with
  | |- context [fleb ?a ?b] => destruct (fleb a b)
  end.
  - assert (Hn : rest_ok
                (TileMover.set_moving
                   (TileMover.set_pixel
                      (TileMover.set_tile m (TileMover.tx m + TileMover.dx m)
                         (TileMover.ty m + TileMover.dy m))
                      (float_of_int cx) (float_of_int cy)) false)).
    { intros _. unfold centred, TileMover.center_float.
      cbn [TileMover.px TileMover.py TileMover.tx TileMover.ty TileMover.set_moving
           TileMover.set_pixel TileMover.set_tile].
      rewrite Hc. reflexivity. }
    destruct (TileMover.warping m); [| exact Hn].
    destruct (TileMover.warp_target m) as [[wx wy] |]; [| exact Hn].
    destruct (TileMover.center_float wx wy) as [fx fy] eqn:Hf.
    intros Hidle. apply start_move_centred. unfold centred.
    cbn [TileMover.px TileMover.py TileMover.tx TileMover.ty TileMover.set_moving
         TileMover.set_pixel TileMover.set_tile TileMover.set_warp].
    rewrite Hf. reflexivity.
  - intros Hidle. cbn [TileMover.moving TileMover.set_pixel] in Hidle. congruence.
Qed.

Lemma update_position_pixels_rest (m : TileMover.t F) :
  rest_ok m -> rest_ok (TileMover.update_position_pixels m).
Proof.
  intros Hr. destruct (TileMover.moving m) eqn:Hmov.
  - now apply update_position_pixels_lands.
  - unfold TileMover.update_position_pixels. rewrite Hmov. exact Hr.
Qed.

Lemma set_speed_rest (m : TileMover.t F) (s : F) :
  rest_ok m -> rest_ok (TileMover.set_speed m s).
Proof. intros Hr. exact Hr. Qed.

Lemma set_dir_rest (m : TileMover.t F) (x y : Z) :
  rest_ok m -> rest_ok (TileMover.set_dir m x y).
Proof. intros Hr. exact Hr. Qed.

Lemma pacman_update_rest (p : Pacman.t F) :
  rest_ok (Pacman.base p) -> rest_ok (Pacman.base (Pacman.update p)).
Proof.
  intros Hr. unfold Pacman.update. cbv zeta. cbn [Pacman.base Pacman.set_base].
  apply update_position_pixels_rest.
  set (m := Pacman.base p) in *.
  destruct (TileMover.moving m); cbn [negb]; [exact Hr |].
  destruct (Pacman.is_zero_dir (TileMover.next_dx m) (TileMover.next_dy m)); cbn [negb].
  - destruct (Pacman.is_zero_dir (TileMover.dx m) (TileMover.dy m)); cbn [negb];
      [exact Hr | now apply start_move_rest].
  - pose proof (start_move_rest m (TileMover.next_dx m) (TileMover.next_dy m) Hr) as Hs.
    destruct (TileMover.start_move m (TileMover.next_dx m) (TileMover.next_dy m))
      as [m' ok]. cbn [fst] in Hs.
    destruct ok; [exact Hs |].
    destruct (Pacman.is_zero_dir (TileMover.dx m') (TileMover.dy m')); cbn [negb];
      [exact Hs | now apply start_move_rest].
Qed.

Lemma respawn_rest (p : Pacman.t F) : rest_ok (Pacman.base (Pacman.respawn p)).
Proof.
  intros _. destruct (respawn_effect p) as (_ & _ & _ & _ & Ht & _ & _ & Hp & _).
  unfold centred. rewrite Hp. unfold pac_tile in Ht.
  pose proof (f_equal fst Ht) as Hx. pose proof (f_equal snd Ht) as Hy.
  cbn [fst snd] in Hx, Hy. rewrite Hx, Hy. reflexivity.
Qed.

(** *** The ghosts *)

Lemma rest_ghost_rest (g : Ghost.t F) : rest_ok (Ghost.base g) -> ghost_rest g.
Proof. intros Hr Hidle. left. exact (Hr Hidle). Qed.

(** On an open tile an eaten ghost that has not moved yet does start a move
    at its first decision. *)
Lemma first_move_of_eyes (g : Ghost.t F) (target : Z * Z) :
  is_open (TileMover.tx (Ghost.base g)) (TileMover.ty (Ghost.base g)) = true ->
  ghost_dir g = (0, 0) ->
  let g' := Ghost.choose_direction_toward g target in
  TileMover.moving
    (fst (TileMover.start_move (Ghost.base g') (TileMover.dx (Ghost.base g'))
            (TileMover.dy (Ghost.base g')))) = true.
Proof.
  intros Ho Hd. cbv zeta. unfold ghost_dir in Hd.
  pose proof (f_equal fst Hd) as Hdx. pose proof (f_equal snd Hd) as Hdy.
  cbn [fst snd] in Hdx, Hdy.
  assert (Hstay : TileMover.moving
            (fst (TileMover.start_move (Ghost.base g) 0 0)) = true).
  { rewrite start_move_open by (rewrite !Z.add_0_r; exact Ho). reflexivity. }
  destruct (choose_direction_toward_In g target) as [-> | (d & Hin & ->)].
  - rewrite Hdx, Hdy. exact Hstay.
  - cbn [Ghost.base Ghost.set_base TileMover.dx TileMover.dy TileMover.set_dir].
    destruct (Ghost.candidates (Ghost.base g)) as [| c cs] eqn:Hc.
    + cbn [Ghost.or_reverse] in Hin. destruct Hin as [<- | []].
      rewrite Hdx, Hdy. cbn [fst snd Z.opp].
      rewrite start_move_open; [reflexivity |].
      cbn [TileMover.tx TileMover.ty TileMover.set_dir]. rewrite !Z.add_0_r. exact Ho.
    + cbn [Ghost.or_reverse] in Hin. rewrite <- Hc in Hin.
      apply candidates_legal in Hin as (_ & _ & Hopen).
      rewrite start_move_open; [reflexivity |].
      cbn [TileMover.tx TileMover.ty TileMover.set_dir]. exact Hopen.
Qed.

Lemma fright_countdown_rest (g : Ghost.t F) :
  ghost_rest g -> ghost_rest (Ghost.fright_countdown g).
Proof.
  unfold ghost_rest, ghost_dir. rewrite fright_countdown_base.
  intros Hr Hidle. destruct (Hr Hidle) as [Hc | [Hm Hd]]; [left; exact Hc |].
  right. split; [| exact Hd].
  unfold Ghost.fright_countdown. rewrite Hm.
  cbv beta iota delta [Mode_eqb andb]. exact Hm.
Qed.

(** After its update a ghost at rest is at the centre of its tile. *)
Lemma update_rest (g : Ghost.t F) pac blinky r :
  is_open (TileMover.tx (Ghost.base g)) (TileMover.ty (Ghost.base g)) = true ->
  ghost_rest g -> rest_ok (Ghost.base (Ghost.update g pac blinky r)).
Proof.
  intros Ho Hr. apply fright_countdown_rest in Hr.
  rewrite <- (fright_countdown_base g) in Ho. revert Ho Hr.
  unfold Ghost.update. generalize (Ghost.fright_countdown g). clear g.
  intros g Ho Hr. cbv zeta.
  destruct (Mode_eqb (Ghost.mode g) eyes) eqn:He.
  - match goal with
    | |- context [TileMover.update_position_pixels ?a] =>
        assert (Hm : rest_ok (TileMover.update_position_pixels a));
        [| set (m' := TileMover.update_position_pixels a) in * ]
    end.
    + cbn [Ghost.base Ghost.set_base].
      destruct (TileMover.moving (Ghost.base g)) eqn:Hmov; cbn [negb].
      * apply update_position_pixels_lands. exact Hmov.
      * cbn [Ghost.base Ghost.set_base].
        destruct (Hr Hmov) as [Hc | [_ Hd]].
        -- apply update_position_pixels_rest, set_speed_rest, start_move_rest.
           intros _.
           destruct (choose_direction_toward_In g (14, 14)) as [-> | (d & _ & ->)];
             exact Hc.
        -- apply update_position_pixels_lands.
           exact (first_move_of_eyes g (14, 14) Ho Hd).
    + cbn [Ghost.base Ghost.set_base].
      match goal with
      | |- context [if ?b then _ else _] => destruct b
      end; exact Hm.
  - cbn [Ghost.base Ghost.set_base].
    assert (Hplain : rest_ok (Ghost.base g)).
    { intros Hidle. destruct (Hr Hidle) as [Hc | [Hm _]]; [exact Hc |].
      rewrite Hm in He. discriminate He. }
    apply update_position_pixels_rest.
    match goal with
    | |- rest_ok (Ghost.base match Ghost.mode ?a with _ => _ end) =>
        assert (Ha : rest_ok (Ghost.base a));
        [| destruct (Ghost.mode a); cbn [Ghost.base Ghost.set_base];
           apply set_speed_rest; exact Ha]
    end.
    destruct (TileMover.moving (Ghost.base g)) eqn:Hmov; cbn [negb]; [exact Hplain |].
    cbn [Ghost.base Ghost.set_base]. apply start_move_rest.
    assert (Hchoose : forall target,
              rest_ok (Ghost.base (Ghost.choose_direction_toward g target))).
    { intros target.
      destruct (choose_direction_toward_In g target) as [-> | (d & _ & ->)];
        exact Hplain. }
    destruct (Ghost.mode g); first [apply Hchoose | exact Hplain].
Qed.

Lemma reset_ghost_rest (i : nat) (g : Ghost.t F) : ghost_rest (reset_ghost i g).
Proof.
  intros _. left. destruct (reset_ghost_is_reset i g) as (Ht & Hp & _).
  unfold centred. rewrite Hp. unfold ghost_tile in Ht.
  pose proof (f_equal fst Ht) as Hx. pose proof (f_equal snd Ht) as Hy.
  cbn [fst snd] in Hx, Hy. rewrite Hx, Hy. reflexivity.
Qed.

(** *** Over the frames *)

Definition rest_inv (w : World F) : Prop :=
  rest_ok (Pacman.base (player w)) /\ Forall ghost_rest (ghosts w).

Lemma set_global_mode_rest (w : World F) md :
  rest_inv w -> rest_inv (set_global_mode w md).
Proof.
  intros [P G]. split; [exact P |]. unfold set_global_mode. cbn [ghosts set_ghosts].
  apply Forall_fmap. eapply Forall_impl; [exact G |].
  intros g Hg. cbv beta delta [compose].
  destruct (Ghost.mode g) eqn:Hm; try exact Hg;
    intros Hidle; (destruct (Hg Hidle) as [Hc | [Hx _]]; [left; exact Hc | congruence]).
Qed.

Lemma trigger_fright_rest (w : World F) :
  Forall eyes_iff_dead (ghosts w) -> rest_inv w -> rest_inv (trigger_fright w).
Proof.
  intros E [P G]. split; [exact P |]. unfold trigger_fright.
  cbn [ghosts set_ghosts set_eaten].
  apply Forall_fmap. apply Forall_lookup. intros i g Hg.
  rewrite Forall_lookup in G, E. specialize (G i g Hg). specialize (E i g Hg).
  cbv beta delta [compose].
  destruct (Ghost.dead g) eqn:Hd; cbn [negb]; [exact G |].
  intros Hidle. destruct (G Hidle) as [Hc | [Hx _]]; [left; exact Hc |].
  apply E in Hx. congruence.
Qed.

Lemma mode_tick_rest (w : World F) : rest_inv w -> rest_inv (mode_tick w).
Proof.
  intros Hr. unfold mode_tick. cbv zeta.
  destruct (_ <=? _); [| exact Hr].
  destruct (mode_entry _) as [md sec]. apply set_global_mode_rest. exact Hr.
Qed.

Lemma pick_up_rest (w : World F) :
  Forall eyes_iff_dead (ghosts w) -> rest_inv w -> rest_inv (pick_up w).
Proof.
  intros E Hr. pose proof (trigger_fright_rest w E Hr) as [_ Hf].
  destruct Hr as [P G]. destruct (pick_up_player w) as (Eb & _).
  split; [rewrite Eb; exact P |].
  destruct (pick_up_ghosts w) as [-> | ->]; assumption.
Qed.

Lemma player_tick_rest (w : World F) :
  Forall eyes_iff_dead (ghosts w) -> rest_inv w -> rest_inv (player_tick w).
Proof.
  intros E Hr. unfold player_tick. destruct (Pacman.alive (player w)); cbn [negb].
  - apply pick_up_rest; [exact E |]. destruct Hr as [P G].
    split; [now apply pacman_update_rest | exact G].
  - cbv zeta. cbn [player set_player]. destruct Hr as [P G].
    destruct (Z.leb _ _); [destruct (Z.gtb _ _) |]; split; try assumption.
    apply respawn_rest.
Qed.

Lemma ghosts_tick_rest (w : World F) rs :
  core_ok w -> rest_inv w ->
  Forall (fun g => rest_ok (Ghost.base g)) (ghosts (ghosts_tick w rs)).
Proof.
  intros (_ & C & _) [_ G]. unfold ghosts_tick. cbn [ghosts set_ghosts].
  apply Forall_lookup. intros i g Hg. rewrite list_lookup_imap in Hg.
  apply fmap_Some in Hg as (g0 & Hg0 & ->).
  rewrite Forall_lookup in G, C.
  destruct (C _ _ Hg0) as [(Ho & _) _].
  apply update_rest; [exact Ho | exact (G _ _ Hg0)].
Qed.

Lemma eat_ghost_rest (w : World F) (i : nat) (g : Ghost.t F) :
  rest_inv w -> rest_inv (eat_ghost w i g).
Proof.
  intros [P G]. split; [exact P |]. unfold eat_ghost.
  cbn [ghosts set_ghosts set_eaten set_player].
  apply Forall_insert; [exact G |]. intros _. right. split; reflexivity.
Qed.

Lemma player_death_rest (w : World F) : rest_inv w -> rest_inv (player_death w).
Proof.
  intros [P G]. split; [exact P |]. unfold player_death. cbn [ghosts set_ghosts].
  apply Forall_lookup. intros i g Hg. rewrite list_lookup_imap in Hg.
  apply fmap_Some in Hg as (g0 & _ & ->). apply reset_ghost_rest.
Qed.

Lemma collide_from_rest (n : nat) :
  forall (i : nat) (w : World F), rest_inv w -> rest_inv (collide_from n i w).
Proof.
  induction n as [| n IH]; intros i w Hr; [exact Hr |]. cbn [collide_from].
  destruct (ghosts w !! i) as [g |]; [| exact Hr].
  destruct (near (player w) g); [| now apply IH].
  destruct (_ && _); [apply IH; now apply eat_ghost_rest |].
  destruct (_ && _); [now apply player_death_rest | now apply IH].
Qed.

Lemma simulate_rest (w : World F) rs :
  world_ok w -> core_ok w -> rest_inv w -> rest_inv (simulate w rs).
Proof.
  intros Hw Hc Hr. unfold simulate. destruct (_ && _); [| exact Hr].
  pose proof (mode_tick_ok w Hw) as Hw1. pose proof (mode_tick_core w Hw Hc) as Hc1.
  pose proof (mode_tick_rest w Hr) as Hr1.
  pose proof (player_tick_core _ Hc1) as Hc2.
  pose proof (player_tick_rest _ (proj1 (proj2 Hw1)) Hr1) as Hr2.
  assert (Hr3 : rest_inv (ghosts_tick (player_tick (mode_tick w)) rs)).
  { split; [exact (proj1 Hr2) |].
    eapply Forall_impl; [exact (ghosts_tick_rest _ rs Hc2 Hr2) |].
    intros g Hg. now apply rest_ghost_rest. }
  assert (Hr4 : rest_inv (check_collisions (ghosts_tick (player_tick (mode_tick w)) rs))).
  { unfold check_collisions. destruct (negb _); [exact Hr3 |].
    now apply collide_from_rest. }
  unfold win_check. destruct (_ && _); exact Hr4.
Qed.

Lemma fresh_round_rest (w : World F) (md : Mode) :
  player w = Pacman.init pac_start -> ghosts w = new_ghosts ->
  rest_inv (set_global_mode w md).
Proof.
  intros Hp Hg. apply set_global_mode_rest. unfold rest_inv. rewrite Hp, Hg. split.
  - intros _. exact (init_centred pac_start).
  - unfold new_ghosts. apply List.Forall_forall. intros g Hin.
    apply in_map_iff in Hin as (i & <- & _). intros _. left.
    exact (init_centred (ghost_start i)).
Qed.

Lemma handle_event_rest (w : World F) ev : rest_inv w -> rest_inv (handle_event w ev).
Proof.
  intros Hr. destruct ev as [| k |]; [exact Hr | | exact Hr].
  destruct k; cbn [handle_event]; try exact Hr.
  destruct (_ || _); [| exact Hr].
  unfold restart. cbv zeta. apply fresh_round_rest; reflexivity.
Qed.

Lemma frame_rest (w : World F) evs rs :
  world_ok w -> core_ok w -> rest_inv w -> rest_inv (frame w evs rs).
Proof.
  intros Hw Hc Hr. unfold frame. cbv zeta.
  assert (Hev : forall w0 : World F,
            rest_inv w0 -> rest_inv (fold_left handle_event evs w0)).
  { induction evs as [| ev evs IH]; intros w0 Hr0; [exact Hr0 |].
    simpl. apply IH. now apply handle_event_rest. }
  pose proof (events_ok evs w Hw). pose proof (events_core evs w Hc).
  pose proof (Hev w Hr).
  destruct (paused _); [assumption | now apply simulate_rest].
Qed.

Lemma reachable_rest (w : World F) : reachable w -> rest_inv w.
Proof.
  induction 1 as [| w evs rs Hr IH].
  - unfold initial_world. cbv zeta. apply fresh_round_rest; reflexivity.
  - apply frame_rest; [now apply reachable_ok | now apply reachable_core | exact IH].
Qed.

(** X21: movers rest at tile centres.  In every reachable world a player
    that is not in transit is exactly at the centre of its tile, and so is
    every ghost that is not in transit, except a captured ghost that has not
    moved since it was eaten; and the update of the ghosts leaves every ghost
    that is not in transit at the centre of its tile. *)
Theorem movers_rest_at_tile_centres (w : World F) :
  reachable w ->
  (TileMover.moving (Pacman.base (player w)) = false ->
     centred (Pacman.base (player w)))
  /\ (forall g, In g (ghosts w) -> TileMover.moving (Ghost.base g) = false ->
        centred (Ghost.base g)
        \/ Ghost.mode g = eyes /\ Ghost.dead g = true /\ ghost_dir g = (0, 0))
  /\ (forall rs g, In g (ghosts (ghosts_tick w rs)) ->
        TileMover.moving (Ghost.base g) = false -> centred (Ghost.base g)).
Proof.
  intros Hr. destruct (reachable_rest w Hr) as [P G].
  destruct (reachable_ok w Hr) as (_ & E & _).
  split; [exact P |]. split.
  - intros g Hin Hidle.
    destruct (Forall_In_ghosts _ _ _ G Hin Hidle) as [Hc | [Hm Hd]];
      [left; exact Hc | right].
    split; [exact Hm |]. split; [| exact Hd].
    apply (Forall_In_ghosts _ _ _ E Hin). exact Hm.
  - intros rs g Hin.
    exact (Forall_In_ghosts _ _ _
             (ghosts_tick_rest w rs (reachable_core w Hr) (conj P G)) Hin).
Qed.
End AtRest.

(** ** Tile centres in binary64 *)

(** On the machine [Binary64] (IEEE doubles, a 1920x1080 display) the test
    [at_center] recognises the centre of every tile of the grid. *)
Module Doubles.
Import Binary64.

Definition cols : list Z := List.map Z.of_nat (seq 0 28).

Lemma cols_all (P : Z -> bool) :
  forallb P cols = true -> forall x, 0 <= x < 28 -> P x = true.
Proof.
  intros Hall x Hx. rewrite forallb_forall in Hall. apply Hall.
  unfold cols. apply in_map_iff. exists (Z.to_nat x). split; [lia |].
  apply in_seq. lia.
Qed.

(** [at_center] holds of a mover created on each tile of column [x]. *)
Definition centre_check (x : Z) : bool :=
  forallb (fun y => TileMover.at_center (TileMover.init (x, y))) rows.

Lemma centres_checked : forallb centre_check cols = true.
Proof. vm_compute. reflexivity. Qed.

Lemma at_center_of_centred (m : TileMover.t float) :
  in_bounds (TileMover.tx m) (TileMover.ty m) = true ->
  centred m -> TileMover.at_center m = true.
Proof.
  intros Hb Hc. apply in_bounds_range in Hb as [Hx Hy].
  pose proof (rows_all _ (cols_all _ centres_checked (TileMover.tx m) Hx)
                (TileMover.ty m) Hy) as Hall.
  cbv beta in Hall. revert Hall.
  unfold TileMover.at_center, TileMover.init. unfold centred in Hc.
  destruct (TileMover.center_float (TileMover.tx m) (TileMover.ty m)) as [cx cy].
  injection Hc as -> ->.
  cbn [TileMover.px TileMover.py TileMover.tx TileMover.ty]. auto.
Qed.

(** X22: a resting player picks up what it stands on.  On IEEE doubles and
    a 1920x1080 display, in every reachable world a player that is not in
    transit passes the test [at_center], so that [pick_up] leaves neither a
    pellet nor a power pellet on its tile. *)
Theorem resting_player_picks_up (w : World float) :
  reachable w ->
  TileMover.moving (Pacman.base (player w)) = false ->
  TileMover.at_center (Pacman.base (player w)) = true
  /\ (pac_tile (player w) ∉ pellets (pick_up w))
  /\ (pac_tile (player w) ∉ power_pellets (pick_up w)).
Proof.
  intros Hr Hidle.
  destruct (reachable_rest w Hr) as [P _].
  destruct (reachable_core w Hr) as ([(Ho & _) _] & _).
  pose proof (reachable_items_ok w Hr) as Hok.
  assert (Hc : TileMover.at_center (Pacman.base (player w)) = true).
  { apply at_center_of_centred; [now apply is_open_in_bounds | exact (P Hidle)]. }
  split; [exact Hc |].
  destruct (decide (pac_tile (player w) ∈ pellets w)) as [Hin | Hout].
  - assert (Hq : pac_tile (player w) ∉ power_pellets w)
      by (intros Hq; exact (items_disjoint w _ Hok Hin Hq)).
    rewrite (pick_up_pellet w Hc Hin Hq). cbn [pellets power_pellets set_player set_items].
    split; [| exact Hq].
    rewrite elem_of_difference, elem_of_singleton. tauto.
  - destruct (decide (pac_tile (player w) ∈ power_pellets w)) as [Hin' | Hout'].
    + rewrite (pick_up_power_pellet w Hc Hout Hin').
      cbn [pellets power_pellets trigger_fright set_ghosts set_eaten set_player set_items].
      split; [exact Hout |].
      rewrite elem_of_difference, elem_of_singleton. tauto.
    + rewrite (pick_up_nothing w Hout Hout'). split; assumption.
Qed.
End Doubles.

(** * Concrete runs *)

(** The model run on the scenarios of [Scenario]. *)
Module Runs.
Import Binary64 Scenario.

Ltac by_run := vm_compute; first [reflexivity | discriminate | intros; discriminate].
Ltac conjuncts := repeat match goal with |- _ /\ _ => split end.
Ltac given := repeat match goal with |- _ /\ _ => split; [assumption |] end.

(** The first decision of ghost 0: right and up are equally near its corner
    (27, 0); right, enumerated first, is taken. *)
Example first_decision_tie :
  sqdist (dest (ghost_at initial_world 0) (1, 0)) (27, 0)
    = sqdist (dest (ghost_at initial_world 0) (0, -1)) (27, 0)
  /\ ghost_dir (Ghost.update (ghost_at initial_world 0) (player initial_world)
                  (Some (13, 14)) 0) = (1, 0).
Proof. split; by_run. Qed.


(** In the head-on run the player and ghost 0 are 16.8 pixels apart after
    two frames and 13.2 after the moves of the third, below the threshold
    of [24 * 0.6]. *)
Lemma eat_scores_by_counter_witness :
  ghosts head_on_contact !! 0%nat = Some (ghost_at head_on_contact 0)
  /\ near (player head_on_contact) (ghost_at head_on_contact 0) = true
  /\ Ghost.mode (ghost_at head_on_contact 0) = frightened
  /\ Ghost.dead (ghost_at head_on_contact 0) = false
  /\ 0 <= ghosts_eaten_in_power head_on_contact
  /\ Pacman.score (player (eat_ghost head_on_contact 0 (ghost_at head_on_contact 0)))
     = Pacman.score (player head_on_contact)
       + eat_points (ghosts_eaten_in_power head_on_contact).
Proof.
  assert (H1 : ghosts head_on_contact !! 0%nat = Some (ghost_at head_on_contact 0))
    by by_run.
  assert (H2 : near (player head_on_contact) (ghost_at head_on_contact 0) = true)
    by by_run.
  assert (H3 : Ghost.mode (ghost_at head_on_contact 0) = frightened) by by_run.
  assert (H4 : Ghost.dead (ghost_at head_on_contact 0) = false) by by_run.
  assert (H5 : 0 <= ghosts_eaten_in_power head_on_contact) by by_run.
  given.
  exact (proj1 (proj2 (proj2 (proj2
    (eat_scores_by_counter head_on_contact 0 (ghost_at head_on_contact 0)
       H1 H2 H3 H4 H5))))).
Defined.

(** The whole frame: 200 points, the counter at 1, ghost 0 turned to eyes. *)
Example head_on_third_frame :
  Pacman.score (player (frames 2 [1%nat] head_on)) = 0
  /\ Pacman.score (player (frames 3 [1%nat] head_on)) = 200
  /\ ghosts_eaten_in_power (frames 3 [1%nat] head_on) = 1
  /\ Ghost.mode (ghost_at (frames 3 [1%nat] head_on) 0) = eyes.
Proof. conjuncts; by_run. Qed.

(** Being within reach of a frightened ghost is not enough for the eat.  In
    the run with the frightened ghost behind, ghost 1 (scatter) and ghost 2
    (frightened, 477 ticks left, not captured) are both within reach of the
    living player when the check is called, 12.0 and 13.2 pixels away.  The
    check visits ghost 1 first: it takes the life, resets the ghosts and
    leaves the loop.  Ghost 2 is not eaten: the score and the counter are as
    before, and ghost 2 is a scatter ghost, not eyes. *)
Lemma deadly_ghost_preempts_eat :
  Pacman.alive (player fright_behind_contact) = true
  /\ Ghost.mode (ghost_at fright_behind_contact 1) = scatter
  /\ Ghost.dead (ghost_at fright_behind_contact 1) = false
  /\ near (player fright_behind_contact) (ghost_at fright_behind_contact 1) = true
  /\ Ghost.mode (ghost_at fright_behind_contact 2) = frightened
  /\ Ghost.dead (ghost_at fright_behind_contact 2) = false
  /\ Ghost.fright_timer (ghost_at fright_behind_contact 2) = 477
  /\ near (player fright_behind_contact) (ghost_at fright_behind_contact 2) = true
  /\ Pacman.score (player (check_collisions fright_behind_contact))
     = Pacman.score (player fright_behind_contact)
  /\ ghosts_eaten_in_power (check_collisions fright_behind_contact)
     = ghosts_eaten_in_power fright_behind_contact
  /\ Ghost.mode (ghost_at (check_collisions fright_behind_contact) 2) = scatter
  /\ Ghost.dead (ghost_at (check_collisions fright_behind_contact) 2) = false
  /\ Pacman.lives (player (check_collisions fright_behind_contact))
     = Pacman.lives (player fright_behind_contact) - 1
  /\ Pacman.score (player (frames 2 [0%nat; 0%nat; 1%nat] fright_behind)) = 0
  /\ Pacman.score (player (frames 3 [0%nat; 0%nat; 1%nat] fright_behind)) = 0
  /\ ghosts_eaten_in_power (frames 3 [0%nat; 0%nat; 1%nat] fright_behind) = 0
  /\ Pacman.lives (player (frames 3 [0%nat; 0%nat; 1%nat] fright_behind)) = 2
  /\ List.map Ghost.mode (ghosts (frames 3 [0%nat; 0%nat; 1%nat] fright_behind))
     = [scatter; scatter; scatter; scatter].
Proof. conjuncts; by_run. Qed.

Lemma death_resets_all_ghosts_witness :
  Pacman.alive (player two_ghosts_contact) = true
  /\ ghosts two_ghosts_contact !! 1%nat = Some (ghost_at two_ghosts_contact 1)
  /\ near (player two_ghosts_contact) (ghost_at two_ghosts_contact 1) = true
  /\ Ghost.mode (ghost_at two_ghosts_contact 1) = scatter
  /\ Ghost.dead (ghost_at two_ghosts_contact 1) = false
  /\ Pacman.lives (player (check_collisions two_ghosts_contact))
     = Pacman.lives (player two_ghosts_contact) - 1
  /\ length (ghosts (check_collisions two_ghosts_contact)) = 4%nat.
Proof.
  assert (H1 : Pacman.alive (player two_ghosts_contact) = true) by by_run.
  assert (H2 : ghosts two_ghosts_contact !! 1%nat = Some (ghost_at two_ghosts_contact 1))
    by by_run.
  assert (H3 : near (player two_ghosts_contact) (ghost_at two_ghosts_contact 1) = true)
    by by_run.
  assert (H4 : Ghost.mode (ghost_at two_ghosts_contact 1) = scatter) by by_run.
  assert (H5 : Ghost.dead (ghost_at two_ghosts_contact 1) = false) by by_run.
  given.
  assert (Hf : Ghost.mode (ghost_at two_ghosts_contact 1) <> frightened)
    by (rewrite H4; discriminate).
  assert (He : Ghost.mode (ghost_at two_ghosts_contact 1) <> eyes)
    by (rewrite H4; discriminate).
  destruct (death_resets_all_ghosts two_ghosts_contact 1
              (ghost_at two_ghosts_contact 1) H1 H2 H3 Hf He H5) as (L & N & _).
  split; [exact L |]. rewrite N. by_run.
Defined.

(** In the run with two ghosts the player (speed 2.6) meets ghost 0
    (frightened, speed 1.0) and ghost 1 (scatter, speed 1.4), which both left
    the centre of tile (6, 5), pixel x = 780, to the left.  After the moves
    of the third frame the player is at x = 763.8, ghost 0 at 777 and ghost 1
    at 775.8: 13.2 and 12.0 away, below [24 * 0.6].  One call of
    [check_collisions] eats ghost 0, awards the 200 points, and then takes
    the life on ghost 1. *)
Lemma eat_and_death_in_one_check :
  Pacman.alive (player two_ghosts_contact) = true
  /\ Ghost.mode (ghost_at two_ghosts_contact 0) = frightened
  /\ Ghost.mode (ghost_at two_ghosts_contact 1) = scatter
  /\ near (player two_ghosts_contact) (ghost_at two_ghosts_contact 0) = true
  /\ near (player two_ghosts_contact) (ghost_at two_ghosts_contact 1) = true
  /\ Pacman.score (player (check_collisions two_ghosts_contact))
     = Pacman.score (player two_ghosts_contact) + 200
  /\ ghosts_eaten_in_power (check_collisions two_ghosts_contact)
     = ghosts_eaten_in_power two_ghosts_contact + 1
  /\ Pacman.lives (player (check_collisions two_ghosts_contact))
     = Pacman.lives (player two_ghosts_contact) - 1
  /\ Pacman.alive (player (check_collisions two_ghosts_contact)) = false
  /\ Pacman.score (player (frames 2 [1%nat] two_ghosts)) = 0
  /\ Pacman.lives (player (frames 2 [1%nat] two_ghosts)) = 3
  /\ Pacman.score (player (frames 3 [1%nat] two_ghosts)) = 200
  /\ Pacman.lives (player (frames 3 [1%nat] two_ghosts)) = 2.
Proof. conjuncts; by_run. Qed.

Lemma death_ends_collision_check_witness :
  ghosts two_ghosts_contact !! 1%nat = Some (ghost_at two_ghosts_contact 1)
  /\ near (player two_ghosts_contact) (ghost_at two_ghosts_contact 1) = true
  /\ Ghost.mode (ghost_at two_ghosts_contact 1) = scatter
  /\ Ghost.dead (ghost_at two_ghosts_contact 1) = false
  /\ forall n, collide_from (S n) 1 two_ghosts_contact
              = player_death two_ghosts_contact.
Proof.
  assert (H2 : ghosts two_ghosts_contact !! 1%nat = Some (ghost_at two_ghosts_contact 1))
    by by_run.
  assert (H3 : near (player two_ghosts_contact) (ghost_at two_ghosts_contact 1) = true)
    by by_run.
  assert (H4 : Ghost.mode (ghost_at two_ghosts_contact 1) = scatter) by by_run.
  assert (H5 : Ghost.dead (ghost_at two_ghosts_contact 1) = false) by by_run.
  given.
  assert (Hf : Ghost.mode (ghost_at two_ghosts_contact 1) <> frightened)
    by (rewrite H4; discriminate).
  assert (He : Ghost.mode (ghost_at two_ghosts_contact 1) <> eyes)
    by (rewrite H4; discriminate).
  exact (proj1 (death_ends_collision_check two_ghosts_contact 1
                  (ghost_at two_ghosts_contact 1) H2 H3 Hf He H5)).
Defined.

(** In the power run the player takes the power pellet in frame 10, while
    the scheduler is in chase; the scheduler turns to scatter in frame 100;
    the frightened timers run out in frame 489, and the four ghosts become
    chase although the scheduler's cursor designates scatter for 31 more
    ticks. *)
Lemma fright_expiry_ignores_scheduler :
  List.map Ghost.mode (ghosts (frames 9 [] power_run))
    = [scatter; scatter; scatter; scatter]
  /\ List.map Ghost.mode (ghosts (frames 10 [] power_run))
    = [frightened; frightened; frightened; frightened]
  /\ mode_entry (mode_index (frames 10 [] power_run)) = (chase, 20)
  /\ List.map Ghost.mode (ghosts (frames 488 [] power_run))
    = [frightened; frightened; frightened; frightened]
  /\ List.map Ghost.fright_timer (ghosts (frames 488 [] power_run)) = [1; 1; 1; 1]
  /\ mode_entry (mode_index (frames 488 [] power_run)) = (scatter, 7)
  /\ List.map Ghost.mode (ghosts (frames 489 [] power_run))
    = [chase; chase; chase; chase]
  /\ mode_entry (mode_index (frames 489 [] power_run)) = (scatter, 7)
  /\ mode_timer (frames 489 [] power_run) = 31
  /\ Pacman.lives (player (frames 489 [] power_run)) = 3.
Proof. conjuncts; by_run. Qed.

Lemma fright_expiry_becomes_chase_witness :
  Ghost.mode (ghost_at (frames 488 [] power_run) 0) = frightened
  /\ Ghost.dead (ghost_at (frames 488 [] power_run) 0) = false
  /\ Ghost.fright_timer (ghost_at (frames 488 [] power_run) 0) <= 1
  /\ Ghost.mode (Ghost.update (ghost_at (frames 488 [] power_run) 0)
                   (player (frames 488 [] power_run)) None 0) = chase.
Proof.
  assert (H1 : Ghost.mode (ghost_at (frames 488 [] power_run) 0) = frightened)
    by by_run.
  assert (H2 : Ghost.dead (ghost_at (frames 488 [] power_run) 0) = false) by by_run.
  assert (H3 : Ghost.fright_timer (ghost_at (frames 488 [] power_run) 0) <= 1)
    by by_run.
  given.
  exact (proj1 (fright_expiry_becomes_chase (ghost_at (frames 488 [] power_run) 0)
                  (player (frames 488 [] power_run)) None 0 H1 H2) H3).
Defined.

Lemma tunnel_wrap_continues_witness :
  TileMover.moving in_tunnel = true /\ TileMover.warping in_tunnel = true
  /\ TileMover.warp_target in_tunnel = Some (0, 14)
  /\ arrives in_tunnel = true
  /\ TileMover.update_position_pixels in_tunnel
     = fst (TileMover.start_move (snapped in_tunnel 0 14)
              (TileMover.dx in_tunnel) (TileMover.dy in_tunnel)).
Proof.
  assert (H1 : TileMover.moving in_tunnel = true) by by_run.
  assert (H2 : TileMover.warping in_tunnel = true) by by_run.
  assert (H3 : TileMover.warp_target in_tunnel = Some (0, 14)) by by_run.
  assert (H4 : arrives in_tunnel = true) by by_run.
  given.
  exact (proj1 (tunnel_wrap_continues in_tunnel 0 14 H1 H2 H3 H4)).
Defined.

(** [start_move] on the maze: into an open tile, through the right edge of
    the tunnel row, against a wall, and off the grid in a row that is closed
    at the other edge. *)
Example start_move_cases :
  TileMover.start_move (TileMover.init (1, 1)) 1 0
    = (committed (TileMover.init (1, 1)) 1 0 false None, true)
  /\ TileMover.start_move (TileMover.init (27, 14)) 1 0
    = (committed (TileMover.init (27, 14)) 1 0 true (Some (0, 14)), true)
  /\ TileMover.start_move (TileMover.init (0, 14)) (-1) 0
    = (committed (TileMover.init (0, 14)) (-1) 0 true (Some (27, 14)), true)
  /\ TileMover.start_move (TileMover.init (1, 1)) 0 (-1)
    = (TileMover.init (1, 1), false)
  /\ TileMover.start_move (TileMover.init (1, 1)) (-1) 0
    = (TileMover.init (1, 1), false).
Proof. conjuncts; by_run. Qed.

(** The crossing frame by frame: in transit towards the off-grid tile for
    nine frames, then at the centre of tile (0, 14), still in transit and
    still heading right. *)
Example tunnel_crossing :
  (TileMover.tx in_tunnel, TileMover.ty in_tunnel) = (27, 14)
  /\ (TileMover.tx (TileMover.update_position_pixels in_tunnel),
      TileMover.ty (TileMover.update_position_pixels in_tunnel)) = (0, 14)
  /\ TileMover.moving (TileMover.update_position_pixels in_tunnel) = true
  /\ (TileMover.dx (TileMover.update_position_pixels in_tunnel),
      TileMover.dy (TileMover.update_position_pixels in_tunnel)) = (1, 0).
Proof. conjuncts; by_run. Qed.

Lemma scheduler_wraps_around_witness :
  mode_index last_tick = 7
  /\ mode_timer last_tick <= 1
  /\ mode_index (mode_tick last_tick) = 0
  /\ mode_timer (mode_tick last_tick) = 7 * FPS.
Proof.
  assert (H1 : mode_index last_tick = 7) by reflexivity.
  assert (H2 : mode_timer last_tick <= 1) by by_run.
  split; [exact H1 |]. split; [exact H2 |].
  destruct (proj1 (proj2 (scheduler_wraps_around last_tick H1)) H2) as (A & B & _).
  split; [exact A | exact B].
Defined.

Lemma blank_tiles_hold_no_item_witness :
  reachable (initial_world (F := float))
  /\ cell_is (0, 14) " "%char
  /\ (0, 14) ∈ setup_pellets
  /\ (0, 14) ∉ pellets (initial_world (F := float)).
Proof.
  assert (H1 : reachable (initial_world (F := float))) by constructor.
  assert (H2 : cell_is (0, 14) " "%char)
    by (unfold cell_is; cbn [fst snd]; repeat split; try lia; reflexivity).
  split; [exact H1 |]. split; [exact H2 |].
  pose proof (blank_tiles_hold_no_item initial_world (0, 14) H1 H2) as T.
  split; [apply (proj1 T); reflexivity |].
  exact (proj1 (proj2 (proj2 (proj2 (proj2 (proj2 (proj2 (proj2 (proj2 (proj2 T)))))))))).
Defined.

(** ** The eaten ghost *)

(** [kill_and_become_eyes] stops the ghost where it is: tile and pixel
    position stay. *)
Lemma kill_and_become_eyes_stays (g : Ghost.t float) :
  let g' := Ghost.kill_and_become_eyes g in
  TileMover.moving (Ghost.base g') = false
  /\ ghost_tile g' = ghost_tile g
  /\ TileMover.px (Ghost.base g') = TileMover.px (Ghost.base g)
  /\ TileMover.py (Ghost.base g') = TileMover.py (Ghost.base g).
Proof. cbv zeta. conjuncts; reflexivity. Qed.

(** C8 fails on the head-on run.  Ghost 0 is eaten in the third frame,
    three pixels to the left of the centre of its tile (6, 5), and is left
    there idle: not in transit and not at a tile centre.  In the fourth frame
    it heads down for tile (6, 6) from that position, so that its pixel
    position is on no segment between two tile centres. *)
Theorem eaten_ghost_idle_off_center :
  let g2 := ghost_at (frames 2 [1%nat] head_on) 0 in
  let g3 := ghost_at (frames 3 [1%nat] head_on) 0 in
  let g4 := ghost_at (frames 4 [1%nat] head_on) 0 in
  (Ghost.mode g2 = frightened /\ TileMover.moving (Ghost.base g2) = true
   /\ ghost_tile g2 = (6, 5) /\ ghost_dir g2 = (-1, 0))
  /\ (Ghost.mode g3 = eyes /\ TileMover.moving (Ghost.base g3) = false
      /\ ghost_tile g3 = (6, 5)
      /\ tile_center_pixel 6 5 = (780, 300)
      /\ TileMover.px (Ghost.base g3) = float_of_int 777
      /\ TileMover.py (Ghost.base g3) = float_of_int 300
      /\ TileMover.at_center (Ghost.base g3) = false)
  /\ (TileMover.moving (Ghost.base g4) = true
      /\ ghost_tile g4 = (6, 5) /\ ghost_dir g4 = (0, 1)
      /\ fltb (float_of_int 777) (TileMover.px (Ghost.base g4)) = true
      /\ fltb (TileMover.px (Ghost.base g4)) (float_of_int 780) = true
      /\ fltb (float_of_int 300) (TileMover.py (Ghost.base g4)) = true
      /\ fltb (TileMover.py (Ghost.base g4)) (float_of_int 324) = true).
Proof. cbv zeta. conjuncts; by_run. Qed.
End Runs.

(** ** The properties of the game on concrete worlds *)

Module Instances.
Import Binary64 Scenario.

Ltac run := vm_compute; first [reflexivity | discriminate].

(** The first frame of a game, without events. *)
Lemma first_frame_reachable : reachable (frames 1 [] initial_world).
Proof. exact (reachable_frame initial_world [] [] reachable_initial). Qed.

Lemma movers_stay_on_open_tiles_witness :
  reachable (frames 1 [] initial_world)
  /\ is_open (fst (pac_tile (player (frames 1 [] initial_world))))
       (snd (pac_tile (player (frames 1 [] initial_world)))) = true.
Proof.
  split; [exact first_frame_reachable |].
  exact (proj1 (movers_stay_on_open_tiles _ first_frame_reachable)).
Defined.

Lemma directions_are_axis_steps_witness :
  reachable (frames 1 [] initial_world)
  /\ axis_step (pac_dir (player (frames 1 [] initial_world))).
Proof.
  split; [exact first_frame_reachable |].
  exact (proj1 (directions_are_axis_steps _ first_frame_reachable)).
Defined.

Lemma lives_and_game_over_witness :
  reachable (frames 1 [] initial_world)
  /\ 0 <= Pacman.lives (player (frames 1 [] initial_world)) <= 3.
Proof.
  split; [exact first_frame_reachable |].
  exact (proj1 (lives_and_game_over _ first_frame_reachable)).
Defined.

Lemma ghosts_and_scheduler_consistent_witness :
  reachable (frames 1 [] initial_world)
  /\ length (ghosts (frames 1 [] initial_world)) = 4%nat
  /\ 1 <= mode_timer (frames 1 [] initial_world) <= 9999 * FPS.
Proof.
  split; [exact first_frame_reachable |].
  pose proof (ghosts_and_scheduler_consistent _ first_frame_reachable) as T.
  split; [exact (proj1 T) | exact (proj2 (proj2 (proj2 T)))].
Defined.

Lemma won_exactly_when_cleared_witness :
  reachable (frames 1 [] initial_world)
  /\ (win (frames 1 [] initial_world) = true
      <-> pellets (frames 1 [] initial_world) = ∅
          /\ power_pellets (frames 1 [] initial_world) = ∅).
Proof.
  split; [exact first_frame_reachable |].
  exact (proj1 (won_exactly_when_cleared _ first_frame_reachable)).
Defined.

Lemma eaten_counter_bound_witness :
  reachable (frames 1 [] initial_world)
  /\ 0 <= ghosts_eaten_in_power (frames 1 [] initial_world) <= 4.
Proof.
  split; [exact first_frame_reachable |].
  exact (proj1 (eaten_counter_bound _ first_frame_reachable)).
Defined.

(** The game starts with the player at the centre of tile (14, 23), on a
    pellet. *)
Lemma pick_up_effect_witness :
  items_ok (initial_world (F := float))
  /\ TileMover.at_center (Pacman.base (player initial_world)) = true
  /\ pac_tile (player initial_world) ∈ pellets initial_world
  /\ Pacman.score (player (pick_up initial_world))
     - Pacman.score (player initial_world) = 10.
Proof.
  assert (H1 : items_ok (initial_world (F := float)))
    by exact (reachable_items_ok _ reachable_initial).
  assert (H2 : TileMover.at_center (Pacman.base (player initial_world)) = true)
    by run.
  assert (H3 : pac_tile (player initial_world) ∈ pellets initial_world).
  { assert (E : pac_tile (player (initial_world (F := float))) = (14, 23)) by run.
    rewrite E. destruct (initial_world_items (F := float) (14, 23)) as [[_ Hin] _].
    apply Hin. unfold cell_is. cbn [fst snd]. split; [lia |]. split; [lia | reflexivity]. }
  split; [exact H1 |]. split; [exact H2 |]. split; [exact H3 |].
  exact (proj1 (proj1 (proj2 (proj2 (pick_up_effect initial_world H1))) H2 H3)).
Defined.

Lemma fright_outlasts_broadcast_witness :
  Forall eyes_iff_dead (ghosts (initial_world (F := float)))
  /\ set_global_mode (trigger_fright initial_world) chase
     = trigger_fright (initial_world (F := float)).
Proof.
  assert (H1 : Forall eyes_iff_dead (ghosts (initial_world (F := float))))
    by exact (proj1 (proj2 (reachable_ok _ reachable_initial))).
  split; [exact H1 |].
  exact (proj1 (fright_outlasts_broadcast initial_world chase H1)).
Defined.

(** After the third frame of the head-on run ghost 0 is captured and still
    within reach of the living player; the other ghosts are far away. *)
Lemma captured_ghosts_are_harmless_witness :
  Pacman.alive (player (frames 3 [1%nat] head_on)) = true
  /\ Ghost.mode (ghost_at (frames 3 [1%nat] head_on) 0) = eyes
  /\ Ghost.dead (ghost_at (frames 3 [1%nat] head_on) 0) = true
  /\ near (player (frames 3 [1%nat] head_on)) (ghost_at (frames 3 [1%nat] head_on) 0)
     = true
  /\ (forall g, In g (ghosts (frames 3 [1%nat] head_on)) ->
                near (player (frames 3 [1%nat] head_on)) g = true ->
                Ghost.dead g = true)
  /\ check_collisions (frames 3 [1%nat] head_on) = frames 3 [1%nat] head_on.
Proof.
  assert (H1 : Pacman.alive (player (frames 3 [1%nat] head_on)) = true) by run.
  assert (H2 : Ghost.mode (ghost_at (frames 3 [1%nat] head_on) 0) = eyes) by run.
  assert (H3 : Ghost.dead (ghost_at (frames 3 [1%nat] head_on) 0) = true) by run.
  assert (H4 : near (player (frames 3 [1%nat] head_on))
                 (ghost_at (frames 3 [1%nat] head_on) 0) = true) by run.
  assert (H5 : forall g, In g (ghosts (frames 3 [1%nat] head_on)) ->
                 near (player (frames 3 [1%nat] head_on)) g = true ->
                 Ghost.dead g = true).
  { intros g Hin Hn.
    apply (In_nth _ _ (Ghost.init (0, 0) 0)) in Hin as (n & Hlen & <-).
    assert (L : length (ghosts (frames 3 [1%nat] head_on)) = 4%nat) by run.
    rewrite L in Hlen.
    destruct n as [| [| [| [| n]]]]; [run | | | | lia];
      exfalso; vm_compute in Hn; discriminate Hn. }
  split; [exact H1 |]. split; [exact H2 |]. split; [exact H3 |].
  split; [exact H4 |]. split; [exact H5 |].
  exact (captured_ghosts_are_harmless (frames 3 [1%nat] head_on) (or_intror H5)).
Defined.

Lemma frightened_ghost_choice_witness :
  TileMover.moving (Ghost.base (ghost_at head_on 0)) = false
  /\ Ghost.mode (ghost_at head_on 0) = frightened
  /\ Ghost.dead (ghost_at head_on 0) = false
  /\ 1 < Ghost.fright_timer (ghost_at head_on 0)
  /\ ghost_dir (Ghost.update (ghost_at head_on 0) (player head_on) (Some (6, 5)) 1)
     = Ghost.random_choice 1
         (Ghost.or_reverse (Ghost.base (ghost_at head_on 0))
            (Ghost.candidates (Ghost.base (ghost_at head_on 0)))).
Proof.
  assert (H1 : TileMover.moving (Ghost.base (ghost_at head_on 0)) = false) by run.
  assert (H2 : Ghost.mode (ghost_at head_on 0) = frightened) by run.
  assert (H3 : Ghost.dead (ghost_at head_on 0) = false) by run.
  assert (H4 : 1 < Ghost.fright_timer (ghost_at head_on 0)) by run.
  split; [exact H1 |]. split; [exact H2 |]. split; [exact H3 |]. split; [exact H4 |].
  exact (proj1 (frightened_ghost_choice (ghost_at head_on 0) (player head_on)
                  (Some (6, 5)) 1 H1 H2 H3 H4)).
Defined.

(** Ghost 0 of the head-on run, eaten in the third frame. *)
Lemma eyes_until_home_witness :
  Ghost.mode (ghost_at (frames 3 [1%nat] head_on) 0) = eyes
  /\ (Ghost.mode (Ghost.update (ghost_at (frames 3 [1%nat] head_on) 0)
                    (player (frames 3 [1%nat] head_on)) None 0) = scatter
      \/ Ghost.mode (Ghost.update (ghost_at (frames 3 [1%nat] head_on) 0)
                       (player (frames 3 [1%nat] head_on)) None 0) = eyes).
Proof.
  assert (H1 : Ghost.mode (ghost_at (frames 3 [1%nat] head_on) 0) = eyes) by run.
  split; [exact H1 |].
  exact (proj1 (proj2 (eyes_until_home (ghost_at (frames 3 [1%nat] head_on) 0)
                         (player (frames 3 [1%nat] head_on)) None 0 H1))).
Defined.

(** The player of the run with two ghosts, killed in the third frame with
    two lives left. *)
Lemma respawn_after_countdown_witness :
  Pacman.alive (player (frames 3 [1%nat] two_ghosts)) = false
  /\ Pacman.respawn_timer (player (frames 3 [1%nat] two_ghosts)) = Z.of_nat 120
  /\ 0 < Pacman.lives (player (frames 3 [1%nat] two_ghosts))
  /\ Pacman.alive (player (Nat.iter 119 player_tick (frames 3 [1%nat] two_ghosts)))
     = false
  /\ Pacman.alive (player (Nat.iter 120 player_tick (frames 3 [1%nat] two_ghosts)))
     = true
  /\ pac_tile (player (Nat.iter 120 player_tick (frames 3 [1%nat] two_ghosts)))
     = pac_start.
Proof.
  assert (H1 : Pacman.alive (player (frames 3 [1%nat] two_ghosts)) = false) by run.
  assert (H2 : Pacman.respawn_timer (player (frames 3 [1%nat] two_ghosts))
               = Z.of_nat 120) by run.
  assert (H3 : 0 < Pacman.lives (player (frames 3 [1%nat] two_ghosts))) by run.
  split; [exact H1 |]. split; [exact H2 |]. split; [exact H3 |].
  pose proof (respawn_after_countdown (frames 3 [1%nat] two_ghosts) 119 H1 H2) as T.
  split; [exact (proj1 (proj1 T 119%nat (le_n 119))) |].
  destruct (proj1 (proj2 T) H3) as (A & B & _).
  split; [exact A | exact B].
Defined.

(** The player of the head-on run: idle on tile (5, 5), right queued, tile
    (6, 5) open. *)
Lemma queued_turn_witness :
  pac_next (Pacman.queue_dir (Pacman.init (5, 5)) 1 0) <> (0, 0)
  /\ TileMover.moving (Pacman.base (Pacman.queue_dir (Pacman.init (5, 5)) 1 0)) = false
  /\ is_open 6 5 = true
  /\ pac_dir (Pacman.update (Pacman.queue_dir (Pacman.init (5, 5)) 1 0)) = (1, 0)
  /\ pac_next (Pacman.update (Pacman.queue_dir (Pacman.init (5, 5)) 1 0)) = (0, 0).
Proof.
  assert (H1 : pac_next (Pacman.queue_dir (Pacman.init (5, 5)) 1 0) <> (0, 0))
    by (intros Hx; vm_compute in Hx; discriminate Hx).
  assert (H2 : TileMover.moving
                 (Pacman.base (Pacman.queue_dir (Pacman.init (5, 5)) 1 0)) = false)
    by run.
  assert (H3 : is_open 6 5 = true) by run.
  split; [exact H1 |]. split; [exact H2 |]. split; [exact H3 |].
  pose proof (queued_turn (Pacman.queue_dir (Pacman.init (5, 5)) 1 0) H1)
    as (_ & T & _ & O).
  exact (T H2 (O H3)).
Defined.

Lemma wrap_only_at_the_edges_witness :
  is_open (TileMover.tx (TileMover.init (27, 14)))
    (TileMover.ty (TileMover.init (27, 14))) = true
  /\ axis_step (1, 0)
  /\ snd (TileMover.start_move (TileMover.init (27, 14)) 1 0) = true
  /\ TileMover.warping (fst (TileMover.start_move (TileMover.init (27, 14)) 1 0)) = true
  /\ TileMover.warp_target (fst (TileMover.start_move (TileMover.init (27, 14)) 1 0))
     = Some (0, 14).
Proof.
  assert (H1 : is_open (TileMover.tx (TileMover.init (27, 14)))
                 (TileMover.ty (TileMover.init (27, 14))) = true) by run.
  assert (H2 : axis_step (1, 0)) by (right; left; reflexivity).
  assert (H3 : snd (TileMover.start_move (TileMover.init (27, 14)) 1 0) = true) by run.
  assert (H4 : TileMover.warping
                 (fst (TileMover.start_move (TileMover.init (27, 14)) 1 0)) = true)
    by run.
  split; [exact H1 |]. split; [exact H2 |]. split; [exact H3 |]. split; [exact H4 |].
  destruct (proj2 (wrap_only_at_the_edges (TileMover.init (27, 14)) 1 0 H1 H2 H3 H4))
    as [(_ & _ & T & _) | (E & _)]; [exact T |].
  vm_compute in E. discriminate E.
Defined.

Lemma step_of_a_move_witness :
  TileMover.moving in_tunnel = true
  /\ (TileMover.dx (TileMover.update_position_pixels in_tunnel),
      TileMover.dy (TileMover.update_position_pixels in_tunnel))
     = (TileMover.dx in_tunnel, TileMover.dy in_tunnel)
  /\ TileMover.speed (TileMover.update_position_pixels in_tunnel)
     = TileMover.speed in_tunnel.
Proof.
  assert (H1 : TileMover.moving in_tunnel = true) by run.
  split; [exact H1 |].
  pose proof (step_of_a_move in_tunnel H1) as (_ & _ & D & S & _).
  split; [exact D | exact S].
Defined.

(** Ghost 0 of the head-on run after two frames, on its way to the left. *)
Lemma ghost_in_transit_keeps_direction_witness :
  TileMover.moving (Ghost.base (ghost_at (frames 2 [1%nat] head_on) 0)) = true
  /\ Ghost.mode (ghost_at (frames 2 [1%nat] head_on) 0) = frightened
  /\ ghost_dir (Ghost.update (ghost_at (frames 2 [1%nat] head_on) 0)
                  (player (frames 2 [1%nat] head_on)) None 0)
     = ghost_dir (ghost_at (frames 2 [1%nat] head_on) 0).
Proof.
  assert (H1 : TileMover.moving (Ghost.base (ghost_at (frames 2 [1%nat] head_on) 0))
               = true) by run.
  assert (H2 : Ghost.mode (ghost_at (frames 2 [1%nat] head_on) 0) = frightened) by run.
  split; [exact H1 |]. split; [exact H2 |].
  destruct (ghost_in_transit_keeps_direction (ghost_at (frames 2 [1%nat] head_on) 0)
              (player (frames 2 [1%nat] head_on)) None 0 H1) as [E | (E & _)];
    [exact E |].
  rewrite H2 in E. discriminate E.
Defined.
Lemma movers_rest_at_tile_centres_witness :
  reachable (frames 1 [] initial_world)
  /\ TileMover.moving (Pacman.base (player (frames 1 [] initial_world))) = false
  /\ centred (Pacman.base (player (frames 1 [] initial_world))).
Proof.
  assert (H1 : TileMover.moving (Pacman.base (player (frames 1 [] initial_world)))
               = false) by run.
  split; [exact first_frame_reachable |]. split; [exact H1 |].
  exact (proj1 (movers_rest_at_tile_centres _ first_frame_reachable) H1).
Defined.

(** The player at the start, at rest on the pellet of tile (14, 23). *)
Lemma resting_player_picks_up_witness :
  reachable (initial_world (F := float))
  /\ TileMover.moving (Pacman.base (player (initial_world (F := float)))) = false
  /\ TileMover.at_center (Pacman.base (player (initial_world (F := float)))) = true
  /\ (pac_tile (player initial_world) ∉ pellets (pick_up (initial_world (F := float)))).
Proof.
  assert (H1 : reachable (initial_world (F := float))) by constructor.
  assert (H2 : TileMover.moving (Pacman.base (player (initial_world (F := float))))
               = false) by run.
  split; [exact H1 |]. split; [exact H2 |].
  pose proof (Doubles.resting_player_picks_up initial_world H1 H2) as (A & B & _).
  split; [exact A | exact B].
Defined.
End Instances.
